(** * Stock ledger, order-item workflow, dispensing recorder and SQL validator

    A shallow embedding of the request handlers of the drug management
    server (sellerController, dailyDispensingController, chatbotController,
    roleMiddleware) and the properties of their specification.

    Modelling conventions.
    - Integer columns and JSON integer numbers are [Z].  A JavaScript value
      that may be [undefined] or [null] is an [option]; truthiness is
      written out ([0], the empty string, [undefined] and [null] are falsy).
    - A table is a finite map from its primary key to the row; a query
      without ORDER BY lists the rows in the order of the map.
    - A request handler is a computation over the database connection: the
      current tables plus the snapshot taken by [BEGIN].  An early
      [return res.status(..).json(..)] is the left injection of the monad.
    - Timestamps ([created_at], [updated_at]) and log output are not
      modelled.  The schema is not part of the sources: columns are plain
      integers and strings, and no constraint beyond the primary keys is
      assumed.  Database statements succeed unless said otherwise; the two
      places where the source catches a statement error and goes on, the
      loop of [approveAllItems] and the loop of [importDispensingRecords],
      take the failing statements as an input.  Both loops run inside a
      transaction, which the first raising statement aborts: the later
      statements of the loop raise as well, and [COMMIT] rolls back.
    - Text is ASCII: letter case, white space and digits are those of the
      first 128 characters.  The uploaded file of the import is given as
      parsed, a list of rows; the file system is not modelled. *)

From Stdlib Require Import ZArith Lia Ascii String.
From stdpp Require Import base option list gmap strings.

Local Open Scope string_scope.
Local Open Scope Z_scope.

(** ** JavaScript values *)

Module Js.

(** [if (x)] for a number that may be absent. *)
Definition truthy_num (x : option Z) : bool :=
  match x with
  | Some z => negb (z =? 0)
  | None => false
  end.

(** [if (s)] for a string that may be absent. *)
Definition truthy_str (s : option string) : bool :=
  match s with
  | Some s => negb (String.eqb s EmptyString)
  | None => false
  end.

(** The number that the body parser reads from an integer literal: the
    nearest double, ties to the even mantissa of 53 bits.  Integers up to
    2^53 in magnitude are read exactly.  Literals beyond the range of the
    doubles, which are read as [Infinity], are not covered. *)
Definition to_double (z : Z) : Z :=
  let a := Z.abs z in
  let e := Z.log2 a - 52 in
  if e <=? 0 then z
  else
    let q := a / 2 ^ e in
    let r := a mod 2 ^ e in
    let half := 2 ^ (e - 1) in
    let q' := if r <? half then q
              else if half <? r then q + 1
              else if Z.even q then q else q + 1 in
    Z.sgn z * (q' * 2 ^ e).

(** The number of decimal digits of a positive integer, and its first
    digit. *)
Fixpoint digits_from (fuel : nat) (a : Z) : Z :=
  match fuel with
  | O => 0
  | S fuel' => if a <? 10 then 1 else 1 + digits_from fuel' (a / 10)
  end.
Definition digits (a : Z) : Z := digits_from (Z.to_nat (Z.log2 a + 1)) a.
Definition leading (a : Z) : Z := a / 10 ^ (digits a - 1).

(** [Number.prototype.toString] on a double [a]: the decimal with the
    fewest significant digits [k] that reads back as [a], the closest one
    when there are two, the even one on a tie; seventeen digits always
    suffice. *)
Fixpoint shortest (fuel : nat) (k : Z) (a : Z) : Z :=
  match fuel with
  | O => a
  | S fuel' =>
    let scale := 10 ^ (digits a - k) in
    let lo := a / scale * scale in
    let hi := lo + scale in
    let oklo := to_double lo =? a in
    let okhi := to_double hi =? a in
    if oklo && okhi then
      if a - lo <? hi - a then lo
      else if hi - a <? a - lo then hi
      else if Z.even (lo / scale) then lo else hi
    else if oklo then lo
    else if okhi then hi
    else shortest fuel' (k + 1) a
  end.

(** [parseInt(n)] for the number [n] read from an integer literal:
    [parseInt] converts the number to text and reads the leading digits
    back.  Below 10^21 in magnitude the text is the digits of the number,
    and the number is read back; from 10^21 on the text has the form
    [d.ddde+NN] and only the digit before the point is read ([1e21] is
    read as [1]). *)
Definition parseInt (z : Z) : Z :=
  let x := to_double z in
  if Z.abs x <? 10 ^ 21 then x
  else Z.sgn x * leading (shortest 17 1 (Z.abs x)).

(** [a < b] where [a] may be [null]: [null] converts to [0]. *)
Definition lt_null (a : option Z) (b : Z) : bool :=
  match a with
  | Some a => a <? b
  | None => 0 <? b
  end.

(** [Number(x) || 0] for an integer or [null]. *)
Definition number_or_0 (x : option Z) : Z :=
  match x with
  | Some z => if z =? 0 then 0 else z
  | None => 0
  end.

(** [s || d] for a string that may be absent. *)
Definition str_or (s : option string) (d : string) : string :=
  match s with
  | Some s => if String.eqb s EmptyString then d else s
  | None => d
  end.

End Js.

(** ** The database *)

Record drug := mkDrug {
  d_name : string;
  d_stock : Z;
  d_created_by : Z
}.

Record order := mkOrder {
  o_user_id : Z;
  o_recipient_id : option Z
}.

Record order_item := mkItem {
  oi_order_id : Z;
  oi_drug_id : option Z;
  oi_quantity : Z;
  oi_status : string;
  oi_seller_id : Z
}.

Record dispensing := mkDisp {
  dds_drug_id : Z;
  dds_quantity_dispensed : Z;
  dds_dispensing_date : string;
  dds_category : string;
  dds_notes : option string;
  dds_recorded_by : Z
}.

(** Every table is a finite map from its primary key [id] to the other
    columns of the row. *)
Record tables := mkTables {
  drugs : gmap Z drug;
  orders : gmap Z order;
  order_items : gmap Z order_item;
  daily_dispensing_summary : gmap Z dispensing;
  dds_next_id : Z
}.

(** A connection: the tables as the session sees them, and the snapshot to
    which [ROLLBACK] returns while a transaction is open. *)
Record conn := mkConn {
  cur : tables;
  saved : option tables
}.

(** HTTP responses of the handlers, one constructor per [res.json] site. *)
Record stock_issue := mkIssue {
  si_drug_name : string;
  si_requested : Z;
  si_available : Z;
  si_reason : string
}.

Inductive response :=
| ItemNotFound
| InsufficientStock (available : option Z) (requested : Z)
| ItemUpdated
| NoPendingItems (approvedCount : Z) (insufficientStockItems : list stock_issue)
| BulkApproved (approvedCount : Z) (insufficientStockItems : list stock_issue)
               (totalItems : Z)
| OnlyTodayAllowed (currentDate : string)
| DrugNotFound
| DispenseInsufficient (available requested : Z)
| DispenseUpdateInsufficient (available needed : Z)
| DispenseRecorded (updated : bool) (row : option (Z * dispensing))
                   (updated_stock : option Z)
| DuplicateRecord.

(** ** The handler monad: state passing with early return *)

Definition handler (A : Type) : Type := conn → (response + A) * conn.

#[export] Instance handler_ret : MRet handler := λ A a c, (inr a, c).
#[export] Instance handler_bind : MBind handler := λ A B f m c,
  match m c with
  | (inl r, c') => (inl r, c')
  | (inr a, c') => f a c'
  end.

(** [return res.status(..).json(r)] before the end of the handler. *)
Definition reply {A} (r : response) : handler A := λ c, (inl r, c).

Definition get_tables : handler tables := λ c, (inr (cur c), c).
Definition put_tables (t : tables) : handler unit :=
  λ c, (inr tt, mkConn t (saved c)).

Definition BEGIN : handler unit := λ c, (inr tt, mkConn (cur c) (Some (cur c))).
Definition COMMIT : handler unit := λ c, (inr tt, mkConn (cur c) None).
Definition ROLLBACK : handler unit := λ c,
  (inr tt, mkConn (default (cur c) (saved c)) None).

(** A statement that raises inside an open transaction aborts the
    transaction: the session refuses every later statement until the
    transaction is ended, and ending it, by [COMMIT] as by [ROLLBACK],
    undoes what the transaction did.  No handler reads the tables between
    the raise and the end of the transaction, so the tables are taken back
    to the snapshot at once. *)
Definition ABORT : handler unit := λ c,
  (inr tt, mkConn (default (cur c) (saved c)) (saved c)).

Definition when (b : bool) (h : handler unit) : handler unit :=
  if b then h else mret tt.

(** One HTTP request on a connection with no open transaction: the
    response and the tables it leaves behind. *)
Definition run (h : handler response) (t : tables) : response * tables :=
  match h (mkConn t None) with
  | (inl r, c) => (r, cur c)
  | (inr r, c) => (r, cur c)
  end.

(** Columns read back by key. *)
Definition stock_of (t : tables) (drug_id : Z) : option Z :=
  d_stock <$> drugs t !! drug_id.
Definition status_of (t : tables) (id : Z) : option string :=
  oi_status <$> order_items t !! id.
Definition quantity_of (t : tables) (id : Z) : option Z :=
  oi_quantity <$> order_items t !! id.

(** ** SQL statements used by the handlers *)

Module Sql.

Definition set_stock (s : Z) (d : drug) : drug :=
  mkDrug (d_name d) s (d_created_by d).

Definition set_quantity (q : Z) (i : order_item) : order_item :=
  mkItem (oi_order_id i) (oi_drug_id i) q (oi_status i) (oi_seller_id i).

Definition set_status (s : string) (i : order_item) : order_item :=
  mkItem (oi_order_id i) (oi_drug_id i) (oi_quantity i) s (oi_seller_id i).

Definition put_drugs (m : gmap Z drug) : handler unit :=
  t ← get_tables;
  put_tables (mkTables m (orders t) (order_items t)
                       (daily_dispensing_summary t) (dds_next_id t)).

Definition put_items (m : gmap Z order_item) : handler unit :=
  t ← get_tables;
  put_tables (mkTables (drugs t) (orders t) m
                       (daily_dispensing_summary t) (dds_next_id t)).

(** [UPDATE drugs SET stock = stock - $1 WHERE id = $2] *)
Definition drugs_sub_stock (q id : Z) : handler unit :=
  t ← get_tables;
  put_drugs (alter (λ d, set_stock (d_stock d - q) d) id (drugs t)).

(** [UPDATE drugs SET stock = stock + $1 WHERE id = $2] *)
Definition drugs_add_stock (q id : Z) : handler unit :=
  t ← get_tables;
  put_drugs (alter (λ d, set_stock (d_stock d + q) d) id (drugs t)).

(** [UPDATE order_items SET quantity = $1 WHERE id = $2] *)
Definition items_set_quantity (q id : Z) : handler unit :=
  t ← get_tables; put_items (alter (set_quantity q) id (order_items t)).

(** [UPDATE order_items SET status = $1 WHERE id = $2] *)
Definition items_set_status (s : string) (id : Z) : handler unit :=
  t ← get_tables; put_items (alter (set_status s) id (order_items t)).

End Sql.

(** ** sellerController: [updateOrderItemStatus] *)

(** The row of the ownership query: the item joined (LEFT JOIN) with its
    drug; [ir_stock] is [null] when no drug row matches. *)
Record item_row := mkItemRow {
  ir_id : Z;
  ir_current_status : string;
  ir_drug_id : option Z;
  ir_original_quantity : Z;
  ir_stock : option Z
}.

(** [SELECT oi.id, oi.status AS current_status, oi.drug_id,
           oi.quantity AS original_quantity, d.stock
    FROM order_items oi LEFT JOIN drugs d ON oi.drug_id = d.id
    WHERE oi.id = $1 AND oi.seller_id = $2]; the key selects at most one
    row, [None] is the empty result. *)
Definition select_item (t : tables) (orderItemId sellerId : Z)
    : option item_row :=
  i ← order_items t !! orderItemId;
  if oi_seller_id i =? sellerId then
    Some (mkItemRow orderItemId (oi_status i) (oi_drug_id i) (oi_quantity i)
                    (d ← oi_drug_id i; stock_of t d))
  else None.

Definition updateOrderItemStatus (orderItemId sellerId : Z)
    (status : option string) (quantity : option Z) : handler response :=
  t ← get_tables;
  match select_item t orderItemId sellerId with
  | None => reply ItemNotFound
  | Some item =>
    let newQuantity :=
      if Js.truthy_num quantity
      then Js.parseInt (default 0 quantity)
      else ir_original_quantity item in
    BEGIN;;
    (* Quantity update *)
    when (Js.truthy_num quantity)
      (Sql.items_set_quantity newQuantity orderItemId);;
    (* Status update *)
    when (Js.truthy_str status)
      (let status := default EmptyString status in
       Sql.items_set_status status orderItemId;;
       (* Stock adjustment *)
       when (Js.truthy_num (ir_drug_id item))
         (let drug_id := default 0 (ir_drug_id item) in
          if String.eqb status "approved"
             && negb (String.eqb (ir_current_status item) "approved")
          then
            (* Check if enough stock *)
            if Js.lt_null (ir_stock item) newQuantity then
              ROLLBACK;;
              reply (InsufficientStock (ir_stock item) newQuantity)
            else Sql.drugs_sub_stock newQuantity drug_id
          else if String.eqb status "rejected"
                  && String.eqb (ir_current_status item) "approved"
          then Sql.drugs_add_stock (ir_original_quantity item) drug_id
          else mret tt));;
    COMMIT;;
    mret ItemUpdated
  end.

(** ** sellerController: [approveAllItems] *)

(** A row of the locking query: a pending item joined (INNER JOIN) with
    its drug. *)
Record pending_row := mkPending {
  pr_id : Z;
  pr_drug_id : Z;
  pr_quantity : Z;
  pr_stock : Z;
  pr_drug_name : string
}.

(** [SELECT oi.id, oi.drug_id, oi.quantity, d.stock, d.name AS drug_name
    FROM order_items oi INNER JOIN drugs d ON oi.drug_id = d.id
    WHERE oi.order_id = $1 AND oi.status = 'pending'
      AND (oi.seller_id = $2
           OR $2 = (SELECT recipient_id FROM orders WHERE id = $1))
    FOR UPDATE]; the query has no ORDER BY, the rows come in the order in
    which the map lists them. *)
Definition select_pending (t : tables) (orderId sellerId : Z)
    : list pending_row :=
  omap (λ '(id, i), d ← oi_drug_id i;
                    dr ← drugs t !! d;
                    Some (mkPending id d (oi_quantity i) (d_stock dr)
                                    (d_name dr)))
       (filter (λ '(_, i), oi_order_id i = orderId ∧ oi_status i = "pending" ∧
                           (oi_seller_id i = sellerId ∨
                            (orders t !! orderId ≫= o_recipient_id)
                            = Some sellerId))
               (map_to_list (order_items t))).

(** Which statement of one loop iteration raises, if any.  The iteration
    catches the error and the loop goes on, in an aborted transaction. *)
Inductive fault := NoFault | StatusUpdateFails | StockUpdateFails.

Definition issue (item : pending_row) (requested available : Z)
    (reason : string) : stock_issue :=
  mkIssue (pr_drug_name item) requested available reason.

(** The rest of the loop once the transaction is aborted: for a row that
    passes the stock check the first statement raises, and the row is
    listed with the database error; the other rows are listed as ever. *)
Fixpoint approve_aborted (rows : list pending_row)
    (insufficientStockItems : list stock_issue) : list stock_issue :=
  match rows with
  | [] => insufficientStockItems
  | item :: rows' =>
    let availableStock := Js.number_or_0 (Some (pr_stock item)) in
    let requestedQuantity := pr_quantity item in
    approve_aborted rows'
      (insufficientStockItems ++
       [issue item requestedQuantity availableStock
              (if requestedQuantity <=? availableStock
               then "Database error during approval"
               else "Insufficient stock")])
  end.

(** The [for (const item of pendingItems.rows)] loop; [n] is the index of
    the iteration, [approvedCount] and [insufficientStockItems] are the two
    mutable locals. *)
Fixpoint approve_loop (faults : nat → fault) (n : nat) (rows : list pending_row)
    (approvedCount : Z) (insufficientStockItems : list stock_issue)
    : handler (Z * list stock_issue) :=
  match rows with
  | [] => mret (approvedCount, insufficientStockItems)
  | item :: rows' =>
    let availableStock := Js.number_or_0 (Some (pr_stock item)) in
    let requestedQuantity := pr_quantity item in
    if requestedQuantity <=? availableStock then
      match faults n with
      | NoFault =>
        (* Approve the item *)
        Sql.items_set_status "approved" (pr_id item);;
        (* Deduct stock *)
        Sql.drugs_sub_stock requestedQuantity (pr_drug_id item);;
        approve_loop faults (S n) rows' (approvedCount + 1)
                     insufficientStockItems
      | StatusUpdateFails =>
        ABORT;;
        mret (approvedCount,
              approve_aborted rows'
                (insufficientStockItems ++
                 [issue item requestedQuantity availableStock
                        "Database error during approval"]))
      | StockUpdateFails =>
        Sql.items_set_status "approved" (pr_id item);;
        ABORT;;
        mret (approvedCount,
              approve_aborted rows'
                (insufficientStockItems ++
                 [issue item requestedQuantity availableStock
                        "Database error during approval"]))
      end
    else
      approve_loop faults (S n) rows' approvedCount
        (insufficientStockItems ++
         [issue item requestedQuantity availableStock "Insufficient stock"])
  end.

Definition approveAllItems (faults : nat → fault) (orderId sellerId : Z)
    : handler response :=
  BEGIN;;
  t ← get_tables;
  let pendingItems := select_pending t orderId sellerId in
  if (length pendingItems =? 0)%nat then
    ROLLBACK;;
    reply (NoPendingItems 0 [])
  else
    '(approvedCount, insufficientStockItems) ←
      approve_loop faults 0%nat pendingItems 0 [];
    COMMIT;;
    mret (BulkApproved approvedCount insufficientStockItems
                       (Z.of_nat (length pendingItems))).

(** ** dailyDispensingController: [recordDailyDispensing] *)

Module Dispensing.

Definition put_summary (m : gmap Z dispensing) (next : Z) : handler unit :=
  t ← get_tables;
  put_tables (mkTables (drugs t) (orders t) (order_items t) m next).

(** [SELECT id, quantity_dispensed FROM daily_dispensing_summary
    WHERE drug_id = $1 AND dispensing_date = $2 AND category = $3] *)
Definition select_existing (t : tables) (drug_id : Z) (date category : string)
    : list (Z * dispensing) :=
  filter (λ '(_, r), dds_drug_id r = drug_id ∧ dds_dispensing_date r = date ∧
                     dds_category r = category)
         (map_to_list (daily_dispensing_summary t)).

Definition set_quantity_notes (q : Z) (notes : option string)
    (r : dispensing) : dispensing :=
  mkDisp (dds_drug_id r) q (dds_dispensing_date r) (dds_category r) notes
         (dds_recorded_by r).

(** [UPDATE daily_dispensing_summary SET quantity_dispensed = $1,
    notes = $2 WHERE id = $3 RETURNING *] *)
Definition update_summary (q : Z) (notes : option string) (id : Z)
    : handler (option (Z * dispensing)) :=
  t ← get_tables;
  let m := alter (set_quantity_notes q notes) id (daily_dispensing_summary t) in
  put_summary m (dds_next_id t);;
  mret (pair id <$> m !! id).

(** [INSERT INTO daily_dispensing_summary (drug_id, quantity_dispensed,
    dispensing_date, category, notes, recorded_by) VALUES (..)
    RETURNING *]; the key is drawn from the table's sequence.  The primary
    key is unique: when a row is stored under the key drawn, the statement
    raises a unique violation (code 23505) and inserts nothing; [None] is
    that outcome.  The sequence is kept with the tables and follows the
    transaction. *)
Definition insert_summary (drug_id q : Z) (date category : string)
    (notes : option string) (userId : Z)
    : handler (option (Z * dispensing)) :=
  t ← get_tables;
  match daily_dispensing_summary t !! dds_next_id t with
  | Some _ => mret None
  | None =>
    let row := mkDisp drug_id q date category notes userId in
    put_summary (<[dds_next_id t := row]> (daily_dispensing_summary t))
                (dds_next_id t + 1);;
    mret (Some (dds_next_id t, row))
  end.

(** [SELECT id, name, stock FROM drugs WHERE id = $1 AND created_by = $2] *)
Definition select_owned_drug (t : tables) (drug_id userId : Z) : option drug :=
  dr ← drugs t !! drug_id;
  if d_created_by dr =? userId then Some dr else None.

(** [currentDate] is the server's reading of the clock,
    [new Date().toISOString().split('T')[0]]. *)
Definition recordDailyDispensing (currentDate : string) (userId : Z)
    (drug_id quantity_dispensed : Z) (dispensing_date category : option string)
    (notes : option string) : handler response :=
  (* Validate date - only allow current date *)
  let requestedDate := Js.str_or dispensing_date currentDate in
  if negb (String.eqb requestedDate currentDate) then
    reply (OnlyTodayAllowed currentDate)
  else
    BEGIN;;
    (* Check drug availability and ownership *)
    t ← get_tables;
    match select_owned_drug t drug_id userId with
    | None => ROLLBACK;; reply DrugNotFound
    | Some drug =>
      (* Check if we have enough stock *)
      if d_stock drug <? quantity_dispensed then
        ROLLBACK;;
        reply (DispenseInsufficient (d_stock drug) quantity_dispensed)
      else
        (* Check if record already exists for today *)
        let existingRecord :=
          select_existing t drug_id currentDate (Js.str_or category "OPD") in
        result ←
          match existingRecord with
          | (existing_id, existing) :: _ =>
            (* Update existing record *)
            let quantityDifference :=
              quantity_dispensed - dds_quantity_dispensed existing in
            (* Check if we have enough stock for the update *)
            if d_stock drug <? quantityDifference then
              ROLLBACK;;
              reply (DispenseUpdateInsufficient (d_stock drug)
                                                quantityDifference)
            else
              result ← update_summary quantity_dispensed notes existing_id;
              (* Update drug stock *)
              Sql.drugs_sub_stock quantityDifference drug_id;;
              mret result
          | [] =>
            (* Create new record *)
            result ← insert_summary drug_id quantity_dispensed currentDate
                                    (Js.str_or category "OPD") notes userId;
            match result with
            | None =>
              (* catch: err.code === '23505' *)
              ROLLBACK;;
              reply DuplicateRecord
            | Some row =>
              (* Update drug stock *)
              Sql.drugs_sub_stock quantity_dispensed drug_id;;
              mret (Some row)
            end
          end;
        COMMIT;;
        (* Get updated drug stock *)
        t' ← get_tables;
        mret (DispenseRecorded (0 <? length existingRecord)%nat result
                               (stock_of t' drug_id))
    end.

End Dispensing.

(** ** Strings and regular expressions of the chatbot controller

    Strings are sequences of code units below 128.  The matcher is the
    backtracking one of the language: alternatives left to right, greedy
    and lazy repetition, an iteration of a repetition must consume input. *)

Module Regex.

Inductive re :=
| Eps
| Chr (p : ascii → bool)
| Seq (a b : re)
| Alt (a b : re)
| Star (a : re)
| Lazy (a : re)
| Grp (i : nat) (a : re)
| WordB
| Bol
| Eol.

Definition Plus (a : re) : re := Seq a (Star a).
Definition Opt (a : re) : re := Alt a Eps.

Definition code (c : ascii) : N := N_of_ascii c.
Definition between (lo hi : N) (c : ascii) : bool :=
  ((lo <=? code c) && (code c <=? hi))%N.

Definition is_lower : ascii → bool := between 97 122.
Definition is_upper : ascii → bool := between 65 90.
Definition is_digit : ascii → bool := between 48 57.
Definition is_char (c d : ascii) : bool := Ascii.eqb c d.

(** [\w], [\s] *)
Definition is_word (c : ascii) : bool :=
  is_lower c || is_upper c || is_digit c || is_char "_" c.
Definition is_space (c : ascii) : bool :=
  between 9 13 c || is_char " " c.

Definition lower (c : ascii) : ascii :=
  if is_upper c then ascii_of_N (code c + 32) else c.
Definition upper (c : ascii) : ascii :=
  if is_lower c then ascii_of_N (code c - 32) else c.

(** A literal; [ci] is the [i] flag. *)
Fixpoint Lit (ci : bool) (s : list ascii) : re :=
  match s with
  | [] => Eps
  | c :: s' =>
    Seq (Chr (λ d, if ci then is_char (lower c) (lower d) else is_char c d))
        (Lit ci s')
  end.

(** Matcher state: the code unit before the position, the input from the
    position on, the position, and the captures set so far. *)
Record mstate := mkState {
  before : option ascii;
  rest : list ascii;
  pos : nat;
  caps : list (nat * (nat * nat))
}.

Definition at_boundary (s : mstate) : bool :=
  xorb (from_option is_word false (before s))
       (from_option is_word false (head (rest s))).

(** Repetition of a matcher [step], greedy and lazy: an iteration that
    consumes nothing is dropped, so [n] iterations need [n] code units. *)
Definition rep_greedy (step : (mstate → option mstate) → mstate → option mstate)
    (k : mstate → option mstate) : nat → mstate → option mstate :=
  fix loop (n : nat) (s : mstate) : option mstate :=
    match n with
    | O => k s
    | S n' =>
      match step (λ s', if (pos s <? pos s')%nat then loop n' s' else None) s
      with
      | Some e => Some e
      | None => k s
      end
    end.

Definition rep_lazy (step : (mstate → option mstate) → mstate → option mstate)
    (k : mstate → option mstate) : nat → mstate → option mstate :=
  fix loop (n : nat) (s : mstate) : option mstate :=
    match n with
    | O => k s
    | S n' =>
      match k s with
      | Some e => Some e
      | None =>
        step (λ s', if (pos s <? pos s')%nat then loop n' s' else None) s
      end
    end.

Fixpoint matcher (r : re) (k : mstate → option mstate) (s : mstate)
    : option mstate :=
  match r with
  | Eps => k s
  | Chr p =>
    match rest s with
    | c :: tl => if p c then k (mkState (Some c) tl (S (pos s)) (caps s))
                 else None
    | [] => None
    end
  | Seq a b => matcher a (matcher b k) s
  | Alt a b =>
    match matcher a k s with
    | Some e => Some e
    | None => matcher b k s
    end
  | Star a => rep_greedy (matcher a) k (S (length (rest s))) s
  | Lazy a => rep_lazy (matcher a) k (S (length (rest s))) s
  | Grp i a => matcher a (λ s', k (mkState (before s') (rest s') (pos s')
                                     ((i, (pos s, pos s')) :: caps s'))) s
  | WordB => if at_boundary s then k s else None
  | Bol => match before s with None => k s | Some _ => None end
  | Eol => match rest s with [] => k s | _ :: _ => None end
  end.

(** A state reached from [s] by consuming input. *)
Definition extends (s s' : mstate) : Prop :=
  (pos s ≤ pos s')%nat ∧
  (pos s' + length (rest s') = pos s + length (rest s))%nat.

(** Leftmost match at or after the position: its start and end state. *)
Fixpoint search (r : re) (b : option ascii) (l : list ascii) (p : nat)
    : option (nat * mstate) :=
  match matcher r Some (mkState b l p []) with
  | Some e => Some (p, e)
  | None =>
    match l with
    | [] => None
    | c :: tl => search r (Some c) tl (S p)
    end
  end.

(** The successive matches of a global regular expression ([lastIndex]
    moves to the end of each match; past an empty match it moves on by
    one code unit). *)
Fixpoint matches (fuel : nat) (r : re) (b : option ascii) (l : list ascii)
    (p : nat) : list (nat * mstate) :=
  match fuel with
  | O => []
  | S fuel' =>
    match search r b l p with
    | None => []
    | Some (st, e) =>
      (st, e) ::
      (if (pos e =? st)%nat then
         match rest e with
         | [] => []
         | c :: tl => matches fuel' r (Some c) tl (S (pos e))
         end
       else matches fuel' r (before e) (rest e) (pos e))
    end
  end.

Definition exec_all (r : re) (s : list ascii) : list (nat * mstate) :=
  matches (S (length s)) r None s 0%nat.

(** [s.replace(/r/g, by)] *)
Fixpoint replace_from (fuel : nat) (r : re) (by_ : list ascii)
    (b : option ascii) (l : list ascii) (p : nat) : list ascii :=
  match fuel with
  | O => l
  | S fuel' =>
    match search r b l p with
    | None => l
    | Some (st, e) =>
      take (st - p) l ++ by_ ++
      (if (pos e =? st)%nat then
         match rest e with
         | [] => []
         | c :: tl => c :: replace_from fuel' r by_ (Some c) tl (S (pos e))
         end
       else replace_from fuel' r by_ (before e) (rest e) (pos e))
    end
  end.

Definition replace_all (r : re) (by_ : list ascii) (s : list ascii)
    : list ascii :=
  replace_from (S (length s)) r by_ None s 0%nat.

(** [r.test(s)] *)
Definition test (r : re) (s : list ascii) : bool :=
  bool_decide (is_Some (search r None s 0%nat)).

(** [s.slice(i, j)] for [0 <= i] *)
Definition slice (i j : nat) (s : list ascii) : list ascii :=
  take (j - i) (drop i s).

(** Text of capture group [i] of a match on [s]. *)
Definition group (i : nat) (e : mstate) (s : list ascii)
    : option (list ascii) :=
  '(a, b) ← snd <$> List.find (λ c, (fst c =? i)%nat) (caps e);
  Some (slice a b s).

(** [s.match(r)[0]] for a regular expression without the [g] flag. *)
Definition match0 (r : re) (s : list ascii) : option (list ascii) :=
  '(st, e) ← search r None s 0%nat;
  Some (slice st (pos e) s).

End Regex.

Module Str.

Import Regex.

Definition chars : string → list ascii := list_ascii_of_string.
Definition str : list ascii → string := string_of_list_ascii.

(** [s.toLowerCase()] and [s.toUpperCase()] on ASCII text: the letters
    a to z and A to Z are mapped, every other character stays.  Text with
    characters beyond the first 128 is outside these definitions: there
    the case mappings of JavaScript also reach into ASCII. *)
Definition toLowerCase (s : list ascii) : list ascii := lower <$> s.
Definition toUpperCase (s : list ascii) : list ascii := upper <$> s.

Fixpoint startsWith (p s : list ascii) : bool :=
  match p, s with
  | [], _ => true
  | c :: p', d :: s' => is_char c d && startsWith p' s'
  | _ :: _, [] => false
  end.

Fixpoint includes (p s : list ascii) : bool :=
  startsWith p s ||
  match s with
  | [] => false
  | _ :: s' => includes p s'
  end.

Definition endsWith (p s : list ascii) : bool :=
  startsWith (reverse p) (reverse s).

Fixpoint trimStart (s : list ascii) : list ascii :=
  match s with
  | c :: s' => if is_space c then trimStart s' else s
  | [] => []
  end.

Definition trim (s : list ascii) : list ascii :=
  reverse (trimStart (reverse (trimStart s))).

(** [s.split('.').pop()] *)
Fixpoint after_last_dot (acc s : list ascii) : list ascii :=
  match s with
  | [] => acc
  | c :: s' => if is_char "." c then after_last_dot [] s'
               else after_last_dot (acc ++ [c]) s'
  end.

End Str.

(** ** chatbotController: [validateSQLColumns] and [generateValidatedSQL] *)

Module Chatbot.

Import Regex Str.

Definition forbiddenKeywords : list string :=
  ["INSERT"; "UPDATE"; "DELETE"; "DROP"; "ALTER"; "CREATE"; "TRUNCATE"].

Definition validColumns : list string :=
  [ "users.id"; "users.name"; "users.email"; "users.password"; "users.phone";
    "users.street"; "users.city"; "users.state"; "users.postal_code";
    "users.country"; "users.status"; "users.registration_date";
    "users.license_number"; "users.role"; "users.created_by";
    "users.created_at"; "users.updated_at";
    "drugs.id"; "drugs.drug_type"; "drugs.name"; "drugs.batch_no";
    "drugs.description"; "drugs.stock"; "drugs.mfg_date"; "drugs.exp_date";
    "drugs.price"; "drugs.created_by"; "drugs.category"; "drugs.created_at";
    "drugs.updated_at";
    "orders.id"; "orders.order_no"; "orders.user_id"; "orders.recipient_id";
    "orders.transaction_type"; "orders.notes"; "orders.total_amount";
    "orders.created_at"; "orders.updated_at";
    "order_items.id"; "order_items.order_id"; "order_items.drug_id";
    "order_items.custom_name"; "order_items.manufacturer_name";
    "order_items.quantity"; "order_items.unit_price";
    "order_items.total_price"; "order_items.source_type";
    "order_items.category"; "order_items.batch_no"; "order_items.seller_id";
    "order_items.status"; "order_items.created_at"; "order_items.updated_at";
    "drug_types.id"; "drug_types.type_name"; "drug_types.created_at";
    "drug_types.updated_at";
    "drug_names.id"; "drug_names.type_id"; "drug_names.name";
    "drug_names.created_at"; "drug_names.updated_at" ].

Definition sqlKeywords : list string :=
  [ "select"; "from"; "where"; "order"; "by"; "limit"; "join"; "left";
    "right"; "inner"; "outer"; "on"; "and"; "or"; "group"; "having"; "as";
    "count"; "sum"; "avg"; "min"; "max"; "distinct"; "case"; "when"; "then";
    "else"; "end"; "between"; "in"; "is"; "not"; "null"; "like"; "ilike";
    "exists"; "now"; "interval"; "true"; "false"; "offset"; "union"; "all";
    "except"; "intersect"; "limit"; "offset" ].

Definition any : re := Chr (λ _, true).
Definition ch (c : ascii) : re := Chr (is_char c).
Definition spaces : re := Plus (Chr is_space).

(** The double quote. *)
Definition dquote : ascii := "034".

(** The classes [a-z_] and [a-z0-9_.] plus the double quote, with the
    [i] flag when [ci]. *)
Definition az_ (ci : bool) : re :=
  Chr (λ c, is_lower c || (ci && is_upper c) || is_char "_" c).
Definition table_char : re :=
  Chr (λ c, is_lower c || is_upper c || is_digit c || is_char "_" c
            || is_char "." c || is_char dquote c).
Definition ident (ci : bool) : re := Seq (az_ ci) (Star (Chr is_word)).

(** [/q(?:\\q|[^q])*q/g] for a quote character [q] *)
Definition quoted (q : ascii) : re :=
  Seq (ch q)
      (Seq (Star (Alt (Seq (ch "\") (ch q)) (Chr (λ c, negb (is_char q c)))))
           (ch q)).

(** [/\$\$[\s\S]*?\$\$/g] *)
Definition dollarQuoted : re :=
  Seq (ch "$") (Seq (ch "$") (Seq (Lazy any) (Seq (ch "$") (ch "$")))).

(** [/\b(?:from|join)\s+(T+)(?:\s+(?:as\s+)?(ID))?/ig] where [T] is the
    table class above and [ID] an identifier, a letter or underscore
    followed by word characters *)
Definition tableRegex : re :=
  Seq WordB
 (Seq (Alt (Lit true (chars "from")) (Lit true (chars "join")))
 (Seq spaces
 (Seq (Grp 1 (Plus table_char))
      (Opt (Seq spaces
           (Seq (Opt (Seq (Lit true (chars "as")) spaces))
                (Grp 2 (ident true)))))))).

(** [/\b(ID)\.(ID)\b/ig] *)
Definition qualifiedRegex : re :=
  Seq WordB (Seq (Grp 1 (ident true))
            (Seq (ch ".") (Seq (Grp 2 (ident true)) WordB))).

(** [/\b(ID)\b/ig] *)
Definition tokenRegex : re := Seq WordB (Seq (Grp 1 (ident true)) WordB).

(** [/^\d+$/] *)
Definition allDigits : re := Seq Bol (Seq (Plus (Chr is_digit)) Eol).

(** [/\.[a-z_]/] and [/\bID\.\b/], both without the [i] flag *)
Definition dotThenName : re := Seq (ch ".") (az_ false).
Definition nameThenDot : re :=
  Seq WordB (Seq (ident false) (Seq (ch ".") WordB)).

(** [/^Q+|Q+$/g] for the double quote [Q] *)
Definition edgeQuotes : re :=
  Alt (Seq Bol (Plus (ch dquote))) (Seq (Plus (ch dquote)) Eol).

(** [new RegExp(`\\b${tbl}\\.${col}\\b`)] and [new RegExp(`\\b${token}\\b`)]
    for names made of word characters, which need no escaping. *)
Definition qualifiedToken (tbl col : list ascii) : re :=
  Seq WordB (Seq (Lit false tbl) (Seq (ch ".") (Seq (Lit false col) WordB))).
Definition bareToken (token : list ascii) : re :=
  Seq WordB (Seq (Lit false token) WordB).

(** The alias object [{}]: own properties in a finite map; the two
    all-lowercase names it inherits from [Object.prototype] read as
    objects, and assigning a string to [__proto__] creates nothing. *)
Definition inherited (k : string) : option string :=
  if String.eqb k "constructor" then Some "function Object() { [native code] }"
  else if String.eqb k "__proto__" then Some "[object Object]"
  else None.

Definition alias_set (k v : string) (a : gmap string string)
    : gmap string string :=
  if String.eqb k "__proto__" then a else <[k := v]> a.

Definition alias_get (a : gmap string string) (k : string) : option string :=
  match a !! k with
  | Some v => Some v
  | None => inherited k
  end.

(** Step 2: the body of the [tableRegex.exec] loop. *)
Definition record_table (lowerSql : list ascii) (a : gmap string string)
    (mt : nat * mstate) : gmap string string :=
  let tableToken := trim (default [] (group 1 (snd mt) lowerSql)) in
  let alias := trim <$> group 2 (snd mt) lowerSql in
  let tableToken := replace_all edgeQuotes [] tableToken in
  let tableName := after_last_dot [] tableToken in
  let a := if Js.truthy_str (str <$> alias)
           then alias_set (str (default [] alias)) (str tableName) a
           else a in
  alias_set (str tableName) (str tableName) a.

(** [invalid.add(x)] on an insertion-ordered set. *)
Definition set_add (x : string) (l : list string) : list string :=
  if existsb (String.eqb x) l then l else l ++ [x].

(** Step 3: the body of the [qualifiedRegex.exec] loop. *)
Definition check_qualified (sql lowerSql : list ascii)
    (a : gmap string string) (invalid : list string) (mt : nat * mstate)
    : list string :=
  let tbl := default [] (group 1 (snd mt) lowerSql) in
  let col := default [] (group 2 (snd mt) lowerSql) in
  let mappedTable := Js.str_or (alias_get a (str tbl)) (str tbl) in
  let full := mappedTable +:+ "." +:+ str col in
  if negb (existsb (String.eqb full) validColumns) then
    let originalToken := match0 (qualifiedToken tbl col) sql in
    set_add (str (default (tbl ++ chars "." ++ col)%list originalToken)) invalid
  else invalid.

(** Step 4: the body of the [tokenRegex.exec] loop. *)
Definition check_token (sql lowerSql : list ascii)
    (a : gmap string string) (invalid : list string) (mt : nat * mstate)
    : list string :=
  let token := default [] (group 1 (snd mt) lowerSql) in
  let index := fst mt in
  if existsb (String.eqb (str token)) sqlKeywords then invalid
  else if test allDigits token then invalid
  else
    let ahead := slice (index - 3) (index + length token + 2) lowerSql in
    if test dotThenName ahead || test nameThenDot ahead then invalid
    else
      let found :=
        existsb (λ c, endsWith (chars "." ++ token)%list (chars c))
                validColumns in
      if negb found then
        if Js.truthy_str (alias_get a (str token)) then invalid
        else
          let origMatch := match0 (bareToken token) sql in
          set_add (str (default token origMatch)) invalid
      else invalid.

Definition validateSQLColumns (sql : string) : list string :=
  let sql := chars sql in
  (* 1) remove string literals and dollar-quoted strings *)
  let sqlNoStrings :=
    replace_all dollarQuoted (chars " ")
      (replace_all (quoted dquote) (chars " ")
         (replace_all (quoted "'") (chars " ") sql)) in
  let lowerSql := toLowerCase sqlNoStrings in
  (* 2) find table aliases *)
  let aliasMap :=
    foldl (record_table lowerSql) ∅ (exec_all tableRegex lowerSql) in
  (* 3) validate qualified columns *)
  let invalid :=
    foldl (check_qualified sql lowerSql aliasMap) []
          (exec_all qualifiedRegex lowerSql) in
  (* 4) validate unqualified tokens *)
  foldl (check_token sql lowerSql aliasMap) invalid
        (exec_all tokenRegex lowerSql).

(** [/```sql|```/g] *)
Definition fence : re :=
  Alt (Lit false (chars "```sql")) (Lit false (chars "```")).

(** [forbiddenKeywords.some(keyword => sql.toUpperCase().includes(keyword))] *)
Definition has_forbidden_keyword (sql : list ascii) : bool :=
  existsb (λ keyword, includes (chars keyword) (toUpperCase sql))
          forbiddenKeywords.

(** The part of [generateValidatedSQL] that follows the request to the
    text model.  [reply] is the [response] field of the model's answer,
    [None] when the request failed; the result is [None] where the
    source returns [null]. *)
Definition generateValidatedSQL (reply : option string) : option string :=
  match reply with
  | None => None
  | Some response =>
    let sql := trim (chars response) in
    let sql := trim (replace_all fence [] sql) in
    (* Enhanced security validation *)
    if has_forbidden_keyword sql then None
    else if negb (startsWith (chars "SELECT") (toUpperCase sql)) then None
    else
      (* Validate column names against actual schema *)
      let invalidColumns := validateSQLColumns (str sql) in
      if (0 <? length invalidColumns)%nat then None
      else Some (str sql)
  end.

(** [handleChatbotQuery]: the statement handed to [db.query], if any
    ([if (sqlQuery)]; otherwise the predefined queries are used). *)
Definition dynamicQuery (reply : option string) : option string :=
  let sqlQuery := generateValidatedSQL reply in
  if Js.truthy_str sqlQuery then sqlQuery else None.

End Chatbot.

(** ** Reading aids and example states *)

(** [newQuantity] of [updateOrderItemStatus]: the supplied quantity when
    it is truthy, else the stored one. *)
Definition effective_quantity (item : item_row) (quantity : option Z) : Z :=
  if Js.truthy_num quantity then Js.parseInt (default 0 quantity)
  else ir_original_quantity item.

(** The order-item table after the quantity statement, if it runs. *)
Definition items_after_quantity (t : tables) (orderItemId : Z)
    (item : item_row) (quantity : option Z) : gmap Z order_item :=
  if Js.truthy_num quantity
  then alter (Sql.set_quantity (effective_quantity item quantity)) orderItemId
             (order_items t)
  else order_items t.

Definition with_items_drugs (t : tables) (d : gmap Z drug)
    (i : gmap Z order_item) : tables :=
  mkTables d (orders t) i (daily_dispensing_summary t) (dds_next_id t).

(** One drug (id 1, owner 7) with the given stock and one item (id 100,
    order 5, seller 7) of that drug with the given quantity and status. *)
Definition one_item (stock quantity : Z) (status : string) : tables :=
  mkTables {[ 1 := mkDrug "Paracetamol" stock 7 ]}
           {[ 5 := mkOrder 3 None ]}
           {[ 100 := mkItem 5 (Some 1) quantity status 7 ]}
           ∅ 1.

(** The rows of a bulk approval whose flag is [b]; the flag of a row says
    whether it was counted in [approvedCount]. *)
Fixpoint pick (b : bool) (rows : list pending_row) (flags : list bool)
    : list pending_row :=
  match rows, flags with
  | r :: rows', f :: flags' =>
    if Bool.eqb f b then r :: pick b rows' flags' else pick b rows' flags'
  | _, _ => []
  end.

(** The units of drug [d] requested by a list of rows. *)
Fixpoint requested_of (d : Z) (rows : list pending_row) : Z :=
  match rows with
  | [] => 0
  | r :: rows' =>
    (if pr_drug_id r =? d then pr_quantity r else 0) + requested_of d rows'
  end.

Definition issue_key (i : stock_issue) : string * Z :=
  (si_drug_name i, si_requested i).
Definition row_key (r : pending_row) : string * Z :=
  (pr_drug_name r, pr_quantity r).

(** One drug (id 1, owner 7) with stock 10 and one order (id 5) with two
    pending items of that drug, 6 units each. *)
Definition two_items_one_drug : tables :=
  mkTables {[ 1 := mkDrug "Paracetamol" 10 7 ]}
           {[ 5 := mkOrder 3 None ]}
           {[ 100 := mkItem 5 (Some 1) 6 "pending" 7;
              101 := mkItem 5 (Some 1) 6 "pending" 7 ]}
           ∅ 1.

(** One drug (id 1, owner 7) with the given stock and, when [recorded] is
    a quantity, today's OPD dispensing record (id 1) of that drug. *)
Definition pharmacy (stock : Z) (recorded : option Z) : tables :=
  mkTables {[ 1 := mkDrug "Paracetamol" stock 7 ]} ∅ ∅
           (match recorded with
            | Some q => {[ 1 := mkDisp 1 q "2025-01-15" "OPD" None 7 ]}
            | None => ∅
            end)
           2.

(** Following the specification's words: the forbidden keywords that
    occur in a statement as bare keywords, that is as whole words, and the
    number of times SELECT occurs as a bare keyword. *)
Definition spec_bare_keywords (sql : string) : list string :=
  List.filter (λ keyword,
     Regex.test (Chatbot.bareToken (Str.chars keyword))
                (Str.toUpperCase (Str.chars sql)))
    Chatbot.forbiddenKeywords.

Definition spec_select_count (sql : string) : nat :=
  length (Regex.exec_all (Chatbot.bareToken (Str.chars "SELECT"))
                         (Str.toUpperCase (Str.chars sql))).

(** ** dailyDispensingController: [deleteDispensingRecord] *)

(** A handler whose answers are not among [response] runs to a value of its
    own answer type; [exec] is one request of such a handler. *)
Definition exec {A} (h : handler A) (t : tables) : option A * tables :=
  match h (mkConn t None) with
  | (inl _, c) => (None, cur c)
  | (inr a, c) => (Some a, cur c)
  end.

Inductive delete_response := RecordNotFound | RecordDeleted.

(** [SELECT dds.quantity_dispensed, dds.drug_id
    FROM daily_dispensing_summary dds JOIN drugs d ON dds.drug_id = d.id
    WHERE dds.id = $1 AND d.created_by = $2] *)
Definition select_record (t : tables) (id userId : Z) : option (Z * Z) :=
  r ← daily_dispensing_summary t !! id;
  d ← drugs t !! dds_drug_id r;
  if d_created_by d =? userId
  then Some (dds_quantity_dispensed r, dds_drug_id r)
  else None.

(** [DELETE FROM daily_dispensing_summary WHERE id = $1] *)
Definition delete_summary (id : Z) : handler unit :=
  t ← get_tables;
  Dispensing.put_summary (delete id (daily_dispensing_summary t))
                         (dds_next_id t).

Definition deleteDispensingRecord (id userId : Z) : handler delete_response :=
  BEGIN;;
  (* Get the record to restore stock *)
  t ← get_tables;
  match select_record t id userId with
  | None => ROLLBACK;; mret RecordNotFound
  | Some (quantity_dispensed, drug_id) =>
    (* Restore drug stock *)
    Sql.drugs_add_stock quantity_dispensed drug_id;;
    (* Delete the record *)
    delete_summary id;;
    COMMIT;;
    mret RecordDeleted
  end.

(** ** dailyDispensingController: [importDispensingRecords] *)

Module DispensingImport.

(** A row of the uploaded file as the CSV parser hands it over: the cells
    of the three columns the handler reads, each absent when the file has
    no such column.  Cells are text. *)
Record csv_record := mkRecord {
  drug_name : option string;
  quantity_dispensed : option string;
  notes : option string
}.

(** The entries of [errors], one constructor per message pushed; an entry
    is listed with its row number [index + 1]. *)
Inductive row_error :=
| MissingFields
| InvalidQuantity (quantity_dispensed : string)
| NotInInventory (drug_name : string)
| InsufficientForRow (drug_name : string) (available required : Z)
| InsufficientForUpdate (available needed : Z)
| RowException.

Inductive import_response :=
| ImportOnlyToday (currentDate : string)
| NoFileUploaded
| ImportCompleted (imported total : Z) (errors : list (Z * row_error)).

(** [parseInt(text)] without radix, [None] for [NaN]: leading white space
    is skipped, a sign is read, [0x] or [0X] selects base sixteen, then
    the longest run of digits is the value and what follows is ignored.
    The result is a number: the double nearest to the value read. *)
Definition digit_of (radix : Z) (c : ascii) : option Z :=
  let n := Z.of_N (Regex.code c) in
  v ← (if Regex.is_digit c then Some (n - 48)
       else if Regex.is_lower c then Some (n - 97 + 10)
       else if Regex.is_upper c then Some (n - 65 + 10)
       else None);
  if v <? radix then Some v else None.

Fixpoint digits (radix : Z) (s : list ascii) (acc : option Z) : option Z :=
  match s with
  | c :: s' =>
    match digit_of radix c with
    | Some v => digits radix s' (Some (default 0 acc * radix + v))
    | None => acc
    end
  | [] => acc
  end.

Definition parseInt (text : string) : option Z :=
  let s := Str.trimStart (Str.chars text) in
  let '(sign, s) :=
    match s with
    | c :: s' => if Regex.is_char "-" c then (-1, s')
                 else if Regex.is_char "+" c then (1, s')
                 else (1, s)
    | [] => (1, s)
    end in
  let '(radix, s) :=
    match s with
    | c :: x :: s' =>
      if Regex.is_char "0" c && (Regex.is_char "x" x || Regex.is_char "X" x)
      then (16, s') else (10, s)
    | _ => (10, s)
    end in
  (λ v, Js.to_double (sign * v)) <$> digits radix s None.

(** [SELECT id, name, stock FROM drugs
    WHERE LOWER(name) = LOWER($1) AND created_by = $2] *)
Definition select_drug_by_name (t : tables) (name : list ascii) (userId : Z)
    : list (Z * drug) :=
  filter (λ '(_, dr), Str.toLowerCase (Str.chars (d_name dr))
                      = Str.toLowerCase name ∧
                      d_created_by dr = userId)
         (map_to_list (drugs t)).

(** Which statement of one row raises, if any.  The [catch] of the row
    lists the row as an error and the loop goes on, in an aborted
    transaction, as in the loop of the bulk approval. *)
Inductive row_fault :=
| NoRowFault
| DrugQueryFails
| SummaryQueryFails
| SummaryWriteFails
| StockWriteFails.

Definition raises (f at_ : row_fault) : bool :=
  match f, at_ with
  | DrugQueryFails, DrugQueryFails
  | SummaryQueryFails, SummaryQueryFails
  | SummaryWriteFails, SummaryWriteFails
  | StockWriteFails, StockWriteFails => true
  | _, _ => false
  end.

(** How the body of the loop ends for one row: [importedCount++] is
    reached, a check lists the row and [continue]s, or a statement raises
    and the [catch] lists the row. *)
Inductive row_result :=
| Imported
| Listed (e : row_error)
| Raised.

(** The body of the loop for one row.  In an aborted transaction
    ([aborted]) the first statement of the row raises. *)
Definition import_row (aborted : bool) (f : row_fault)
    (currentDate category : string) (userId : Z) (record : csv_record)
    : handler row_result :=
  let notes := default EmptyString (notes record) in
  (* Validate required fields *)
  if negb (Js.truthy_str (drug_name record))
     || negb (Js.truthy_str (quantity_dispensed record)) then
    mret (Listed MissingFields)
  else
    let drug_name := default EmptyString (drug_name record) in
    let quantity_dispensed := default EmptyString (quantity_dispensed record) in
    (* Validate quantity *)
    match parseInt quantity_dispensed with
    | None => mret (Listed (InvalidQuantity quantity_dispensed))
    | Some quantity =>
      if quantity <=? 0 then mret (Listed (InvalidQuantity quantity_dispensed))
      else if aborted || raises f DrugQueryFails then mret Raised
      else
        (* Find drug by name (case insensitive) *)
        t ← get_tables;
        match select_drug_by_name t (Str.trim (Str.chars drug_name)) userId with
        | [] => mret (Listed (NotInInventory drug_name))
        | (drug_id, drug) :: _ =>
          (* Check stock availability *)
          if d_stock drug <? quantity then
            mret (Listed (InsufficientForRow drug_name (d_stock drug)
                                             quantity))
          else if raises f SummaryQueryFails then mret Raised
          else
            (* Check if record already exists for today and category *)
            match Dispensing.select_existing t drug_id currentDate category with
            | (existing_id, existing) :: _ =>
              (* Update existing record *)
              let quantityDifference :=
                quantity - dds_quantity_dispensed existing in
              (* Check if we have enough stock for the update *)
              if d_stock drug <? quantityDifference then
                mret (Listed (InsufficientForUpdate (d_stock drug)
                                                    quantityDifference))
              else if raises f SummaryWriteFails then mret Raised
              else
                Dispensing.update_summary quantity (Some notes) existing_id;;
                (* Update drug stock *)
                if raises f StockWriteFails then mret Raised
                else
                  Sql.drugs_sub_stock quantityDifference drug_id;;
                  mret Imported
            | [] =>
              (* Create new record *)
              if raises f SummaryWriteFails then mret Raised
              else
                inserted ← Dispensing.insert_summary
                             drug_id quantity currentDate category
                             (Some notes) userId;
                match inserted with
                | None => mret Raised
                | Some _ =>
                  (* Update drug stock *)
                  if raises f StockWriteFails then mret Raised
                  else
                    Sql.drugs_sub_stock quantity drug_id;;
                    mret Imported
                end
            end
        end
    end.

(** [for (const [index, record] of results.entries())] with the counter
    and the error list as accumulators; [aborted] tells whether a
    statement has raised in an earlier row. *)
Fixpoint import_loop (faults : nat → row_fault) (currentDate category : string)
    (userId : Z) (aborted : bool) (index : nat) (results : list csv_record)
    (importedCount : Z) (errors : list (Z * row_error))
    : handler (Z * list (Z * row_error)) :=
  match results with
  | [] => mret (importedCount, errors)
  | record :: results' =>
    r ← import_row aborted (faults index) currentDate category userId record;
    match r with
    | Imported =>
      import_loop faults currentDate category userId aborted (S index)
                  results' (importedCount + 1) errors
    | Listed err =>
      import_loop faults currentDate category userId aborted (S index)
                  results' importedCount
                  (errors ++ [(Z.of_nat index + 1, err)])%list
    | Raised =>
      ABORT;;
      import_loop faults currentDate category userId true (S index)
                  results' importedCount
                  (errors ++ [(Z.of_nat index + 1, RowException)])%list
    end
  end.

(** [file] is the uploaded file as parsed, absent when the request carries
    none; [dispensing_date] and [category] are the fields of the body,
    which default when absent. *)
Definition importDispensingRecords (faults : nat → row_fault)
    (currentDate : string) (userId : Z)
    (dispensing_date category : option string)
    (file : option (list csv_record)) : handler import_response :=
  let dispensing_date := default currentDate dispensing_date in
  let category := default "OPD" category in
  (* Validate date - only allow current date *)
  if negb (String.eqb dispensing_date currentDate) then
    mret (ImportOnlyToday currentDate)
  else
    match file with
    | None => mret NoFileUploaded
    | Some results =>
      BEGIN;;
      r ← import_loop faults currentDate category userId false 0 results 0 [];
      COMMIT;;
      mret (ImportCompleted r.1 (Z.of_nat (length results)) r.2)
    end.

End DispensingImport.

(** ** chatbotController: [validateResponseAgainstData] *)

Module ChatbotReply.

Import Regex Str.

(** [data] as the checks read it: absent, an array of [n] rows, or an
    object with [n] keys. *)
Inductive js_data := Absent | Rows (n : nat) | Fields (n : nat).

(** [!data || (Array.isArray(data) && data.length === 0) ||
    (typeof data === 'object' && Object.keys(data).length === 0)] *)
Definition is_empty (data : js_data) : bool :=
  match data with
  | Absent => true
  | Rows n => (n =? 0)%nat
  | Fields n => (n =? 0)%nat
  end.

Definition hallucinationIndicators : list string :=
  [ "i assume"; "probably"; "likely"; "approximately"; "typically"; "usually";
    "based on common practice"; "generally"; "most likely" ].

Definition absencePhrases : list string :=
  [ "no data"; "not found"; "unavailable" ].

Definition no_data_message : string :=
  "No relevant data found in the system for your query.".

Definition data_only_message : string :=
  "I can only provide information based on actual data in the system. Please ask about specific records or check the available data.".

Definition validateResponseAgainstData (response : string) (data : js_data)
    : string :=
  let responseLower := toLowerCase (chars response) in
  (* If no data but response claims to have data *)
  if is_empty data
     && negb (includes (chars "no data") responseLower)
     && negb (includes (chars "not found") responseLower)
     && negb (includes (chars "unavailable") responseLower)
  then no_data_message
  (* If response contains hallucination indicators *)
  else if existsb (λ indicator, includes (chars indicator) responseLower)
                  hallucinationIndicators
  then data_only_message
  else response.

End ChatbotReply.

(** ** roleMiddleware: [authorizeRole] *)

Inductive auth_answer := Unauthenticated | AccessDenied | Next.

(** [user] is [req.user], absent when the request carries none; the outer
    option of its role is the field being there at all. *)
Definition authorizeRole (allowedRoles : list string)
    (user : option (option string)) : auth_answer :=
  match user with
  | None => Unauthenticated
  | Some role =>
    if negb (Js.truthy_str role) then Unauthenticated
    else
      let userRole := Str.toLowerCase (Str.chars (default EmptyString role)) in
      let allowed :=
        (λ r, Str.toLowerCase (Str.chars r)) <$> allowedRoles in
      if negb (bool_decide (userRole ∈ allowed)) then AccessDenied
      else Next
  end.

(** The roles that the routes of the dispensing controller and of the
    seller controller pass to the middleware. *)
Definition dispensing_roles : list string := ["pharmacy"].
Definition seller_roles : list string := ["institute"; "admin"].

(** Text of ASCII characters, on which the text functions above are those
    of JavaScript. *)
Definition ascii_text (text : list ascii) : Prop :=
  Forall (λ c, (Regex.code c < 128)%N) text.

(** A piece of text occurs in another one in some letter case. *)
Definition occurs_in (phrase : string) (text : list ascii) : Prop :=
  ∃ a w b, text = (a ++ w ++ b)%list ∧
           Str.toLowerCase w = Str.toLowerCase (Str.chars phrase).

(** ** Invariants of the tables *)

(** No drug has a negative stock. *)
Definition stocks_nonneg (t : tables) : Prop :=
  ∀ d s, stock_of t d = Some s → 0 ≤ s.

(** The key of a summary row, and the two facts the recorder relies on: the
    sequence is ahead of every stored id, and no two rows share a key. *)
Definition summary_key (r : dispensing) : Z * string * string :=
  (dds_drug_id r, dds_dispensing_date r, dds_category r).

Definition summary_wf (t : tables) : Prop :=
  (∀ id r, daily_dispensing_summary t !! id = Some r → id < dds_next_id t) ∧
  (∀ id1 id2 r1 r2,
     daily_dispensing_summary t !! id1 = Some r1 →
     daily_dispensing_summary t !! id2 = Some r2 →
     summary_key r1 = summary_key r2 → id1 = id2).

(** ** The effect of a bulk approval on the tables *)

(** The stock statement of the loop, run for a list of rows, and the status
    statement, run for a list of rows. *)
Definition deduct_rows (l : list pending_row) (m : gmap Z drug) : gmap Z drug :=
  foldl (λ m r, alter (λ x, Sql.set_stock (d_stock x - pr_quantity r) x)
                      (pr_drug_id r) m) m l.

Definition approve_rows (l : list pending_row) (m : gmap Z order_item)
    : gmap Z order_item :=
  foldl (λ m r, alter (Sql.set_status "approved") (pr_id r) m) m l.

(** Two drugs of owner 7 (id 1 with stock 10, id 2 with stock 3) and one
    order (id 5) with a pending item of each: 6 units of the first, 4 units
    of the second. *)
Definition two_items_two_drugs : tables :=
  mkTables {[ 1 := mkDrug "Paracetamol" 10 7; 2 := mkDrug "Ibuprofen" 3 7 ]}
           {[ 5 := mkOrder 3 None ]}
           {[ 100 := mkItem 5 (Some 1) 6 "pending" 7;
              101 := mkItem 5 (Some 2) 4 "pending" 7 ]}
           ∅ 1.

(** ** The effect of one imported row on the tables *)

(** One summary row [sid] of one drug [id] of the caller is written with a
    positive quantity [q] that the stock covers, either over the row that
    has the key (drug, date, category) or as a new row under the next id
    of the sequence, which is free, when no row has that key; the stock of
    the drug is lowered by the difference [dq]. *)
Definition row_written (today cat : string) (userId : Z) (t t' : tables)
    : Prop :=
  orders t' = orders t ∧ order_items t' = order_items t ∧
  ∃ (id : Z) (dr : drug) (q dq sid : Z) (srow : dispensing),
    drugs t !! id = Some dr ∧ d_created_by dr = userId ∧
    0 < q ∧ q ≤ d_stock dr ∧ dq ≤ d_stock dr ∧
    summary_key srow = (id, today, cat) ∧
    dds_quantity_dispensed srow = q ∧
    daily_dispensing_summary t' = <[sid := srow]> (daily_dispensing_summary t) ∧
    ((∃ ex, daily_dispensing_summary t !! sid = Some ex ∧
            summary_key ex = (id, today, cat) ∧
            dq = q - dds_quantity_dispensed ex ∧
            dds_recorded_by srow = dds_recorded_by ex ∧
            dds_next_id t' = dds_next_id t) ∨
     (sid = dds_next_id t ∧
      daily_dispensing_summary t !! sid = None ∧
      (∀ id' r, daily_dispensing_summary t !! id' = Some r →
                summary_key r ≠ (id, today, cat)) ∧
      dq = q ∧ dds_recorded_by srow = userId ∧
      dds_next_id t' = dds_next_id t + 1)) ∧
    drugs t' = <[id := Sql.set_stock (d_stock dr - dq) dr]> (drugs t).

(** The units of drug [d] that the dispensing records account for. *)
Definition dispensed_of (t : tables) (d : Z) : Z :=
  map_fold (λ _ r acc,
              (if dds_drug_id r =? d then dds_quantity_dispensed r else 0) + acc)
           0 (daily_dispensing_summary t).

(** A file of five rows: the first names the drug of [pharmacy] in another
    case and with blanks around it, the others are a zero quantity, a drug
    that is not stored, a negative quantity and a row without a name. *)
Definition sample_file : list DispensingImport.csv_record :=
  [ DispensingImport.mkRecord (Some " paracetamol ") (Some "4") None;
    DispensingImport.mkRecord (Some "Paracetamol") (Some "0") (Some "none");
    DispensingImport.mkRecord (Some "Aspirin") (Some "2") None;
    DispensingImport.mkRecord (Some "PARACETAMOL") (Some "-3") None;
    DispensingImport.mkRecord None (Some "1") None ].

(** * Properties *)

(** ** Running handlers *)

Ltac run_handler :=
  repeat progress
    (unfold run, mbind, handler_bind, mret, handler_ret, when, reply,
            Sql.items_set_quantity, Sql.items_set_status, Sql.drugs_sub_stock,
            Sql.drugs_add_stock, Sql.put_items, Sql.put_drugs, put_tables,
            get_tables, BEGIN, COMMIT, ROLLBACK, ABORT;
     cbn [cur saved default fst snd drugs orders order_items
          daily_dispensing_summary dds_next_id]).

Lemma tables_eta (t : tables) :
  mkTables (drugs t) (orders t) (order_items t) (daily_dispensing_summary t)
           (dds_next_id t) = t.
Proof. by destruct t. Qed.

Lemma eqb_neq_str (a b : string) : a ≠ b → String.eqb a b = false.
Proof. by intros ?; apply String.eqb_neq. Qed.

Section UpdateOrderItemStatus.

Variables (t : tables) (orderItemId sellerId : Z) (item : item_row).
Hypothesis Hitem : select_item t orderItemId sellerId = Some item.

(** The request, path by path. *)
Lemma run_update (status : option string) (quantity : option Z) :
  run (updateOrderItemStatus orderItemId sellerId status quantity) t =
  let newQuantity := effective_quantity item quantity in
  let items1 := items_after_quantity t orderItemId item quantity in
  if Js.truthy_str status then
    let st := default EmptyString status in
    let items2 := alter (Sql.set_status st) orderItemId items1 in
    if Js.truthy_num (ir_drug_id item) then
      let drug_id := default 0 (ir_drug_id item) in
      if String.eqb st "approved"
         && negb (String.eqb (ir_current_status item) "approved") then
        if Js.lt_null (ir_stock item) newQuantity
        then (InsufficientStock (ir_stock item) newQuantity, t)
        else (ItemUpdated,
              with_items_drugs t
                (alter (λ d, Sql.set_stock (d_stock d - newQuantity) d)
                       drug_id (drugs t)) items2)
      else if String.eqb st "rejected"
              && String.eqb (ir_current_status item) "approved" then
        (ItemUpdated,
         with_items_drugs t
           (alter (λ d, Sql.set_stock (d_stock d + ir_original_quantity item) d)
                  drug_id (drugs t)) items2)
      else (ItemUpdated, with_items_drugs t (drugs t) items2)
    else (ItemUpdated, with_items_drugs t (drugs t) items2)
  else (ItemUpdated, with_items_drugs t (drugs t) items1).
Proof.
  unfold updateOrderItemStatus, items_after_quantity, effective_quantity,
    with_items_drugs.
  run_handler. rewrite Hitem. run_handler.
  destruct (Js.truthy_num quantity), (Js.truthy_str status),
    (Js.truthy_num (ir_drug_id item)); run_handler;
    rewrite ?tables_eta; try reflexivity;
    repeat match goal with
           | |- context [if ?b then _ else _] => destruct b; run_handler
           end; reflexivity.
Qed.

(** The selected row is the stored row. *)
Lemma select_item_stored :
  ∃ i, order_items t !! orderItemId = Some i ∧
       ir_current_status item = oi_status i ∧
       ir_original_quantity item = oi_quantity i ∧
       ir_drug_id item = oi_drug_id i ∧
       ir_stock item = (oi_drug_id i ≫= stock_of t).
Proof.
  revert Hitem. unfold select_item.
  destruct (order_items t !! orderItemId) as [i|]; [|done]. cbn.
  destruct (oi_seller_id i =? sellerId); [|done].
  intros [= <-]. by exists i.
Qed.

Lemma status_after_quantity (quantity : option Z) :
  oi_status <$> items_after_quantity t orderItemId item quantity !! orderItemId
  = Some (ir_current_status item).
Proof.
  destruct select_item_stored as (i & Hi & -> & _).
  unfold items_after_quantity. destruct (Js.truthy_num quantity).
  - by rewrite lookup_alter_eq, Hi.
  - by rewrite Hi.
Qed.

Lemma status_after_status (st : string) (quantity : option Z) :
  oi_status <$> alter (Sql.set_status st) orderItemId
                  (items_after_quantity t orderItemId item quantity)
                !! orderItemId
  = Some st.
Proof.
  pose proof (status_after_quantity quantity) as H.
  rewrite lookup_alter_eq.
  destruct (items_after_quantity t orderItemId item quantity !! orderItemId);
    [done | discriminate H].
Qed.

Lemma quantity_after_quantity (quantity : option Z) :
  oi_quantity <$> items_after_quantity t orderItemId item quantity
                  !! orderItemId
  = Some (effective_quantity item quantity).
Proof.
  destruct select_item_stored as (i & Hi & _ & Hq & _).
  unfold items_after_quantity, effective_quantity.
  destruct (Js.truthy_num quantity).
  - by rewrite lookup_alter_eq, Hi.
  - by rewrite Hi, Hq.
Qed.

Lemma quantity_after_status (st : string) (quantity : option Z) :
  oi_quantity <$> alter (Sql.set_status st) orderItemId
                    (items_after_quantity t orderItemId item quantity)
                  !! orderItemId
  = Some (effective_quantity item quantity).
Proof.
  pose proof (quantity_after_quantity quantity) as H.
  rewrite lookup_alter_eq.
  destruct (items_after_quantity t orderItemId item quantity !! orderItemId);
    [by injection H as <- | discriminate H].
Qed.

Lemma items_after_lookup (st : string) (quantity : option Z) :
  ∃ i, alter (Sql.set_status st) orderItemId
         (items_after_quantity t orderItemId item quantity) !! orderItemId
       = Some i ∧
       oi_status i = st ∧
       oi_quantity i = effective_quantity item quantity ∧
       oi_drug_id i = ir_drug_id item ∧
       (oi_seller_id i =? sellerId) = true.
Proof.
  destruct select_item_stored as (i & Hi & _ & Hq & Hd & _).
  assert ((oi_seller_id i =? sellerId) = true) as Hs.
  { revert Hitem. unfold select_item. rewrite Hi. cbn.
    by destruct (oi_seller_id i =? sellerId). }
  rewrite lookup_alter_eq. unfold items_after_quantity, effective_quantity.
  destruct (Js.truthy_num quantity).
  - rewrite lookup_alter_eq, Hi. cbn. eexists. split; [done|]. by cbn.
  - rewrite Hi. cbn. eexists. split; [done|]. by cbn.
Qed.

End UpdateOrderItemStatus.

Lemma restore_after_deduct (q id : Z) (m : gmap Z drug) :
  alter (λ d, Sql.set_stock (d_stock d + q) d) id
        (alter (λ d, Sql.set_stock (d_stock d - q) d) id m) = m.
Proof.
  rewrite alter_alter_eq. apply alter_id. intros [n s o] _.
  unfold Sql.set_stock. cbn. f_equal. lia.
Qed.

(** ** Single order-item update *)




(** C2 as stated fails: a rejected item is approved by the next call and
    its drug's stock goes from 10 to 6. *)
Lemma rejected_item_can_be_approved :
  let t := one_item 10 4 "rejected" in
  let out := run (updateOrderItemStatus 100 7 (Some "approved") None) t in
  status_of t 100 = Some "rejected" ∧ stock_of t 1 = Some 10 ∧
  out = (ItemUpdated, one_item 6 4 "approved") ∧
  status_of out.2 100 = Some "approved" ∧ stock_of out.2 1 = Some 6 ∧
  status_of out.2 100 ≠ status_of t 100 ∧ stock_of out.2 1 ≠ stock_of t 1.
Proof. repeat split; vm_compute; (reflexivity || discriminate). Qed.

(** C2 (amended).  For an item whose current status is 'rejected' or
    'shipped': a call that supplies no status leaves the status unchanged
    and mutates no stock; a call that supplies a status other than
    'approved' is not blocked, the item takes that status and no stock is
    mutated; a call that supplies 'approved' is handled as the approval of
    any item that is not approved: either it is refused for insufficient
    stock and nothing changes, or the item becomes approved and the stock
    of its drug, if it has one, is decremented by the effective quantity. *)
Theorem update_of_rejected_or_shipped (t : tables) (id seller : Z)
    (status : option string) (quantity : option Z) (item : item_row) :
  select_item t id seller = Some item →
  ir_current_status item = "rejected" ∨ ir_current_status item = "shipped" →
  let out := run (updateOrderItemStatus id seller status quantity) t in
  (Js.truthy_str status = false →
     out.1 = ItemUpdated ∧ status_of out.2 id = status_of t id ∧
     drugs out.2 = drugs t) ∧
  (∀ st, status = Some st → st ≠ EmptyString → st ≠ "approved" →
     out.1 = ItemUpdated ∧ status_of out.2 id = Some st ∧
     drugs out.2 = drugs t) ∧
  (status = Some "approved" →
     (out = (InsufficientStock (ir_stock item)
                               (effective_quantity item quantity), t)) ∨
     (out.1 = ItemUpdated ∧ status_of out.2 id = Some "approved" ∧
      drugs out.2 =
        if Js.truthy_num (ir_drug_id item)
        then alter (λ d, Sql.set_stock
                           (d_stock d - effective_quantity item quantity) d)
                   (default 0 (ir_drug_id item)) (drugs t)
        else drugs t)).
Proof.
  intros Hitem Hclosed out. subst out. rewrite (run_update _ _ _ _ Hitem).
  assert (String.eqb (ir_current_status item) "approved" = false) as Hna
    by (destruct Hclosed as [-> | ->]; reflexivity).
  split; [|split].
  - intros ->. cbn. repeat split. unfold status_of. cbn.
    rewrite (status_after_quantity _ _ _ _ Hitem).
    by destruct (select_item_stored _ _ _ _ Hitem) as (i & -> & -> & _).
  - intros st -> Hne Hst. cbn. rewrite (eqb_neq_str _ _ Hne). cbn.
    rewrite Hna, andb_false_r, (eqb_neq_str _ _ Hst). cbn.
    destruct (Js.truthy_num (ir_drug_id item)); cbn; repeat split;
      unfold status_of; cbn; apply (status_after_status _ _ _ _ Hitem).
  - intros ->. cbn. rewrite Hna. cbn.
    destruct (Js.truthy_num (ir_drug_id item)); cbn.
    + destruct (Js.lt_null _ _); [by left | right]. cbn.
      repeat split. unfold status_of. cbn.
      apply (status_after_status _ _ _ _ Hitem).
    + right. repeat split. unfold status_of. cbn.
      apply (status_after_status _ _ _ _ Hitem).
Qed.

Lemma update_of_rejected_or_shipped_witness :
  let t := one_item 10 4 "shipped" in
  let out := run (updateOrderItemStatus 100 7 (Some "pending") None) t in
  out.1 = ItemUpdated ∧ status_of out.2 100 = Some "pending" ∧
  drugs out.2 = drugs t.
Proof.
  intros t out.
  apply (update_of_rejected_or_shipped t 100 7 (Some "pending") None
           (mkItemRow 100 "shipped" (Some 1) 4 (Some 10)));
    [reflexivity | right; reflexivity | reflexivity | discriminate
    | discriminate].
Defined.

(** C3 as stated fails: the item is approved for 10 (stock 10 to 0), its
    quantity is then edited to 3, and the rejection adds back 3, not 10. *)
Lemma rejection_restores_edited_quantity :
  let t0 := one_item 10 10 "pending" in
  let t1 := (run (updateOrderItemStatus 100 7 (Some "approved") None) t0).2 in
  let t2 := (run (updateOrderItemStatus 100 7 None (Some 3)) t1).2 in
  let t3 := (run (updateOrderItemStatus 100 7 (Some "rejected") None) t2).2 in
  stock_of t0 1 = Some 10 ∧
  status_of t1 100 = Some "approved" ∧ stock_of t1 1 = Some 0 ∧
  status_of t2 100 = Some "approved" ∧ quantity_of t2 100 = Some 3 ∧
  status_of t3 100 = Some "rejected" ∧ stock_of t3 1 = Some 3 ∧
  stock_of t3 1 ≠ stock_of t0 1.
Proof. repeat split; vm_compute; (reflexivity || discriminate). Qed.

(** C3 (amended).  A transition from 'approved' to 'rejected' adds back to
    the stock of the item's drug exactly the quantity stored on the item
    when the rejecting request starts; a quantity supplied in that request
    is not used.  When the rejection is the first update of the item after
    its approval, this is the quantity deducted at approval and the stock
    table equals the one from before the approval. *)
Theorem rejection_restores_stored_quantity (t1 : tables) (id seller : Z)
    (quantity : option Z) (item1 : item_row) :
  select_item t1 id seller = Some item1 →
  ir_current_status item1 = "approved" →
  let out :=
    run (updateOrderItemStatus id seller (Some "rejected") quantity) t1 in
  out.1 = ItemUpdated ∧ status_of out.2 id = Some "rejected" ∧
  drugs out.2 =
    (if Js.truthy_num (ir_drug_id item1)
     then alter (λ d, Sql.set_stock (d_stock d + ir_original_quantity item1) d)
                (default 0 (ir_drug_id item1)) (drugs t1)
     else drugs t1) ∧
  (∀ t0 item0 quantity0,
     select_item t0 id seller = Some item0 →
     ir_current_status item0 ≠ "approved" →
     run (updateOrderItemStatus id seller (Some "approved") quantity0) t0
     = (ItemUpdated, t1) →
     drugs out.2 = drugs t0).
Proof.
  intros Hitem1 Happroved out.
  assert (out = (ItemUpdated,
                 with_items_drugs t1
                   (if Js.truthy_num (ir_drug_id item1)
                    then alter (λ d, Sql.set_stock
                                  (d_stock d + ir_original_quantity item1) d)
                               (default 0 (ir_drug_id item1)) (drugs t1)
                    else drugs t1)
                   (alter (Sql.set_status "rejected") id
                      (items_after_quantity t1 id item1 quantity)))) as ->.
  { subst out. rewrite (run_update _ _ _ _ Hitem1). cbn. rewrite Happroved.
    cbn. by destruct (Js.truthy_num (ir_drug_id item1)). }
  cbn. split; [done|]. split.
  { unfold status_of. cbn. apply (status_after_status _ _ _ _ Hitem1). }
  split; [done|].
  intros t0 item0 quantity0 Hitem0 Hpending Hrun.
  rewrite (run_update _ _ _ _ Hitem0) in Hrun. cbn in Hrun.
  rewrite (eqb_neq_str _ _ Hpending) in Hrun. cbn in Hrun.
  destruct (items_after_lookup _ _ _ _ Hitem0 "approved" quantity0)
    as (i & Hi & _ & Hq & Hd & Hs).
  assert (∀ d, select_item (with_items_drugs t0 d
                 (alter (Sql.set_status "approved") id
                    (items_after_quantity t0 id item0 quantity0))) id seller
               = Some item1 →
               ir_original_quantity item1 = effective_quantity item0 quantity0 ∧
               ir_drug_id item1 = ir_drug_id item0) as Hsel.
  { intros d. unfold select_item. cbn. rewrite Hi. cbn. rewrite Hs.
    intros [= <-]. by cbn. }
  destruct (Js.truthy_num (ir_drug_id item0)) eqn:Hdrug.
  - destruct (Js.lt_null _ _); [discriminate Hrun|].
    injection Hrun as <-. destruct (Hsel _ Hitem1) as [-> ->].
    rewrite Hdrug. cbn. apply restore_after_deduct.
  - injection Hrun as <-. destruct (Hsel _ Hitem1) as [_ ->].
    by rewrite Hdrug.
Qed.

Lemma rejection_restores_stored_quantity_witness :
  let t1 := one_item 0 10 "approved" in
  let out := run (updateOrderItemStatus 100 7 (Some "rejected") (Some 2)) t1 in
  out.1 = ItemUpdated ∧ status_of out.2 100 = Some "rejected" ∧
  drugs out.2 = drugs (one_item 10 10 "approved") ∧
  drugs out.2 = drugs (one_item 10 10 "pending").
Proof.
  intros t1 out.
  destruct (rejection_restores_stored_quantity t1 100 7 (Some 2)
              (mkItemRow 100 "approved" (Some 1) 10 (Some 0))
              eq_refl eq_refl) as (H1 & H2 & H3 & H4).
  split; [exact H1|]. split; [exact H2|]. split; [exact H3|].
  apply (H4 (one_item 10 10 "pending")
            (mkItemRow 100 "pending" (Some 1) 10 (Some 10)) None);
    [reflexivity | discriminate | vm_compute; reflexivity].
Defined.



(** Beyond that range the number stored is not the number supplied: the
    literal 2^53 + 1 is read as 2^53, and 10^21, whose text is 1e+21, is
    read back as 1. *)
Lemma huge_quantity_is_not_persisted :
  quantity_of (run (updateOrderItemStatus 100 7 None (Some (2 ^ 53 + 1)))
                   (one_item 10 5 "pending")).2 100 = Some (2 ^ 53) ∧
  quantity_of (run (updateOrderItemStatus 100 7 None (Some (10 ^ 21)))
                   (one_item 10 5 "pending")).2 100 = Some 1.
Proof. split; vm_compute; reflexivity. Qed.



(** ** Bulk approval *)

Lemma stock_after_sub (m : gmap Z drug) (q id d : Z) :
  d_stock <$> alter (λ x, Sql.set_stock (d_stock x - q) x) id m !! d
  = (λ s, s - (if id =? d then q else 0)) <$> (d_stock <$> m !! d).
Proof.
  destruct (Z.eqb_spec id d) as [->|Hne].
  - rewrite lookup_alter_eq. by destruct (m !! d).
  - rewrite lookup_alter_ne by done.
    destruct (m !! d); cbn; [f_equal; lia | done].
Qed.

Lemma fmap_sub_0 (o : option Z) : (λ s, s - 0) <$> o = o.
Proof. destruct o; cbn; [f_equal; lia | done]. Qed.

Lemma fmap_sub_sub (a b : Z) (o : option Z) :
  (λ s, s - b) <$> ((λ s, s - a) <$> o) = (λ s, s - (a + b)) <$> o.
Proof. destruct o; cbn; [f_equal; lia | done]. Qed.

Lemma deduct_rows_lookup (l : list pending_row) :
  ∀ (m : gmap Z drug) (d : Z),
    deduct_rows l m !! d
    = (λ x, Sql.set_stock (d_stock x - requested_of d l) x) <$> m !! d.
Proof.
  induction l as [|r l IH]; intros m d; cbn.
  - destruct (m !! d) as [[n s o]|]; [|done]. cbn. unfold Sql.set_stock. cbn.
    do 2 f_equal. lia.
  - unfold deduct_rows in *. cbn. rewrite IH.
    destruct (Z.eqb_spec (pr_drug_id r) d) as [->|Hne].
    + rewrite lookup_alter_eq. destruct (m !! d) as [[n s o]|]; [|done]. cbn.
      unfold Sql.set_stock. cbn. do 2 f_equal. lia.
    + rewrite lookup_alter_ne by done.
      destruct (m !! d) as [[n s o]|]; [|done]. cbn.
      unfold Sql.set_stock. cbn. do 2 f_equal.
Qed.

Lemma approve_rows_lookup (l : list pending_row) :
  ∀ (m : gmap Z order_item) (id : Z),
    approve_rows l m !! id
    = if decide (id ∈ pr_id <$> l)
      then Sql.set_status "approved" <$> m !! id
      else m !! id.
Proof.
  induction l as [|r l IH]; intros m id.
  - cbn. destruct (decide _) as [H|_]; [|done]. by apply elem_of_nil in H.
  - unfold approve_rows in *. cbn [foldl]. rewrite IH. cbn [fmap list_fmap].
    destruct (Z.eq_dec (pr_id r) id) as [<-|Hne].
    + rewrite lookup_alter_eq.
      destruct (decide (pr_id r ∈ pr_id r :: (pr_id <$> l))) as [_|Hn].
      * destruct (decide _); [|done].
        by destruct (m !! pr_id r).
      * destruct Hn. by left.
    + rewrite lookup_alter_ne by done.
      destruct (decide (id ∈ pr_id <$> l)) as [Hin|Hnin];
        destruct (decide (id ∈ pr_id r :: (pr_id <$> l))) as [Hin'|Hnin'];
        try done.
      * destruct Hnin'. by right.
      * apply elem_of_cons in Hin' as [->|?]; done.
Qed.

Lemma pick_subseteq (b : bool) (rows : list pending_row) :
  ∀ flags r, r ∈ pick b rows flags → r ∈ rows.
Proof.
  induction rows as [|x rows IH]; intros [|f fl] r; cbn; try done.
  - intros H. by apply elem_of_nil in H.
  - destruct (Bool.eqb f b).
    + intros [->|H]%elem_of_cons; [by left | right; eauto].
    + intros H. right. eauto.
Qed.

Lemma pick_permutation (rows : list pending_row) :
  ∀ flags, length flags = length rows →
  rows ≡ₚ pick true rows flags ++ pick false rows flags.
Proof.
  induction rows as [|r rows IH]; intros [|[] fl] Hl; try done; cbn in *.
  - constructor. apply IH. lia.
  - rewrite <- Permutation_middle. constructor. apply IH. lia.
Qed.


Lemma pick_none (rows : list pending_row) :
  pick true rows (replicate (length rows) false) = [] ∧
  pick false rows (replicate (length rows) false) = rows.
Proof.
  induction rows as [|r rows [IH1 IH2]]; [done|]. cbn. by rewrite IH1, IH2.
Qed.

(** The loop in an aborted transaction lists every row. *)
Lemma approve_aborted_spec (rows : list pending_row) :
  ∀ ins, ∃ new,
    approve_aborted rows ins = (ins ++ new)%list ∧
    issue_key <$> new = row_key <$> rows.
Proof.
  induction rows as [|r rows IH]; intros ins.
  - exists []. by rewrite app_nil_r.
  - cbn [approve_aborted].
    destruct (IH (ins ++ [issue r (pr_quantity r)
                            (Js.number_or_0 (Some (pr_stock r)))
                            (if pr_quantity r
                                <=? Js.number_or_0 (Some (pr_stock r))
                             then "Database error during approval"
                             else "Insufficient stock")])%list)
      as (new & -> & Hk).
    eexists (_ :: new). split; [by rewrite <- app_assoc|].
    cbn. by rewrite Hk.
Qed.

(** The loop, for any accumulators and any connection with an open
    transaction: which rows were counted, which were listed, and what the
    tables are afterwards.  [aborted] tells whether a statement raised. *)
Lemma approve_loop_repr (faults : nat → fault) (rows : list pending_row) :
  ∀ (n : nat) (ac : Z) (ins : list stock_issue) (c : conn) (t0 : tables),
  saved c = Some t0 →
  ∃ (flags : list bool) (new : list stock_issue) (c' : conn) (aborted : bool),
    approve_loop faults n rows ac ins c
    = (inr (ac + Z.of_nat (length (pick true rows flags)), (ins ++ new)%list),
       c') ∧
    length flags = length rows ∧
    issue_key <$> new = row_key <$> pick false rows flags ∧
    saved c' = saved c ∧
    cur c' = (if aborted then t0
              else mkTables (deduct_rows (pick true rows flags) (drugs (cur c)))
                            (orders (cur c))
                            (approve_rows (pick true rows flags)
                                          (order_items (cur c)))
                            (daily_dispensing_summary (cur c))
                            (dds_next_id (cur c))) ∧
    ((∀ k, faults k = NoFault) → aborted = false) ∧
    Forall (λ r, pr_quantity r ≤ pr_stock r) (pick true rows flags) ∧
    ((∀ k, faults k = NoFault) →
     Forall (λ r, pr_stock r < pr_quantity r) (pick false rows flags)) ∧
    (aborted = true → ∃ k, faults k ≠ NoFault).
Proof.
  induction rows as [|r rows IH]; intros n ac ins c t0 Hsaved.
  - exists [], [], c, false. cbn. rewrite Z.add_0_r, app_nil_r, tables_eta.
    by repeat split.
  - cbn [approve_loop]. unfold Js.number_or_0.
    assert ((if pr_stock r =? 0 then 0 else pr_stock r) = pr_stock r) as Hst
      by (by destruct (Z.eqb_spec (pr_stock r) 0)).
    rewrite Hst.
    destruct (Z.leb_spec (pr_quantity r) (pr_stock r)) as [Hle|Hgt].
    + destruct (faults n) eqn:Hf.
      * run_handler.
        match goal with
        | |- context [approve_loop _ _ _ _ _ ?c1] =>
          destruct (IH (S n) (ac + 1) ins c1 t0 Hsaved)
            as (fl & new & c' & ab & -> & Hl & Hk & Hs & Hc & Hnf & Hok & Hno
                & Hex)
        end.
        exists (true :: fl), new, c', ab.
        cbn [pick Bool.eqb length cur drugs orders order_items
             daily_dispensing_summary dds_next_id saved] in *.
        split; [do 3 f_equal; lia|]. split; [by rewrite Hl|].
        split; [done|]. split; [done|]. split; [by rewrite Hc|].
        split; [done|]. split; [by constructor|]. done.
      * run_handler. rewrite Hsaved. cbn [default].
        destruct (approve_aborted_spec rows
                    (ins ++ [issue r (pr_quantity r) (pr_stock r)
                               "Database error during approval"])%list)
          as (new & Hab & Hk).
        unfold Js.number_or_0 in Hab. rewrite Hab.
        destruct (pick_none rows) as [Hp1 Hp2].
        eexists (false :: replicate (length rows) false), (_ :: new), _, true.
        cbn [pick Bool.eqb length saved cur]. rewrite Hp1, Hp2.
        split; [by rewrite Z.add_0_r, <- app_assoc|].
        split; [by rewrite length_replicate|].
        split; [by cbn; rewrite Hk|]. split; [done|]. split; [done|].
        split; [intros H; specialize (H n); congruence|].
        split; [constructor|].
        split; [intros H; specialize (H n); congruence|].
        intros _. exists n. congruence.
      * run_handler. rewrite Hsaved. cbn [default].
        destruct (approve_aborted_spec rows
                    (ins ++ [issue r (pr_quantity r) (pr_stock r)
                               "Database error during approval"])%list)
          as (new & Hab & Hk).
        unfold Js.number_or_0 in Hab. rewrite Hab.
        destruct (pick_none rows) as [Hp1 Hp2].
        eexists (false :: replicate (length rows) false), (_ :: new), _, true.
        cbn [pick Bool.eqb length saved cur]. rewrite Hp1, Hp2.
        split; [by rewrite Z.add_0_r, <- app_assoc|].
        split; [by rewrite length_replicate|].
        split; [by cbn; rewrite Hk|]. split; [done|]. split; [done|].
        split; [intros H; specialize (H n); congruence|].
        split; [constructor|].
        split; [intros H; specialize (H n); congruence|].
        intros _. exists n. congruence.
    + destruct (IH (S n) ac
                  (ins ++ [issue r (pr_quantity r) (pr_stock r)
                             "Insufficient stock"])%list c t0 Hsaved)
        as (fl & new & c' & ab & -> & Hl & Hk & Hs & Hc & Hnf & Hok & Hno
                & Hex).
      eexists (false :: fl), (_ :: new), c', ab.
      cbn [pick Bool.eqb length].
      split; [by rewrite <- app_assoc|]. split; [by rewrite Hl|].
      split; [by cbn; rewrite Hk|]. split; [done|]. split; [done|].
      split; [done|]. split; [done|].
      split; [|done].
      intros H. constructor; [lia | auto].
Qed.

(** The request, in terms of the rows locked. *)
Lemma run_bulk (faults : nat → fault) (t : tables) (orderId sellerId : Z) :
  let rows := select_pending t orderId sellerId in
  (rows = [] ∧
   run (approveAllItems faults orderId sellerId) t = (NoPendingItems 0 [], t)) ∨
  ∃ (flags : list bool) (new : list stock_issue) (aborted : bool),
    run (approveAllItems faults orderId sellerId) t
    = (BulkApproved (Z.of_nat (length (pick true rows flags))) new
                    (Z.of_nat (length rows)),
       if aborted then t
       else mkTables (deduct_rows (pick true rows flags) (drugs t)) (orders t)
                     (approve_rows (pick true rows flags) (order_items t))
                     (daily_dispensing_summary t) (dds_next_id t)) ∧
    length flags = length rows ∧
    issue_key <$> new = row_key <$> pick false rows flags ∧
    ((∀ k, faults k = NoFault) → aborted = false) ∧
    Forall (λ r, pr_quantity r ≤ pr_stock r) (pick true rows flags) ∧
    ((∀ k, faults k = NoFault) →
     Forall (λ r, pr_stock r < pr_quantity r) (pick false rows flags)) ∧
    (aborted = true → ∃ k, faults k ≠ NoFault).
Proof.
  intros rows. unfold approveAllItems. run_handler.
  change (select_pending t orderId sellerId) with rows. clearbody rows.
  destruct rows as [|r rows]; [left; by cbn|]. right.
  cbn [length Nat.eqb].
  destruct (approve_loop_repr faults (r :: rows) 0%nat 0 []
              (mkConn t (Some t)) t eq_refl)
    as (flags & new & c' & ab & Hrun & Hl & Hk & _ & Hc & Hnf & Hok & Hno
        & Hex).
  rewrite Hrun. cbn. rewrite Hc. cbn.
  exists flags, new, ab. rewrite Z.add_0_l. by destruct ab.
Qed.

(** What the locking query returns. *)
Lemma select_pending_spec (t : tables) (orderId sellerId : Z) (r : pending_row) :
  r ∈ select_pending t orderId sellerId ↔
  ∃ i dr,
    order_items t !! pr_id r = Some i ∧
    oi_order_id i = orderId ∧ oi_status i = "pending" ∧
    (oi_seller_id i = sellerId ∨
     (orders t !! orderId ≫= o_recipient_id) = Some sellerId) ∧
    oi_drug_id i = Some (pr_drug_id r) ∧
    drugs t !! pr_drug_id r = Some dr ∧
    pr_quantity r = oi_quantity i ∧ pr_stock r = d_stock dr ∧
    pr_drug_name r = d_name dr.
Proof.
  unfold select_pending. rewrite list_elem_of_omap. split.
  - intros ([id i] & Hin & Hf).
    apply list_elem_of_filter in Hin as [(Ho & Hp & Hs) Hin].
    apply elem_of_map_to_list in Hin.
    destruct (oi_drug_id i) as [d|] eqn:Hd; [|done]. cbn in Hf.
    destruct (drugs t !! d) as [dr|] eqn:Hdr; [|done]. cbn in Hf.
    injection Hf as <-. cbn. by exists i, dr.
  - intros (i & dr & Hi & Ho & Hp & Hs & Hd & Hdr & Hq & Hst & Hn).
    exists (pr_id r, i). split.
    + apply list_elem_of_filter. split; [done|].
      by apply elem_of_map_to_list.
    + rewrite Hd. cbn. rewrite Hdr. cbn. destruct r. cbn in *. congruence.
Qed.

Lemma select_pending_ids_NoDup (t : tables) (orderId sellerId : Z) :
  NoDup (pr_id <$> select_pending t orderId sellerId).
Proof.
  unfold select_pending.
  match goal with
  | |- context [omap _ ?l] =>
    assert (NoDup (l.*1)) as Hnd;
      [apply (sublist_NoDup _ ((map_to_list (order_items t)).*1));
         [apply NoDup_fst_map_to_list | apply fmap_sublist, sublist_filter]
      | revert Hnd; generalize l ]
  end.
  intros l. induction l as [|[id i] l IH]; intros Hnd; [constructor|].
  cbn in Hnd. apply NoDup_cons in Hnd as [Hnin Hnd]. cbn.
  destruct (oi_drug_id i) as [d|]; cbn; [|by auto].
  destruct (drugs t !! d) as [dr|]; cbn; [|by auto].
  constructor; [|by auto].
  intros Hin. apply Hnin.
  apply list_elem_of_fmap in Hin as (r & Hr & Hin).
  apply list_elem_of_omap in Hin as ([id' i'] & Hin & Hf).
  destruct (oi_drug_id i') as [d'|]; [|done]. cbn in Hf.
  destruct (drugs t !! d') as [dr'|]; [|done]. cbn in Hf.
  injection Hf as <-. cbn in Hr. subst id'.
  apply list_elem_of_fmap. by exists (id, i').
Qed.



(** A statement of the loop that raises: on an order with two pending
    items of 6 units against a stock of 10, let the stock statement of the
    second row raise.  The first row stays counted in approvedCount, the
    second is listed, and the transaction ends rolled back, with the stock
    at 10 and both items pending. *)
Lemma counted_row_is_not_deducted :
  let faults := λ k : nat, if (k =? 1)%nat then StockUpdateFails else NoFault in
  let out := run (approveAllItems faults 5 7) two_items_one_drug in
  (∃ ins, out.1 = BulkApproved 1 ins 2 ∧ length ins = 1%nat) ∧
  out.2 = two_items_one_drug ∧
  stock_of out.2 1 = Some 10 ∧
  status_of out.2 100 = Some "pending" ∧
  status_of out.2 101 = Some "pending".
Proof.
  split; [eexists; split; vm_compute; reflexivity|].
  repeat split; vm_compute; reflexivity.
Qed.

(** C1 (defect in the code).  The specification asks that a bulk approval
    never drives a stock below zero.  On an order with two pending items of the
    same drug, 6 units each against a stock of 10, both items pass the
    check against the stock read by the locking query, both are approved
    and the stock ends at -2. *)
Theorem bulk_approve_overdraws_stock :
  stock_of two_items_one_drug 1 = Some 10 ∧
  (pr_drug_id <$> select_pending two_items_one_drug 5 7 = [1; 1]) ∧
  (pr_quantity <$> select_pending two_items_one_drug 5 7 = [6; 6]) ∧
  let out := run (approveAllItems (λ _, NoFault) 5 7) two_items_one_drug in
  out.1 = BulkApproved 2 [] 2 ∧
  status_of out.2 100 = Some "approved" ∧
  status_of out.2 101 = Some "approved" ∧
  stock_of out.2 1 = Some (-2).
Proof. repeat split; vm_compute; reflexivity. Qed.

(** ** Daily dispensing *)

Lemma sub_0_id (id : Z) (m : gmap Z drug) :
  alter (λ d, Sql.set_stock (d_stock d - 0) d) id m = m.
Proof.
  apply alter_id. intros [n s o] _. unfold Sql.set_stock. cbn. f_equal. lia.
Qed.

(** C5 as stated fails when less stock remains than the recorded quantity:
    with 10 units recorded and 3 left, re-submitting 10 is refused. *)
Lemma resubmission_refused_when_stock_is_low :
  let t := pharmacy 3 (Some 10) in
  let out := run (Dispensing.recordDailyDispensing "2025-01-15" 7 1 10 None
                    (Some "OPD") None) t in
  Dispensing.select_existing t 1 "2025-01-15" "OPD"
  = [(1, mkDisp 1 10 "2025-01-15" "OPD" None 7)] ∧
  out = (DispenseInsufficient 3 10, t) ∧
  ∀ updated row stock, out.1 ≠ DispenseRecorded updated row stock.
Proof. repeat split; vm_compute; (reflexivity || discriminate). Qed.

(** C5 (amended).  When a dispensing record for (drug, today, category)
    exists with quantity q, re-submitting the same quantity for the same
    key leaves every stock unchanged.  The call succeeds, with a computed
    difference of 0, when the drug's stock is at least q and not negative;
    when the stock is below q it is refused with the insufficient-stock
    error and nothing changes. *)
Theorem resubmission_keeps_stock (today : string) (userId drug_id q : Z)
    (date category notes : option string) (t : tables) (drug : drug)
    (id : Z) (existing : dispensing) :
  Js.str_or date today = today →
  Dispensing.select_owned_drug t drug_id userId = Some drug →
  head (Dispensing.select_existing t drug_id today (Js.str_or category "OPD"))
  = Some (id, existing) →
  dds_quantity_dispensed existing = q →
  let out := run (Dispensing.recordDailyDispensing today userId drug_id q date
                                                   category notes) t in
  drugs out.2 = drugs t ∧
  (q ≤ d_stock drug → 0 ≤ d_stock drug →
   out.1 = DispenseRecorded true
             (Some (id, Dispensing.set_quantity_notes q notes existing))
             (Some (d_stock drug))) ∧
  (d_stock drug < q → out = (DispenseInsufficient (d_stock drug) q, t)).
Proof.
  intros Hdate Hdrug Hhead Hq out. subst out.
  unfold Dispensing.recordDailyDispensing.
  rewrite Hdate, String.eqb_refl. cbn [negb].
  run_handler. rewrite Hdrug. run_handler.
  assert (stock_of t drug_id = Some (d_stock drug)) as Hstock.
  { revert Hdrug. unfold Dispensing.select_owned_drug, stock_of.
    destruct (drugs t !! drug_id) as [dr|]; [|done]. cbn.
    destruct (d_created_by dr =? userId); [|done]. by intros [= ->]. }
  assert (daily_dispensing_summary t !! id = Some existing) as Hrow.
  { apply head_Some_elem_of in Hhead.
    apply list_elem_of_filter in Hhead as [_ Hin].
    by apply elem_of_map_to_list in Hin. }
  destruct (Z.ltb_spec (d_stock drug) q) as [Hlt|Hge].
  - run_handler. repeat split; (done || lia).
  - apply head_Some in Hhead as [rest ->].
    rewrite Hq, Z.sub_diag.
    destruct (Z.ltb_spec (d_stock drug) 0) as [Hneg|Hpos].
    + run_handler. repeat split; (done || lia).
    + unfold Dispensing.update_summary, Dispensing.put_summary.
      run_handler. rewrite sub_0_id. cbn.
      split; [done|]. split; [|lia]. intros _ _.
      unfold stock_of. cbn. rewrite lookup_alter_eq, Hrow. cbn.
      unfold stock_of in Hstock. by rewrite Hstock.
Qed.

Lemma resubmission_keeps_stock_witness :
  let out := run (Dispensing.recordDailyDispensing "2025-01-15" 7 1 10 None
                    (Some "OPD") (Some "again"))
                 (pharmacy 12 (Some 10)) in
  drugs out.2 = drugs (pharmacy 12 (Some 10)) ∧
  (10 ≤ 12 → 0 ≤ 12 →
   out.1 = DispenseRecorded true
             (Some (1, mkDisp 1 10 "2025-01-15" "OPD" (Some "again") 7))
             (Some 12)) ∧
  (12 < 10 → out = (DispenseInsufficient 12 10, pharmacy 12 (Some 10))).
Proof.
  apply (resubmission_keeps_stock "2025-01-15" 7 1 10 None (Some "OPD")
           (Some "again") (pharmacy 12 (Some 10))
           (mkDrug "Paracetamol" 12 7) 1
           (mkDisp 1 10 "2025-01-15" "OPD" None 7));
    reflexivity.
Defined.

(** C7 (defect in the code).  The specification asks that a non-positive
    quantity is refused.  The recorder has no such check: a request to dispense -5
    units passes the availability check, a summary row with quantity -5 is
    inserted and the stock goes from 10 to 15; a request for 0 units
    inserts a row with quantity 0. *)
Theorem negative_dispensing_is_recorded :
  (let out := run (Dispensing.recordDailyDispensing "2025-01-15" 7 1 (-5) None
                     (Some "OPD") None)
                  (pharmacy 10 None) in
   out.1 = DispenseRecorded false
             (Some (2, mkDisp 1 (-5) "2025-01-15" "OPD" None 7)) (Some 15) ∧
   daily_dispensing_summary out.2 !! 2
   = Some (mkDisp 1 (-5) "2025-01-15" "OPD" None 7) ∧
   stock_of out.2 1 = Some 15) ∧
  (let out := run (Dispensing.recordDailyDispensing "2025-01-15" 7 1 0 None
                     (Some "OPD") None)
                  (pharmacy 10 None) in
   daily_dispensing_summary out.2 !! 2
   = Some (mkDisp 1 0 "2025-01-15" "OPD" None 7) ∧
   stock_of out.2 1 = Some 10).
Proof. repeat split; vm_compute; reflexivity. Qed.

(** ** The matcher *)

Module RegexFacts.

Import Regex.

Lemma extends_refl (s : mstate) : extends s s.
Proof. by split. Qed.

Lemma extends_trans (s1 s2 s3 : mstate) :
  extends s1 s2 → extends s2 s3 → extends s1 s3.
Proof. unfold extends. lia. Qed.

#[local] Hint Resolve extends_refl : core.

(** Whatever the matcher answers, it answers through its continuation,
    called on a state that extends the one it started from. *)
Lemma matcher_calls_continuation (r : re) :
  ∀ (k : mstate → option mstate) (s e : mstate),
    matcher r k s = Some e → ∃ s', k s' = Some e ∧ extends s s'.
Proof.
  induction r as [|p|a IHa b IHb|a IHa b IHb|a IHa|a IHa|i a IHa| | |];
    intros k s e H; cbn [matcher] in H.
  - eauto.
  - destruct (rest s) as [|c tl] eqn:Hr; [done|].
    destruct (p c); [|done].
    eexists. split; [exact H|]. unfold extends. cbn. rewrite Hr. cbn. lia.
  - apply IHa in H as (s1 & H & H1). apply IHb in H as (s2 & H & H2).
    eauto using extends_trans.
  - destruct (matcher a k s) eqn:Ha; [|by eauto].
    injection H as ->. eauto.
  - revert H. generalize (S (length (rest s))). intros n. revert s.
    induction n as [|n IHn]; intros s H; cbn [rep_greedy] in H; [by eauto|].
    match type of H with
    | match ?x with _ => _ end = _ => destruct x eqn:Ha
    end; [|by eauto].
    injection H as ->. apply IHa in Ha as (s1 & Ha & H1).
    destruct (pos s <? pos s1)%nat; [|done].
    apply IHn in Ha as (s2 & Ha & H2). eauto using extends_trans.
  - revert H. generalize (S (length (rest s))). intros n. revert s.
    induction n as [|n IHn]; intros s H; cbn [rep_lazy] in H; [by eauto|].
    destruct (k s) eqn:Hk; [injection H as ->; by eauto|].
    apply IHa in H as (s1 & Ha & H1).
    destruct (pos s <? pos s1)%nat; [|done].
    apply IHn in Ha as (s2 & Ha & H2). eauto using extends_trans.
  - apply IHa in H as (s1 & H & H1). eexists. split; [exact H|].
    destruct H1. by split.
  - destruct (at_boundary s); [by eauto | done].
  - destruct (before s); [done | by eauto].
  - destruct (rest s); [by eauto | done].
Qed.

(** The matcher looks at its continuation only on states that extend the
    one it started from. *)
Lemma matcher_ext (r : re) :
  ∀ (k1 k2 : mstate → option mstate) (s : mstate),
    (∀ s', extends s s' → k1 s' = k2 s') → matcher r k1 s = matcher r k2 s.
Proof.
  induction r as [|p|a IHa b IHb|a IHa b IHb|a IHa|a IHa|i a IHa| | |];
    intros k1 k2 s Hk; cbn [matcher].
  - auto.
  - destruct (rest s) as [|c tl] eqn:Hr; [done|].
    destruct (p c); [|done].
    apply Hk. unfold extends. cbn. rewrite Hr. cbn. lia.
  - apply IHa. intros s1 H1. apply IHb. intros s2 H2.
    eauto using extends_trans.
  - by rewrite (IHa k1 k2 s Hk), (IHb k1 k2 s Hk).
  - assert (∀ n s0, extends s s0 →
              rep_greedy (matcher a) k1 n s0 = rep_greedy (matcher a) k2 n s0)
      as Hloop.
    { induction n as [|n IHn]; intros s0 Hs; cbn [rep_greedy]; [by auto|].
      rewrite (Hk s0 Hs).
      rewrite (IHa _ (λ s', if (pos s0 <? pos s')%nat
                            then rep_greedy (matcher a) k2 n s' else None) s0);
        [done|].
      intros s1 H1. destruct (pos s0 <? pos s1)%nat; [|done].
      apply IHn. eauto using extends_trans. }
    by apply Hloop.
  - assert (∀ n s0, extends s s0 →
              rep_lazy (matcher a) k1 n s0 = rep_lazy (matcher a) k2 n s0)
      as Hloop.
    { induction n as [|n IHn]; intros s0 Hs; cbn [rep_lazy]; [by auto|].
      rewrite (Hk s0 Hs). destruct (k2 s0); [done|].
      apply IHa. intros s1 H1. destruct (pos s0 <? pos s1)%nat; [|done].
      apply IHn. eauto using extends_trans. }
    by apply Hloop.
  - apply IHa. intros s1 [H1 H2]. apply Hk. by split.
  - destruct (at_boundary s); auto.
  - destruct (before s); auto.
  - destruct (rest s); auto.
Qed.

(** The fuel that [matcher] gives to a repetition is enough: with any larger
    fuel the answer is the same, the exhausted case is never reached. *)
Lemma rep_greedy_fuel (a : re) (k : mstate → option mstate) (n1 : nat) :
  ∀ (n2 : nat) (s : mstate),
    (length (rest s) < n1)%nat → (length (rest s) < n2)%nat →
    rep_greedy (matcher a) k n1 s = rep_greedy (matcher a) k n2 s.
Proof.
  induction n1 as [|n1 IH]; intros [|n2] s H1 H2; try lia.
  cbn [rep_greedy].
  rewrite (matcher_ext a _ (λ s', if (pos s <? pos s')%nat
                            then rep_greedy (matcher a) k n2 s' else None) s);
    [done|].
  intros s1 [Hle Hsum]. destruct (Nat.ltb_spec (pos s) (pos s1)); [|done].
  apply IH; lia.
Qed.

Lemma rep_lazy_fuel (a : re) (k : mstate → option mstate) (n1 : nat) :
  ∀ (n2 : nat) (s : mstate),
    (length (rest s) < n1)%nat → (length (rest s) < n2)%nat →
    rep_lazy (matcher a) k n1 s = rep_lazy (matcher a) k n2 s.
Proof.
  induction n1 as [|n1 IH]; intros [|n2] s H1 H2; try lia.
  cbn [rep_lazy]. destruct (k s); [done|].
  apply matcher_ext. intros s1 [Hle Hsum].
  destruct (Nat.ltb_spec (pos s) (pos s1)); [|done].
  apply IH; lia.
Qed.

(** A match found from position [p] starts at or after [p], ends at or
    after its start, and leaves a suffix of the input. *)
Lemma search_bounds (r : re) (l : list ascii) :
  ∀ (b : option ascii) (p st : nat) (e : mstate),
    search r b l p = Some (st, e) →
    (p ≤ st ≤ pos e)%nat ∧ (pos e + length (rest e) = p + length l)%nat.
Proof.
  induction l as [|c tl IH]; intros b p st e H; cbn [search] in H.
  - destruct (matcher r Some _) as [e'|] eqn:Hm; [|done].
    injection H as <- <-.
    apply matcher_calls_continuation in Hm as (s' & [= ->] & Hle & Hsum).
    cbn in *. lia.
  - destruct (matcher r Some _) as [e'|] eqn:Hm.
    + injection H as <- <-.
      apply matcher_calls_continuation in Hm as (s' & [= ->] & Hle & Hsum).
      cbn in *. lia.
    + apply IH in H. cbn. lia.
Qed.

(** The fuel of the global loops is enough: more fuel changes nothing. *)
Lemma matches_fuel (r : re) (fuel1 : nat) :
  ∀ (fuel2 : nat) (b : option ascii) (l : list ascii) (p : nat),
    (length l < fuel1)%nat → (length l < fuel2)%nat →
    matches fuel1 r b l p = matches fuel2 r b l p.
Proof.
  induction fuel1 as [|f1 IH]; intros [|f2] b l p H1 H2; try lia.
  cbn [matches]. destruct (search r b l p) as [[st e]|] eqn:Hs; [|done].
  apply search_bounds in Hs as [Hst Hsum]. f_equal.
  destruct (Nat.eqb_spec (pos e) st) as [Heq|Hne].
  - destruct (rest e) as [|c tl] eqn:Hr; [done|].
    cbn in Hsum. apply IH; lia.
  - apply IH; lia.
Qed.

Lemma replace_fuel (r : re) (by_ : list ascii) (fuel1 : nat) :
  ∀ (fuel2 : nat) (b : option ascii) (l : list ascii) (p : nat),
    (length l < fuel1)%nat → (length l < fuel2)%nat →
    replace_from fuel1 r by_ b l p = replace_from fuel2 r by_ b l p.
Proof.
  induction fuel1 as [|f1 IH]; intros [|f2] b l p H1 H2; try lia.
  cbn [replace_from]. destruct (search r b l p) as [[st e]|] eqn:Hs; [|done].
  apply search_bounds in Hs as [Hst Hsum]. do 2 f_equal.
  destruct (Nat.eqb_spec (pos e) st) as [Heq|Hne].
  - destruct (rest e) as [|c tl] eqn:Hr; [done|].
    cbn in Hsum. f_equal. apply IH; lia.
  - apply IH; lia.
Qed.

End RegexFacts.

(** ** SQL validation *)

(** C9.  The column validator returns no invalid token for
    SELECT d.stock, d.name FROM drugs d WHERE d.id = 1 LIMIT 20, and that
    statement passes the whole validation; it flags o.order_id in
    SELECT o.order_id FROM orders o LIMIT 20, and that statement is
    discarded; DROP TABLE drugs is refused by the keyword check, so that no
    statement is handed to the database. *)
Theorem reference_queries :
  Chatbot.validateSQLColumns
    "SELECT d.stock, d.name FROM drugs d WHERE d.id = 1 LIMIT 20" = [] ∧
  Chatbot.generateValidatedSQL
    (Some "SELECT d.stock, d.name FROM drugs d WHERE d.id = 1 LIMIT 20")
  = Some "SELECT d.stock, d.name FROM drugs d WHERE d.id = 1 LIMIT 20" ∧
  Chatbot.validateSQLColumns "SELECT o.order_id FROM orders o LIMIT 20"
  = ["o.order_id"] ∧
  Chatbot.generateValidatedSQL (Some "SELECT o.order_id FROM orders o LIMIT 20")
  = None ∧
  Chatbot.has_forbidden_keyword (Str.chars "DROP TABLE drugs") = true ∧
  Chatbot.generateValidatedSQL (Some "DROP TABLE drugs") = None ∧
  Chatbot.dynamicQuery (Some "DROP TABLE drugs") = None.
Proof. repeat split; vm_compute; reflexivity. Qed.

(** C8 (defect in the code).  The specification asks that a forbidden
    keyword inside a longer identifier does not cause rejection.  The
    statement
    SELECT o.created_at FROM orders o LIMIT 20 is one SELECT, holds no
    forbidden keyword as a whole word and names only columns of the
    schema, yet the keyword check refuses it: the check looks for CREATE
    as a substring and finds it in CREATED_AT.  The same happens with
    UPDATE in updated_at. *)
Theorem identifier_with_keyword_is_rejected :
  let q := "SELECT o.created_at FROM orders o LIMIT 20" in
  let q' := "SELECT d.name, d.updated_at FROM drugs d LIMIT 20" in
  spec_bare_keywords q = [] ∧ spec_select_count q = 1%nat ∧
  Chatbot.validateSQLColumns q = [] ∧
  Chatbot.has_forbidden_keyword (Str.chars q) = true ∧
  Chatbot.generateValidatedSQL (Some q) = None ∧
  spec_bare_keywords q' = [] ∧ spec_select_count q' = 1%nat ∧
  Chatbot.validateSQLColumns q' = [] ∧
  Chatbot.generateValidatedSQL (Some q') = None.
Proof. repeat split; vm_compute; reflexivity. Qed.

(** * Further properties of the handlers *)

(** ** Single order-item update: refusals, effects and frame *)

(** X1.  An item that does not exist, or whose seller is not the caller,
    is answered with "not found" and no table changes. *)
Theorem update_of_foreign_item_is_refused (t : tables) (id seller : Z)
    (status : option string) (quantity : option Z) :
  (order_items t !! id = None ∨
   ∃ i, order_items t !! id = Some i ∧ oi_seller_id i ≠ seller) →
  run (updateOrderItemStatus id seller status quantity) t = (ItemNotFound, t).
Proof.
  intros H. unfold updateOrderItemStatus. run_handler.
  assert (select_item t id seller = None) as ->; [|done].
  unfold select_item. destruct H as [-> | (i & -> & Hne)]; [done|]. cbn.
  by destruct (Z.eqb_spec (oi_seller_id i) seller).
Qed.

Lemma update_of_foreign_item_is_refused_witness :
  run (updateOrderItemStatus 100 8 (Some "approved") (Some 2))
      (one_item 10 4 "pending")
  = (ItemNotFound, one_item 10 4 "pending").
Proof.
  apply update_of_foreign_item_is_refused. right.
  exists (mkItem 5 (Some 1) 4 "pending" 7). split; [reflexivity | discriminate].
Defined.

(** X2.  Approving an item that is not yet approved, whose drug has at
    least the effective quantity in stock, succeeds: the item is approved,
    it holds the effective quantity, and the drug's stock goes down by
    exactly that quantity and stays non-negative (to 0 when the two are
    equal). *)
Theorem approval_deducts_effective_quantity (t : tables) (id seller d s : Z)
    (quantity : option Z) (item : item_row) :
  select_item t id seller = Some item →
  ir_current_status item ≠ "approved" →
  ir_drug_id item = Some d → d ≠ 0 →
  stock_of t d = Some s →
  effective_quantity item quantity ≤ s →
  let out := run (updateOrderItemStatus id seller (Some "approved") quantity) t in
  out.1 = ItemUpdated ∧
  status_of out.2 id = Some "approved" ∧
  quantity_of out.2 id = Some (effective_quantity item quantity) ∧
  stock_of out.2 d = Some (s - effective_quantity item quantity) ∧
  0 ≤ s - effective_quantity item quantity.
Proof.
  intros Hitem Hst Hd Hd0 Hs Hle out. subst out.
  rewrite (run_update _ _ _ _ Hitem). cbn zeta.
  assert (ir_stock item = Some s) as Hstock.
  { destruct (select_item_stored _ _ _ _ Hitem) as (i & _ & _ & _ & Hdi & ->).
    by rewrite <- Hdi, Hd. }
  rewrite Hd, Hstock. cbn [Js.truthy_str Js.truthy_num default negb].
  destruct (Z.eqb_spec d 0) as [|_]; [done|]. cbn [negb].
  rewrite (eqb_neq_str _ _ Hst). cbn [String.eqb Ascii.eqb Bool.eqb negb andb].
  cbn [Js.lt_null]. destruct (Z.ltb_spec s (effective_quantity item quantity));
    [lia|].
  cbn [fst snd]. split; [done|]. split.
  { unfold status_of. cbn. apply (status_after_status _ _ _ _ Hitem). }
  split.
  { unfold quantity_of. cbn. apply (quantity_after_status _ _ _ _ Hitem). }
  split; [|lia].
  unfold stock_of in *. cbn. rewrite lookup_alter_eq.
  destruct (drugs t !! d); [|done]. cbn in *. by injection Hs as ->.
Qed.

Lemma approval_deducts_effective_quantity_witness :
  let out := run (updateOrderItemStatus 100 7 (Some "approved") None)
                 (one_item 10 10 "pending") in
  out.1 = ItemUpdated ∧
  status_of out.2 100 = Some "approved" ∧
  quantity_of out.2 100 = Some 10 ∧
  stock_of out.2 1 = Some (10 - 10) ∧
  0 ≤ 10 - 10.
Proof.
  apply (approval_deducts_effective_quantity (one_item 10 10 "pending") 100 7
           1 10 None (mkItemRow 100 "pending" (Some 1) 10 (Some 10)));
    [reflexivity | discriminate | reflexivity | discriminate | reflexivity
    | vm_compute; discriminate].
Defined.

(** X3.  A single update changes the drugs table only on a transition into
    'approved' from another status or from 'approved' to 'rejected': a
    quantity edit alone, a re-approval of an approved item, and any other
    status change leave every stock as it was. *)
Theorem stock_changes_only_on_transitions (t : tables) (id seller : Z)
    (status : option string) (quantity : option Z) (item : item_row) :
  select_item t id seller = Some item →
  let out := run (updateOrderItemStatus id seller status quantity) t in
  drugs out.2 ≠ drugs t →
  (status = Some "approved" ∧ ir_current_status item ≠ "approved") ∨
  (status = Some "rejected" ∧ ir_current_status item = "approved").
Proof.
  intros Hitem out Hne. subst out. rewrite (run_update _ _ _ _ Hitem) in Hne.
  cbn zeta in Hne.
  destruct (Js.truthy_str status) eqn:Hs; [|by cbn in Hne].
  destruct status as [st|]; [|done].
  change (default EmptyString (Some st)) with st in Hne.
  destruct (Js.truthy_num (ir_drug_id item)); [|by cbn in Hne].
  destruct (String.eqb_spec st "approved") as [->|_]; cbn [andb negb snd with_items_drugs drugs] in Hne.
  - destruct (String.eqb_spec (ir_current_status item) "approved") as [He|Hn];
      cbn [andb negb snd with_items_drugs drugs] in Hne.
    + by cbn [String.eqb Ascii.eqb Bool.eqb andb snd with_items_drugs drugs] in Hne.
    + destruct (Js.lt_null _ _); [done|]. by left.
  - destruct (String.eqb_spec st "rejected") as [->|_];
      cbn [andb negb snd with_items_drugs drugs] in Hne; [|done].
    destruct (String.eqb_spec (ir_current_status item) "approved"); [|done].
    by right.
Qed.

Lemma stock_changes_only_on_transitions_witness :
  (Some "rejected" = Some "approved" ∧ "approved" ≠ "approved") ∨
  (Some "rejected" = Some "rejected" ∧ "approved" = "approved").
Proof.
  apply (stock_changes_only_on_transitions (one_item 0 10 "approved") 100 7
           (Some "rejected") None
           (mkItemRow 100 "approved" (Some 1) 10 (Some 0)));
    [reflexivity | vm_compute; discriminate].
Defined.

(** The tables after a single update differ from the ones before in the
    order-item table at the item's key and in the drugs table at the item's
    drug, nowhere else. *)
Lemma update_shape (t : tables) (id seller : Z) (status : option string)
    (quantity : option Z) (item : item_row) :
  select_item t id seller = Some item →
  ∃ D I,
    (run (updateOrderItemStatus id seller status quantity) t).2
    = with_items_drugs t D I ∧
    (∀ id', id' ≠ id → I !! id' = order_items t !! id') ∧
    ((λ i, (oi_order_id i, oi_drug_id i, oi_seller_id i)) <$> I !! id
     = (λ i, (oi_order_id i, oi_drug_id i, oi_seller_id i))
       <$> order_items t !! id) ∧
    (∀ d, ir_drug_id item ≠ Some d → D !! d = drugs t !! d).
Proof.
  intros Hitem. rewrite (run_update _ _ _ _ Hitem).
  destruct (select_item_stored _ _ _ _ Hitem) as (i & Hi & _).
  assert (∀ id', id' ≠ id →
            items_after_quantity t id item quantity !! id'
            = order_items t !! id') as Hq.
  { intros id' Hne. unfold items_after_quantity.
    destruct (Js.truthy_num quantity); [|done]. by rewrite lookup_alter_ne. }
  assert (∀ st id', id' ≠ id →
            alter (Sql.set_status st) id
              (items_after_quantity t id item quantity) !! id'
            = order_items t !! id') as Hs.
  { intros st id' Hne. rewrite lookup_alter_ne by done. by apply Hq. }
  assert ((λ i, (oi_order_id i, oi_drug_id i, oi_seller_id i))
            <$> items_after_quantity t id item quantity !! id
          = (λ i, (oi_order_id i, oi_drug_id i, oi_seller_id i))
            <$> order_items t !! id) as Hfq.
  { unfold items_after_quantity. destruct (Js.truthy_num quantity); [|done].
    by rewrite lookup_alter_eq, Hi. }
  assert (∀ st, (λ i, (oi_order_id i, oi_drug_id i, oi_seller_id i))
            <$> alter (Sql.set_status st) id
                  (items_after_quantity t id item quantity) !! id
          = (λ i, (oi_order_id i, oi_drug_id i, oi_seller_id i))
            <$> order_items t !! id) as Hfs.
  { intros st. rewrite <- Hfq, lookup_alter_eq.
    by destruct (items_after_quantity t id item quantity !! id). }
  assert (∀ f d, ir_drug_id item ≠ Some d →
            Js.truthy_num (ir_drug_id item) = true →
            alter f (default 0 (ir_drug_id item)) (drugs t) !! d
            = drugs t !! d) as Hdr.
  { intros f d Hne Ht. destruct (ir_drug_id item) as [d0|]; [|done].
    apply lookup_alter_ne. cbn. congruence. }
  cbn zeta.
  destruct (Js.truthy_str status);
    [|by eexists _, _; split; [reflexivity|]; auto].
  destruct (Js.truthy_num (ir_drug_id item)) eqn:Htd;
    [|by eexists _, _; split; [reflexivity|]; auto].
  destruct (String.eqb _ "approved" && _).
  - destruct (Js.lt_null _ _).
    + exists (drugs t), (order_items t). cbn [snd]. unfold with_items_drugs.
      by rewrite tables_eta.
    + eexists _, _; split; [reflexivity|]; auto.
  - destruct (String.eqb _ "rejected" && _);
      eexists _, _; (split; [reflexivity|]); auto.
Qed.

(** X4.  A single update touches one item and at most one drug: every other
    order item and every drug other than the item's own are as before, and
    so are the orders and the dispensing summary; on the item itself the
    order, the drug and the seller never change. *)
Theorem update_touches_one_item_one_drug (t : tables) (id seller : Z)
    (status : option string) (quantity : option Z) :
  let out := run (updateOrderItemStatus id seller status quantity) t in
  (∀ id', id' ≠ id → order_items out.2 !! id' = order_items t !! id') ∧
  (∀ d i, order_items t !! id = Some i → oi_drug_id i ≠ Some d →
          drugs out.2 !! d = drugs t !! d) ∧
  orders out.2 = orders t ∧
  daily_dispensing_summary out.2 = daily_dispensing_summary t ∧
  ((λ i, (oi_order_id i, oi_drug_id i, oi_seller_id i))
     <$> order_items out.2 !! id
   = (λ i, (oi_order_id i, oi_drug_id i, oi_seller_id i))
     <$> order_items t !! id).
Proof.
  intros out. subst out.
  destruct (select_item t id seller) as [item|] eqn:Hitem.
  2: { unfold updateOrderItemStatus. run_handler. rewrite Hitem. by cbn. }
  destruct (update_shape t id seller status quantity item Hitem)
    as (D & I & -> & HI & Hid & HD).
  destruct (select_item_stored _ _ _ _ Hitem) as (i & Hi & _ & _ & Hd & _).
  cbn. repeat split; try done.
  intros d i' Hi' Hne. apply HD. rewrite Hi in Hi'. congruence.
Qed.

(** X5.  A single update keeps every stock non-negative, provided the
    quantity stored on the item is not negative: an approval is only
    recorded when the stock covers it, and a rejection adds the stored
    quantity back. *)
Theorem update_keeps_stocks_nonneg (t : tables) (id seller : Z)
    (status : option string) (quantity : option Z) :
  stocks_nonneg t →
  (∀ i, order_items t !! id = Some i → 0 ≤ oi_quantity i) →
  stocks_nonneg (run (updateOrderItemStatus id seller status quantity) t).2.
Proof.
  intros Hnn Hq.
  destruct (select_item t id seller) as [item|] eqn:Hitem.
  2: { unfold updateOrderItemStatus. run_handler. rewrite Hitem. by cbn. }
  rewrite (run_update _ _ _ _ Hitem).
  destruct (select_item_stored _ _ _ _ Hitem) as (i & Hi & _ & Hoq & Hd & Hst).
  specialize (Hq i Hi). rewrite <- Hoq in Hq.
  assert (∀ its, stocks_nonneg (with_items_drugs t (drugs t) its)) as Hsame.
  { intros its d s. apply Hnn. }
  cbn zeta.
  destruct (Js.truthy_str status); [|apply Hsame].
  destruct (Js.truthy_num (ir_drug_id item)) eqn:Htd; [|apply Hsame].
  destruct (ir_drug_id item) as [d0|] eqn:Hd0; [|done]. cbn [default].
  assert (ir_stock item = stock_of t d0) as Hstock.
  { by rewrite Hst, <- Hd. }
  destruct (String.eqb _ "approved" && _).
  - destruct (Js.lt_null _ _) eqn:Hlt; [apply Hnn|].
    intros d s. unfold stock_of. cbn.
    destruct (Z.eq_dec d0 d) as [->|Hne].
    + rewrite lookup_alter_eq. rewrite Hstock in Hlt. unfold stock_of in Hlt.
      destruct (drugs t !! d) as [dr|]; [|done]. cbn in *.
      intros [= <-]. lia.
    + rewrite lookup_alter_ne by done. apply Hnn.
  - destruct (String.eqb _ "rejected" && _); [|apply Hsame].
    intros d s. unfold stock_of. cbn.
    destruct (Z.eq_dec d0 d) as [->|Hne].
    + rewrite lookup_alter_eq.
      destruct (drugs t !! d) as [dr|] eqn:Hdr; [|done]. cbn.
      intros [= <-]. pose proof (Hnn d (d_stock dr)) as H.
      unfold stock_of in H. rewrite Hdr in H. specialize (H eq_refl). lia.
    + rewrite lookup_alter_ne by done. apply Hnn.
Qed.

Lemma update_keeps_stocks_nonneg_witness :
  stocks_nonneg
    (run (updateOrderItemStatus 100 7 (Some "rejected") None)
         (one_item 0 10 "approved")).2.
Proof.
  apply update_keeps_stocks_nonneg.
  - intros d s. unfold stock_of. cbn.
    destruct (Z.eq_dec d 1) as [->|Hne].
    + rewrite lookup_singleton_eq. cbn. intros [= <-]. lia.
    + by rewrite lookup_singleton_ne.
  - intros i. cbn. rewrite lookup_singleton_eq. intros [= <-]. cbn. lia.
Defined.

(** ** Daily dispensing: refusals, effects and invariants *)

Section RecordDailyDispensing.

Variables (today : string) (userId drug_id q : Z).
Variables (date category notes : option string) (t : tables).

Let cat : string := Js.str_or category "OPD".
Let out : response * tables :=
  run (Dispensing.recordDailyDispensing today userId drug_id q date category
                                        notes) t.

(** The request, path by path. *)
Lemma run_record :
  out =
  if negb (String.eqb (Js.str_or date today) today)
  then (OnlyTodayAllowed today, t)
  else
    match Dispensing.select_owned_drug t drug_id userId with
    | None => (DrugNotFound, t)
    | Some drug =>
      if d_stock drug <? q then (DispenseInsufficient (d_stock drug) q, t)
      else
        match Dispensing.select_existing t drug_id today cat with
        | (eid, e) :: _ =>
          let diff := q - dds_quantity_dispensed e in
          if d_stock drug <? diff
          then (DispenseUpdateInsufficient (d_stock drug) diff, t)
          else
            let m := alter (Dispensing.set_quantity_notes q notes) eid
                           (daily_dispensing_summary t) in
            let ds := alter (λ x, Sql.set_stock (d_stock x - diff) x) drug_id
                            (drugs t) in
            (DispenseRecorded true (pair eid <$> m !! eid)
                              (d_stock <$> ds !! drug_id),
             mkTables ds (orders t) (order_items t) m (dds_next_id t))
        | [] =>
          match daily_dispensing_summary t !! dds_next_id t with
          | Some _ => (DuplicateRecord, t)
          | None =>
            let row := mkDisp drug_id q today cat notes userId in
            let ds := alter (λ x, Sql.set_stock (d_stock x - q) x) drug_id
                            (drugs t) in
            (DispenseRecorded false (Some (dds_next_id t, row))
                              (d_stock <$> ds !! drug_id),
             mkTables ds (orders t) (order_items t)
                      (<[dds_next_id t := row]> (daily_dispensing_summary t))
                      (dds_next_id t + 1))
          end
        end
    end.
Proof.
  subst out cat. unfold Dispensing.recordDailyDispensing.
  destruct (negb _); [by run_handler|].
  run_handler.
  destruct (Dispensing.select_owned_drug t drug_id userId) as [drug|];
    [|by run_handler].
  destruct (d_stock drug <? q); [by run_handler|].
  destruct (Dispensing.select_existing _ _ _ _) as [|[eid e] rest].
  - unfold Dispensing.insert_summary, Dispensing.put_summary. run_handler.
    destruct (daily_dispensing_summary t !! dds_next_id t); by run_handler.
  - cbn zeta. destruct (d_stock drug <? _); [by run_handler|].
    unfold Dispensing.update_summary, Dispensing.put_summary. by run_handler.
Qed.

Lemma owned_drug_stored (drug : drug) :
  Dispensing.select_owned_drug t drug_id userId = Some drug →
  drugs t !! drug_id = Some drug ∧ d_created_by drug = userId.
Proof.
  unfold Dispensing.select_owned_drug.
  destruct (drugs t !! drug_id) as [dr|]; [|done]. cbn.
  destruct (Z.eqb_spec (d_created_by dr) userId); [|done].
  by intros [= ->].
Qed.

(** X6.  A dispensing request that is not recorded changes nothing: every
    refusal (wrong date, drug not in the caller's inventory, insufficient
    stock, insufficient stock for the update) leaves all tables as they
    were. *)
Theorem refused_dispensing_changes_nothing :
  (∃ updated row stock, out.1 = DispenseRecorded updated row stock) ∨
  out.2 = t.
Proof.
  rewrite run_record.
  destruct (negb _); [by right|].
  destruct (Dispensing.select_owned_drug _ _ _) as [drug|]; [|by right].
  destruct (d_stock drug <? q); [by right|].
  destruct (Dispensing.select_existing _ _ _ _) as [|[eid e] rest].
  - destruct (daily_dispensing_summary t !! dds_next_id t); [by right|].
    left. by eexists _, _, _.
  - cbn zeta. destruct (d_stock drug <? _); [by right|].
    left. by eexists _, _, _.
Qed.

(** X7.  The recorder only accepts today's date and the caller's own
    drugs: a supplied date other than today is answered with the
    only-today error, and on today's date a drug that does not exist or
    was created by another user is answered with "not found"; nothing
    changes in either case. *)
Theorem dispensing_guards :
  (∀ d, date = Some d → d ≠ EmptyString → d ≠ today →
        out = (OnlyTodayAllowed today, t)) ∧
  (Js.str_or date today = today →
   (drugs t !! drug_id = None ∨
    ∃ dr, drugs t !! drug_id = Some dr ∧ d_created_by dr ≠ userId) →
   out = (DrugNotFound, t)).
Proof.
  rewrite run_record. split.
  - intros d -> Hd Hne. cbn. rewrite (eqb_neq_str _ _ Hd).
    by rewrite (eqb_neq_str _ _ Hne).
  - intros -> H. rewrite String.eqb_refl. cbn [negb].
    assert (Dispensing.select_owned_drug t drug_id userId = None) as ->;
      [|done].
    unfold Dispensing.select_owned_drug.
    destruct H as [-> | (dr & -> & Hne)]; [done|]. cbn.
    by destruct (Z.eqb_spec (d_created_by dr) userId).
Qed.



(** X10.  The recorder keeps every stock non-negative: whatever the
    request, if no stock is negative before the call, none is after it. *)
Theorem dispensing_keeps_stocks_nonneg :
  stocks_nonneg t → stocks_nonneg out.2.
Proof.
  intros Hnn. rewrite run_record.
  destruct (negb _); [done|].
  destruct (Dispensing.select_owned_drug t drug_id userId) as [drug|]
    eqn:Hdrug; [|done].
  destruct (owned_drug_stored drug Hdrug) as [Hd _].
  assert (∀ x, x ≤ d_stock drug →
            ∀ o i m n,
              stocks_nonneg
                (mkTables (alter (λ y, Sql.set_stock (d_stock y - x) y)
                                 drug_id (drugs t)) o i m n)) as Hsub.
  { intros x Hx o i m n d s. unfold stock_of. cbn.
    destruct (Z.eq_dec drug_id d) as [->|Hne].
    - rewrite lookup_alter_eq, Hd. cbn. intros [= <-]. lia.
    - rewrite lookup_alter_ne by done. apply Hnn. }
  destruct (Z.ltb_spec (d_stock drug) q); [done|].
  destruct (Dispensing.select_existing _ _ _ _) as [|[eid e] rest].
  - destruct (daily_dispensing_summary t !! dds_next_id t); [done|].
    cbn. by apply Hsub.
  - cbn zeta.
    destruct (Z.ltb_spec (d_stock drug) (q - dds_quantity_dispensed e));
      [done|].
    cbn. by apply Hsub.
Qed.

(** X11.  The recorder keeps the summary table well formed: if the
    sequence is ahead of every stored id and no two rows share the key
    (drug, date, category), the same holds after the call; re-recording a
    key never creates a second row for it. *)
Theorem dispensing_keeps_summary_wf :
  summary_wf t → summary_wf out.2.
Proof.
  intros [Hseq Huniq]. rewrite run_record.
  destruct (negb _); [done|].
  destruct (Dispensing.select_owned_drug t drug_id userId) as [drug|];
    [|done].
  destruct (d_stock drug <? q); [done|].
  destruct (Dispensing.select_existing t drug_id today cat)
    as [|[eid e] rest] eqn:Hex.
  - assert (∀ id r, daily_dispensing_summary t !! id = Some r →
                    summary_key r ≠ (drug_id, today, cat)) as Hfresh.
    { intros id r Hr Hk.
      assert ((id, r) ∈ Dispensing.select_existing t drug_id today cat) as Hin.
      { apply list_elem_of_filter. split; [|by apply elem_of_map_to_list].
        unfold summary_key in Hk. by injection Hk as -> -> ->. }
      rewrite Hex in Hin. by apply elem_of_nil in Hin. }
    destruct (daily_dispensing_summary t !! dds_next_id t); [done|].
    cbn. split; cbn.
    + intros id r. destruct (Z.eq_dec (dds_next_id t) id) as [<-|Hne].
      * intros _. lia.
      * rewrite lookup_insert_ne by done. intros Hr.
        specialize (Hseq id r Hr). lia.
    + intros id1 id2 r1 r2.
      destruct (Z.eq_dec (dds_next_id t) id1) as [<-|Hne1];
        destruct (Z.eq_dec (dds_next_id t) id2) as [<-|Hne2]; try done.
      * rewrite lookup_insert_eq, lookup_insert_ne by done.
        intros [= <-] Hr2 Hk. by destruct (Hfresh _ _ Hr2).
      * rewrite lookup_insert_eq, lookup_insert_ne by done.
        intros Hr1 [= <-] Hk. by destruct (Hfresh _ _ Hr1).
      * rewrite !lookup_insert_ne by done. apply Huniq.
  - cbn zeta. destruct (d_stock drug <? _); [done|]. cbn. split; cbn.
    + intros id r Hr. apply lookup_alter_Some in Hr
        as [(_ & r0 & Hr0 & _) | [_ Hr0]]; eauto.
    + assert (∀ id r,
                alter (Dispensing.set_quantity_notes q notes) eid
                      (daily_dispensing_summary t) !! id = Some r →
                ∃ r0, daily_dispensing_summary t !! id = Some r0 ∧
                      summary_key r0 = summary_key r) as Hkey.
      { intros id r Hr. apply lookup_alter_Some in Hr
          as [(_ & r0 & Hr0 & ->) | [_ Hr0]]; eauto. }
      intros id1 id2 r1 r2 H1 H2 Hk.
      apply Hkey in H1 as (r1' & H1 & K1). apply Hkey in H2 as (r2' & H2 & K2).
      apply (Huniq id1 id2 r1' r2' H1 H2). congruence.
Qed.

End RecordDailyDispensing.

Lemma stocks_nonneg_one_drug (id : Z) (dr : drug) (o : gmap Z order)
    (i : gmap Z order_item) (m : gmap Z dispensing) (n : Z) :
  0 ≤ d_stock dr → stocks_nonneg (mkTables {[ id := dr ]} o i m n).
Proof.
  intros H d s. unfold stock_of. cbn. destruct (Z.eq_dec id d) as [->|Hne].
  - rewrite lookup_singleton_eq. cbn. by intros [= <-].
  - by rewrite lookup_singleton_ne.
Qed.

Lemma summary_wf_one_row (d : gmap Z drug) (o : gmap Z order)
    (i : gmap Z order_item) (id : Z) (r : dispensing) (n : Z) :
  id < n → summary_wf (mkTables d o i {[ id := r ]} n).
Proof.
  intros H. split; cbn.
  - intros id' r'. destruct (Z.eq_dec id id') as [->|Hne].
    + done.
    + by rewrite lookup_singleton_ne.
  - intros id1 id2 r1 r2.
    destruct (Z.eq_dec id id1) as [<-|H1]; [|by rewrite lookup_singleton_ne].
    destruct (Z.eq_dec id id2) as [<-|H2]; [done|].
    by rewrite (lookup_singleton_ne id id2).
Qed.



Lemma dispensing_keeps_stocks_nonneg_witness :
  stocks_nonneg
    (run (Dispensing.recordDailyDispensing "2025-01-15" 7 1 10 None None None)
         (pharmacy 10 None)).2.
Proof.
  apply dispensing_keeps_stocks_nonneg.
  apply stocks_nonneg_one_drug. cbn. lia.
Defined.

Lemma dispensing_keeps_summary_wf_witness :
  summary_wf
    (run (Dispensing.recordDailyDispensing "2025-01-15" 7 1 2 None
            (Some "IPD") None)
         (pharmacy 10 (Some 3))).2.
Proof.
  apply dispensing_keeps_summary_wf.
  apply summary_wf_one_row. lia.
Defined.

(** ** Deleting a dispensing record *)

(** The request, path by path. *)
Lemma run_delete (t : tables) (id userId : Z) :
  exec (deleteDispensingRecord id userId) t =
  match select_record t id userId with
  | None => (Some RecordNotFound, t)
  | Some (quantity_dispensed, drug_id) =>
    (Some RecordDeleted,
     mkTables (alter (λ d, Sql.set_stock (d_stock d + quantity_dispensed) d)
                     drug_id (drugs t))
              (orders t) (order_items t)
              (delete id (daily_dispensing_summary t)) (dds_next_id t))
  end.
Proof.
  unfold exec, deleteDispensingRecord. run_handler.
  destruct (select_record t id userId) as [[qd d]|]; [|by run_handler].
  unfold delete_summary, Dispensing.put_summary. by run_handler.
Qed.

(** X12.  Deleting a record of one of the caller's drugs gives the recorded
    quantity back to that drug's stock and removes the row; the other rows
    and the other drugs are as before. *)
Theorem delete_gives_quantity_back (t : tables) (id userId : Z)
    (r : dispensing) (dr : drug) :
  daily_dispensing_summary t !! id = Some r →
  drugs t !! dds_drug_id r = Some dr →
  d_created_by dr = userId →
  let out := exec (deleteDispensingRecord id userId) t in
  out.1 = Some RecordDeleted ∧
  stock_of out.2 (dds_drug_id r)
  = Some (d_stock dr + dds_quantity_dispensed r) ∧
  daily_dispensing_summary out.2 !! id = None ∧
  (∀ id', id' ≠ id →
     daily_dispensing_summary out.2 !! id' = daily_dispensing_summary t !! id') ∧
  (∀ d, d ≠ dds_drug_id r → drugs out.2 !! d = drugs t !! d).
Proof.
  intros Hr Hd Ho out. subst out. rewrite run_delete.
  unfold select_record. rewrite Hr. cbn. rewrite Hd. cbn.
  destruct (Z.eqb_spec (d_created_by dr) userId); [|done]. cbn.
  split; [done|]. unfold stock_of. cbn.
  rewrite lookup_alter_eq, Hd, lookup_delete_eq. cbn.
  split; [done|]. split; [done|]. split.
  - intros id' Hne. by rewrite lookup_delete_ne.
  - intros d Hne. by rewrite lookup_alter_ne.
Qed.

Lemma delete_gives_quantity_back_witness :
  let out := exec (deleteDispensingRecord 1 7) (pharmacy 3 (Some 10)) in
  out.1 = Some RecordDeleted ∧
  stock_of out.2 1 = Some (3 + 10) ∧
  daily_dispensing_summary out.2 !! 1 = None ∧
  (∀ id', id' ≠ 1 →
     daily_dispensing_summary out.2 !! id'
     = daily_dispensing_summary (pharmacy 3 (Some 10)) !! id') ∧
  (∀ d, d ≠ 1 → drugs out.2 !! d = drugs (pharmacy 3 (Some 10)) !! d).
Proof.
  apply (delete_gives_quantity_back (pharmacy 3 (Some 10)) 1 7
           (mkDisp 1 10 "2025-01-15" "OPD" None 7)
           (mkDrug "Paracetamol" 3 7)); reflexivity.
Defined.

(** X13.  Deleting a record that does not exist, or whose drug does not
    exist or was created by another user, is answered with "not found" and
    changes nothing. *)
Theorem delete_of_foreign_record_is_refused (t : tables) (id userId : Z) :
  (daily_dispensing_summary t !! id = None ∨
   ∃ r, daily_dispensing_summary t !! id = Some r ∧
        (drugs t !! dds_drug_id r = None ∨
         ∃ dr, drugs t !! dds_drug_id r = Some dr ∧ d_created_by dr ≠ userId)) →
  exec (deleteDispensingRecord id userId) t = (Some RecordNotFound, t).
Proof.
  intros H. rewrite run_delete.
  assert (select_record t id userId = None) as ->; [|done].
  unfold select_record.
  destruct H as [-> | (r & -> & H)]; [done|]. cbn.
  destruct H as [-> | (dr & -> & Hne)]; [done|]. cbn.
  by destruct (Z.eqb_spec (d_created_by dr) userId).
Qed.

Lemma delete_of_foreign_record_is_refused_witness :
  exec (deleteDispensingRecord 1 8) (pharmacy 3 (Some 10))
  = (Some RecordNotFound, pharmacy 3 (Some 10)).
Proof.
  apply delete_of_foreign_record_is_refused. right.
  exists (mkDisp 1 10 "2025-01-15" "OPD" None 7). split; [reflexivity|].
  right. exists (mkDrug "Paracetamol" 3 7). split; [reflexivity | discriminate].
Defined.

(** X14.  Round trip: when the first record of the day for a key is made
    and then deleted by the same user, the drugs table and the summary
    table are exactly what they were before the record was made (the
    sequence alone has moved on). *)
Theorem record_then_delete_restores (today : string) (userId drug_id q : Z)
    (date category notes : option string) (t : tables) (drug : drug) :
  Js.str_or date today = today →
  Dispensing.select_owned_drug t drug_id userId = Some drug →
  q ≤ d_stock drug →
  Dispensing.select_existing t drug_id today (Js.str_or category "OPD") = [] →
  daily_dispensing_summary t !! dds_next_id t = None →
  let t1 := (run (Dispensing.recordDailyDispensing today userId drug_id q date
                    category notes) t).2 in
  let out := exec (deleteDispensingRecord (dds_next_id t) userId) t1 in
  out.1 = Some RecordDeleted ∧
  drugs out.2 = drugs t ∧
  daily_dispensing_summary out.2 = daily_dispensing_summary t ∧
  orders out.2 = orders t ∧ order_items out.2 = order_items t.
Proof.
  intros Hdate Hdrug Hq Hnone Hfresh t1 out. subst out t1.
  rewrite run_record, Hdate, String.eqb_refl, Hdrug, Hnone, Hfresh.
  cbn [negb].
  destruct (Z.ltb_spec (d_stock drug) q); [lia|]. cbn [snd].
  destruct (owned_drug_stored _ _ _ _ Hdrug) as [Hd Ho].
  rewrite run_delete. unfold select_record. cbn.
  rewrite lookup_insert_eq. cbn. rewrite lookup_alter_eq, Hd. cbn.
  destruct (Z.eqb_spec (d_created_by drug) userId); [|done]. cbn.
  by rewrite restore_after_deduct, delete_insert_id.
Qed.

Lemma record_then_delete_restores_witness :
  let t := pharmacy 10 (Some 3) in
  let t1 := (run (Dispensing.recordDailyDispensing "2025-01-15" 7 1 4 None
                    (Some "IPD") None) t).2 in
  let out := exec (deleteDispensingRecord 2 7) t1 in
  out.1 = Some RecordDeleted ∧
  drugs out.2 = drugs t ∧
  daily_dispensing_summary out.2 = daily_dispensing_summary t ∧
  orders out.2 = orders t ∧ order_items out.2 = order_items t.
Proof.
  apply (record_then_delete_restores "2025-01-15" 7 1 4 None (Some "IPD") None
           (pharmacy 10 (Some 3)) (mkDrug "Paracetamol" 10 7));
    [reflexivity | reflexivity | vm_compute; discriminate | reflexivity
    | reflexivity].
Defined.

(** ** Bulk approval: what it changes and what it keeps *)

Lemma requested_of_notin (d : Z) (l : list pending_row) :
  (∀ r, r ∈ l → pr_drug_id r ≠ d) → requested_of d l = 0.
Proof.
  induction l as [|r l IH]; intros H; [done|]. cbn.
  destruct (Z.eqb_spec (pr_drug_id r) d) as [He|_].
  - destruct (H r); [by left | done].
  - rewrite IH; [done|]. intros x Hx. apply H. by right.
Qed.

Lemma requested_of_nonneg (d : Z) (l : list pending_row) :
  (∀ r, r ∈ l → 0 ≤ pr_quantity r) → 0 ≤ requested_of d l.
Proof.
  induction l as [|r l IH]; intros H; [done|]. cbn.
  assert (0 ≤ pr_quantity r) by (apply H; by left).
  assert (0 ≤ requested_of d l) by (apply IH; intros x Hx; apply H; by right).
  destruct (pr_drug_id r =? d); lia.
Qed.

Lemma requested_of_distinct (d : Z) (l : list pending_row) :
  NoDup (pr_drug_id <$> l) →
  requested_of d l = 0 ∨
  ∃ r, r ∈ l ∧ pr_drug_id r = d ∧ requested_of d l = pr_quantity r.
Proof.
  induction l as [|r l IH]; intros Hnd; [by left|]. cbn in *.
  apply NoDup_cons in Hnd as [Hnin Hnd].
  destruct (Z.eqb_spec (pr_drug_id r) d) as [He|Hne].
  - right. exists r. split; [by left|]. split; [done|].
    rewrite requested_of_notin; [lia|].
    intros x Hx Hd. apply Hnin. apply list_elem_of_fmap. exists x.
    split; [congruence | done].
  - destruct (IH Hnd) as [H0|(x & Hx & Hd & Hq)]; [by left|].
    right. exists x. split; [by right|]. split; [done | lia].
Qed.

Lemma pick_sublist (b : bool) (rows : list pending_row) :
  ∀ flags, pick b rows flags `sublist_of` rows.
Proof.
  induction rows as [|x rows IH]; intros [|f fl]; cbn;
    try apply sublist_nil_l.
  destruct (Bool.eqb f b); [apply sublist_skip | apply sublist_cons]; apply IH.
Qed.

Lemma pick_true_or_false (rows : list pending_row) (flags : list bool)
    (r : pending_row) :
  length flags = length rows → r ∈ rows →
  r ∈ pick true rows flags ∨ r ∈ pick false rows flags.
Proof.
  intros Hl Hr. rewrite (pick_permutation rows flags Hl) in Hr.
  by apply elem_of_app in Hr.
Qed.

Lemma NoDup_fmap_eq {A B : Type} (f : A → B) (l : list A) (x y : A) :
  NoDup (f <$> l) → x ∈ l → y ∈ l → f x = f y → x = y.
Proof.
  induction l as [|a l IH]; intros Hnd Hx Hy He; [by apply elem_of_nil in Hx|].
  cbn in Hnd. apply NoDup_cons in Hnd as [Hnin Hnd].
  apply elem_of_cons in Hx as [->|Hx]; apply elem_of_cons in Hy as [->|Hy];
    [done | | | by apply IH].
  - destruct Hnin. apply list_elem_of_fmap. by exists y.
  - destruct Hnin. apply list_elem_of_fmap. by exists x.
Qed.

Lemma filter_all_rows (P : pending_row → Prop) `{!∀ r, Decision (P r)}
    (l : list pending_row) :
  Forall P l → filter P l = l.
Proof.
  induction 1 as [|x l Hx _ IH]; [done|].
  rewrite filter_cons_True by done. by rewrite IH.
Qed.

Lemma filter_no_rows (P : pending_row → Prop) `{!∀ r, Decision (P r)}
    (l : list pending_row) :
  Forall (λ r, ¬ P r) l → filter P l = [].
Proof.
  induction 1 as [|x l Hx _ IH]; [done|].
  by rewrite filter_cons_False.
Qed.

Lemma stocks_nonneg_map_Forall (t : tables) :
  map_Forall (λ _ dr, 0 ≤ d_stock dr) (drugs t) → stocks_nonneg t.
Proof.
  intros H d s. unfold stock_of.
  destruct (drugs t !! d) as [dr|] eqn:Hd; [|done].
  intros [= <-]. by apply (H d dr).
Qed.

(** A row locked by the bulk approval, read back from the tables. *)
Lemma locked_id_stored (t : tables) (orderId sellerId id : Z) :
  id ∈ pr_id <$> select_pending t orderId sellerId →
  ∃ i d, order_items t !! id = Some i ∧
         oi_order_id i = orderId ∧ oi_status i = "pending" ∧
         (oi_seller_id i = sellerId ∨
          (orders t !! orderId ≫= o_recipient_id) = Some sellerId) ∧
         oi_drug_id i = Some d ∧ is_Some (drugs t !! d).
Proof.
  intros (r & -> & Hr)%list_elem_of_fmap.
  apply select_pending_spec in Hr
    as (i & dr & Hi & Ho & Hp & Hs & Hd & Hdr & _).
  exists i, (pr_drug_id r). by rewrite Hdr.
Qed.

(** X15.  A bulk approval finds nothing to do, answers with zero counts
    and changes no table when every pending item of the order whose drug
    exists belongs to another seller while the caller is not the recipient
    of the order; in particular when the order has no pending item, or
    only pending items without a stored drug. *)
Theorem bulk_approve_without_visible_items (faults : nat → fault)
    (t : tables) (orderId sellerId : Z) :
  (∀ id i d, order_items t !! id = Some i →
             oi_order_id i = orderId → oi_status i = "pending" →
             oi_drug_id i = Some d → is_Some (drugs t !! d) →
             oi_seller_id i ≠ sellerId ∧
             (orders t !! orderId ≫= o_recipient_id) ≠ Some sellerId) →
  run (approveAllItems faults orderId sellerId) t = (NoPendingItems 0 [], t).
Proof.
  intros H.
  destruct (run_bulk faults t orderId sellerId) as [[_ Hrun]|Hex]; [done|].
  assert (select_pending t orderId sellerId = []) as Hnil.
  { destruct (select_pending t orderId sellerId) as [|r l] eqn:Hsel; [done|].
    assert (r ∈ select_pending t orderId sellerId) as Hr
      by (rewrite Hsel; by left).
    apply select_pending_spec in Hr
      as (i & dr & Hi & Ho & Hp & Hs & Hd & Hdr & _).
    destruct (H (pr_id r) i (pr_drug_id r)) as [Hn1 Hn2]; try done.
    by destruct Hs. }
  unfold approveAllItems. run_handler. by rewrite Hnil.
Qed.

Lemma bulk_approve_without_visible_items_witness :
  run (approveAllItems (λ _, NoFault) 5 8) two_items_one_drug
  = (NoPendingItems 0 [], two_items_one_drug).
Proof.
  apply bulk_approve_without_visible_items.
  intros id i d Hi _ _ _ _. cbn in Hi.
  apply lookup_insert_Some in Hi as [[_ <-]|[_ Hi]].
  - split; [cbn; lia | vm_compute; discriminate].
  - apply lookup_singleton_Some in Hi as [_ <-].
    split; [cbn; lia | vm_compute; discriminate].
Defined.

(** X16.  Whatever statements of the loop raise, a bulk approval leaves
    the orders and the dispensing records as they are, creates and deletes
    no item and no drug, changes of an item nothing but its status, and
    that only to approved and only for a pending item of this order that
    has a drug and is visible to the caller (own item, or caller is the
    recipient); of a drug it changes nothing but the stock, and that only
    for a drug which a pending item of this order refers to. *)
Theorem bulk_approve_frame (faults : nat → fault) (t : tables)
    (orderId sellerId : Z) :
  let t' := (run (approveAllItems faults orderId sellerId) t).2 in
  orders t' = orders t ∧
  daily_dispensing_summary t' = daily_dispensing_summary t ∧
  dds_next_id t' = dds_next_id t ∧
  (∀ id, order_items t !! id = None → order_items t' !! id = None) ∧
  (∀ id i, order_items t !! id = Some i →
     order_items t' !! id = Some i ∨
     (order_items t' !! id = Some (Sql.set_status "approved" i) ∧
      oi_order_id i = orderId ∧ oi_status i = "pending" ∧
      (oi_seller_id i = sellerId ∨
       (orders t !! orderId ≫= o_recipient_id) = Some sellerId) ∧
      ∃ d, oi_drug_id i = Some d ∧ is_Some (drugs t !! d))) ∧
  (∀ d, drugs t !! d = None → drugs t' !! d = None) ∧
  (∀ d dr, drugs t !! d = Some dr →
     ∃ s, drugs t' !! d = Some (Sql.set_stock s dr) ∧
          ((∀ id i, order_items t !! id = Some i → oi_order_id i = orderId →
                    oi_status i = "pending" → oi_drug_id i ≠ Some d) →
           s = d_stock dr)).
Proof.
  intros t'. subst t'.
  destruct (run_bulk faults t orderId sellerId)
    as [[_ ->]|(flags & new & [] & -> & Hl & _)]; cbn [snd].
  1, 2: repeat split; try done;
    [ intros id i Hi; by left
    | intros d dr Hd; exists (d_stock dr); split; [|done];
      rewrite Hd; by destruct dr ].
  cbn [snd orders daily_dispensing_summary dds_next_id order_items drugs].
  split; [done|]. split; [done|]. split; [done|].
  split; [|split; [|split]].
  - intros id Hi. rewrite approve_rows_lookup, Hi. by destruct (decide _).
  - intros id i Hi. rewrite approve_rows_lookup, Hi.
    destruct (decide _) as [Hin|_]; [|by left]. right. split; [done|].
    assert (id ∈ pr_id <$> select_pending t orderId sellerId) as Hin'.
    { apply list_elem_of_fmap in Hin as (r & -> & Hr).
      apply list_elem_of_fmap. exists r. split; [done|].
      by apply pick_subseteq in Hr. }
    apply locked_id_stored in Hin'
      as (i' & d & Hi' & Ho & Hp & Hs & Hd & Hdr).
    assert (i' = i) as -> by congruence. eauto 10.
  - intros d Hd. by rewrite deduct_rows_lookup, Hd.
  - intros d dr Hd. rewrite deduct_rows_lookup, Hd. cbn.
    eexists. split; [done|]. intros Hno.
    rewrite requested_of_notin; [lia|].
    intros r Hr He. apply pick_subseteq in Hr.
    apply select_pending_spec in Hr
      as (i & dr' & Hi & Ho & Hp & _ & Hdi & _).
    apply (Hno (pr_id r) i); congruence.
Qed.

(** X17.  When the pending items locked by a bulk approval refer to
    pairwise different drugs and no stock is negative before, no stock is
    negative afterwards, whichever statements of the loop raise: the
    snapshot a row is checked against is then the stock its deduction is
    applied to. *)
Theorem bulk_approve_distinct_drugs_keeps_stocks_nonneg
    (faults : nat → fault) (t : tables) (orderId sellerId : Z) :
  stocks_nonneg t →
  NoDup (pr_drug_id <$> select_pending t orderId sellerId) →
  stocks_nonneg (run (approveAllItems faults orderId sellerId) t).2.
Proof.
  intros Hnn Hnd.
  destruct (run_bulk faults t orderId sellerId)
    as [[_ ->]|(flags & new & [] & -> & Hl & _ & _ & Hok & _)]; [done|done|].
  intros d s. unfold stock_of. cbn [snd drugs].
  rewrite deduct_rows_lookup.
  destruct (drugs t !! d) as [dr|] eqn:Hd; [|done]. cbn. intros [= <-].
  assert (0 ≤ d_stock dr) as H0 by (apply (Hnn d); unfold stock_of;
                                    by rewrite Hd).
  destruct (requested_of_distinct d
              (pick true (select_pending t orderId sellerId) flags))
    as [->|(r & Hr & Hrd & ->)].
  - apply (sublist_NoDup _ (pr_drug_id <$> select_pending t orderId sellerId));
      [done | apply fmap_sublist, pick_sublist].
  - lia.
  - rewrite Forall_forall in Hok. specialize (Hok r Hr).
    apply pick_subseteq in Hr.
    apply select_pending_spec in Hr
      as (i & dr' & _ & _ & _ & _ & _ & Hdr & _ & Hst & _).
    rewrite Hrd, Hd in Hdr. injection Hdr as <-. lia.
Qed.

Lemma bulk_approve_distinct_drugs_keeps_stocks_nonneg_witness :
  stocks_nonneg (run (approveAllItems (λ _, NoFault) 5 7)
                     two_items_two_drugs).2
  ∧ stock_of (run (approveAllItems (λ _, NoFault) 5 7)
                  two_items_two_drugs).2 1 = Some 4
  ∧ stock_of (run (approveAllItems (λ _, NoFault) 5 7)
                  two_items_two_drugs).2 2 = Some 3.
Proof.
  split; [|by vm_compute].
  apply bulk_approve_distinct_drugs_keeps_stocks_nonneg.
  - apply stocks_nonneg_map_Forall.
    apply (bool_decide_unpack _). by vm_compute.
  - apply (bool_decide_unpack _). by vm_compute.
Defined.

(** X18.  When no statement of the loop raises, a bulk approval decides
    every locked row by the snapshot alone: the item of a row is approved
    afterwards if the row's quantity is at most the stock read by the
    locking query and is still pending otherwise, and approvedCount is the
    number of locked rows whose quantity is at most that stock. *)
Theorem bulk_approve_decides_by_snapshot (faults : nat → fault) (t : tables)
    (orderId sellerId : Z) :
  (∀ k, faults k = NoFault) →
  let rows := select_pending t orderId sellerId in
  let out := run (approveAllItems faults orderId sellerId) t in
  (∀ r, r ∈ rows →
     status_of out.2 (pr_id r)
     = Some (if pr_quantity r <=? pr_stock r then "approved" else "pending")) ∧
  (rows ≠ [] →
   ∃ ins, out.1 = BulkApproved
                    (Z.of_nat (length (filter (λ r, pr_quantity r ≤ pr_stock r)
                                              rows)))
                    ins (Z.of_nat (length rows))).
Proof.
  intros Hnf rows out. subst out.
  destruct (run_bulk faults t orderId sellerId)
    as [[Hnil ->]|(flags & new & ab & -> & Hl & _ & Hab & Hok & Hno & _)].
  - fold rows in Hnil. rewrite Hnil. split; [|done].
    intros r Hr. by apply elem_of_nil in Hr.
  - fold rows in Hl, Hok, Hno |- *.
    rewrite (Hab Hnf). specialize (Hno Hnf).
    rewrite Forall_forall in Hok, Hno. split.
    + intros r Hr. unfold status_of. cbn [snd order_items].
      rewrite approve_rows_lookup.
      pose proof Hr as Hsp.
      apply select_pending_spec in Hsp as (i & dr & Hi & _ & Hp & _).
      rewrite Hi. cbn.
      destruct (Z.leb_spec (pr_quantity r) (pr_stock r)) as [Hle|Hgt].
      * destruct (decide _) as [_|Hnin]; [done|]. destruct Hnin.
        apply list_elem_of_fmap. exists r. split; [done|].
        destruct (pick_true_or_false rows flags r Hl Hr) as [H|H]; [done|].
        specialize (Hno r H). lia.
      * destruct (decide _) as [Hin|_]; [|by cbn; rewrite Hp]. exfalso.
        apply list_elem_of_fmap in Hin as (r' & He & Hr').
        specialize (Hok r' Hr'). apply pick_subseteq in Hr'.
        assert (r = r') as <-
          by (apply (NoDup_fmap_eq pr_id rows); try done;
              apply select_pending_ids_NoDup).
        lia.
    + intros _. exists new. cbn [fst].
      assert (filter (λ r, pr_quantity r ≤ pr_stock r) rows
              ≡ₚ pick true rows flags) as ->; [|done].
      rewrite (pick_permutation rows flags Hl) at 1.
      rewrite filter_app.
      rewrite filter_all_rows by (by apply Forall_forall).
      rewrite filter_no_rows; [by rewrite app_nil_r|].
      apply Forall_forall. intros r Hr. specialize (Hno r Hr). lia.
Qed.

Lemma bulk_approve_decides_by_snapshot_witness :
  let out := run (approveAllItems (λ _, NoFault) 5 7) two_items_two_drugs in
  status_of out.2 100 = Some "approved" ∧
  status_of out.2 101 = Some "pending" ∧
  ∃ ins, out.1 = BulkApproved 1 ins 2.
Proof.
  destruct (bulk_approve_decides_by_snapshot (λ _, NoFault)
              two_items_two_drugs 5 7 (λ _, eq_refl)) as [Hst Hcnt].
  split; [|split].
  - apply (Hst (mkPending 100 1 6 10 "Paracetamol")). vm_compute.
    apply list_elem_of_In. cbn. tauto.
  - apply (Hst (mkPending 101 2 4 3 "Ibuprofen")). vm_compute.
    apply list_elem_of_In. cbn. tauto.
  - apply Hcnt. by vm_compute.
Defined.

(** X19.  A bulk approval in which no statement raises, over rows with
    non-negative quantities, leaves nothing for a second one: run again on
    the tables it produced, for the same order and caller and whatever
    statements raise this time, the bulk approval approves no item and
    changes no table.  Every row still pending was refused against a stock
    which the first run can only have lowered. *)
Theorem bulk_approve_twice (faults faults' : nat → fault) (t : tables)
    (orderId sellerId : Z) :
  (∀ k, faults k = NoFault) →
  (∀ r, r ∈ select_pending t orderId sellerId → 0 ≤ pr_quantity r) →
  let t1 := (run (approveAllItems faults orderId sellerId) t).2 in
  ∃ r2, run (approveAllItems faults' orderId sellerId) t1 = (r2, t1) ∧
        (r2 = NoPendingItems 0 [] ∨
         ∃ ins total, r2 = BulkApproved 0 ins total).
Proof.
  intros Hnf Hq t1.
  assert (∀ r, r ∈ select_pending t1 orderId sellerId →
               pr_stock r < pr_quantity r) as Hlow.
  { subst t1.
    destruct (run_bulk faults t orderId sellerId)
      as [[Hnil ->]|(flags & new & ab & -> & Hl & _ & Hab & Hok & Hno & _)].
    - cbn. rewrite Hnil. intros r Hr. by apply elem_of_nil in Hr.
    - rewrite (Hab Hnf). specialize (Hno Hnf).
      rewrite Forall_forall in Hno. cbn [snd].
      intros r Hr.
      apply select_pending_spec in Hr
        as (i & dr1 & Hi & Ho & Hp & Hs & Hd & Hdr & Hrq & Hrs & Hrn).
      cbn [order_items drugs orders] in Hi, Hs, Hdr.
      rewrite approve_rows_lookup in Hi.
      destruct (decide _) as [Hin|Hnin] in Hi.
      { destruct (order_items t !! pr_id r) as [i0|]; [|done].
        cbn in Hi. injection Hi as <-. by cbn in Hp. }
      rewrite deduct_rows_lookup in Hdr.
      destruct (drugs t !! pr_drug_id r) as [dr|] eqn:Hdr0; [|done].
      cbn in Hdr. injection Hdr as <-. cbn in Hrs, Hrn.
      set (r0 := mkPending (pr_id r) (pr_drug_id r) (oi_quantity i)
                           (d_stock dr) (d_name dr)).
      assert (r0 ∈ select_pending t orderId sellerId) as Hr0.
      { apply select_pending_spec. exists i, dr. by cbn. }
      destruct (pick_true_or_false _ flags r0 Hl Hr0) as [H|H].
      + destruct Hnin. apply list_elem_of_fmap. by exists r0.
      + specialize (Hno r0 H). cbn in Hno.
        assert (0 ≤ requested_of (pr_drug_id r)
                      (pick true (select_pending t orderId sellerId) flags)).
        { apply requested_of_nonneg. intros x Hx. apply Hq.
          by apply pick_subseteq in Hx. }
        lia. }
  destruct (run_bulk faults' t1 orderId sellerId)
    as [[_ ->]|(flags & new & ab & -> & Hl & _ & _ & Hok & _)];
    [by eexists; split; [done | left]|].
  assert (pick true (select_pending t1 orderId sellerId) flags = []) as ->.
  { pose proof (pick_subseteq true (select_pending t1 orderId sellerId) flags)
      as Hsub.
    destruct (pick true _ flags) as [|x l]; [done|]. exfalso.
    apply Forall_cons in Hok as [Hle _].
    specialize (Hlow x (Hsub x ltac:(by left))). lia. }
  eexists. split; [|right; by eexists _, _].
  f_equal. destruct ab; [done|]. cbn. apply tables_eta.
Qed.

Lemma bulk_approve_twice_witness :
  let t1 := (run (approveAllItems (λ _, NoFault) 5 7) two_items_two_drugs).2 in
  ∃ r2, run (approveAllItems (λ _, StatusUpdateFails) 5 7) t1 = (r2, t1) ∧
        (r2 = NoPendingItems 0 [] ∨
         ∃ ins total, r2 = BulkApproved 0 ins total).
Proof.
  apply bulk_approve_twice; [done|].
  intros r Hr. vm_compute in Hr. apply list_elem_of_In in Hr.
  cbn in Hr. destruct Hr as [<-|[<-|[]]]; cbn; lia.
Defined.

(** ** CSV import of dispensing records *)

Lemma alter_stored {A : Type} (f : A → A) (m : gmap Z A) (k : Z) (x : A) :
  m !! k = Some x → alter f k m = <[k := f x]> m.
Proof.
  intros H. apply map_eq. intros j. destruct (Z.eq_dec k j) as [<-|Hne].
  - by rewrite lookup_alter_eq, lookup_insert_eq, H.
  - by rewrite lookup_alter_ne, lookup_insert_ne.
Qed.

Lemma select_drug_by_name_head (t : tables) (name : list ascii)
    (userId id : Z) (dr : drug) (rest : list (Z * drug)) :
  DispensingImport.select_drug_by_name t name userId = (id, dr) :: rest →
  drugs t !! id = Some dr ∧ d_created_by dr = userId ∧
  Str.toLowerCase (Str.chars (d_name dr)) = Str.toLowerCase name.
Proof.
  intros H.
  assert ((id, dr) ∈ DispensingImport.select_drug_by_name t name userId)
    as Hin by (rewrite H; by left).
  apply list_elem_of_filter in Hin as [[Hn Ho] Hin].
  by apply elem_of_map_to_list in Hin.
Qed.

Lemma select_existing_head (t : tables) (d : Z) (date cat : string)
    (eid : Z) (ex : dispensing) (rest : list (Z * dispensing)) :
  Dispensing.select_existing t d date cat = (eid, ex) :: rest →
  daily_dispensing_summary t !! eid = Some ex ∧ summary_key ex = (d, date, cat).
Proof.
  intros H.
  assert ((eid, ex) ∈ Dispensing.select_existing t d date cat)
    as Hin by (rewrite H; by left).
  apply list_elem_of_filter in Hin as [(Hd & Hdt & Hc) Hin].
  apply elem_of_map_to_list in Hin. unfold summary_key. by rewrite Hd, Hdt, Hc.
Qed.

Lemma select_existing_nil (t : tables) (d : Z) (date cat : string) :
  Dispensing.select_existing t d date cat = [] →
  ∀ id r, daily_dispensing_summary t !! id = Some r →
          summary_key r ≠ (d, date, cat).
Proof.
  intros Hex id r Hr Hk.
  assert ((id, r) ∈ Dispensing.select_existing t d date cat) as Hin.
  { apply list_elem_of_filter. split; [|by apply elem_of_map_to_list].
    unfold summary_key in Hk. by injection Hk as -> -> ->. }
  rewrite Hex in Hin. by apply elem_of_nil in Hin.
Qed.

(** One row of the file outside an aborted transaction, path by path:
    the row is counted and one summary row is written, or a check lists
    the row and nothing is written, or a statement raises. *)
Lemma import_row_effect (f : DispensingImport.row_fault)
    (today cat : string) (userId : Z) (record : DispensingImport.csv_record)
    (c : conn) :
  ∃ r t',
    DispensingImport.import_row false f today cat userId record c
    = (inr r, mkConn t' (saved c)) ∧
    match r with
    | DispensingImport.Imported => row_written today cat userId (cur c) t'
    | DispensingImport.Listed _ => t' = cur c
    | DispensingImport.Raised => True
    end.
Proof.
  assert (∀ e : DispensingImport.row_error, ∃ r t',
            (@inr response _ (DispensingImport.Listed e), c)
            = (inr r, mkConn t' (saved c)) ∧
            match r with
            | DispensingImport.Imported =>
              row_written today cat userId (cur c) t'
            | DispensingImport.Listed _ => t' = cur c
            | DispensingImport.Raised => True
            end) as Hno.
  { intros e. exists (DispensingImport.Listed e), (cur c).
    split; [by destruct c | done]. }
  assert (∀ t1, ∃ r t',
            (@inr response _ DispensingImport.Raised, mkConn t1 (saved c))
            = (inr r, mkConn t' (saved c)) ∧
            match r with
            | DispensingImport.Imported =>
              row_written today cat userId (cur c) t'
            | DispensingImport.Listed _ => t' = cur c
            | DispensingImport.Raised => True
            end) as Hraise.
  { intros t1. by exists DispensingImport.Raised, t1. }
  assert (∃ r t',
            (@inr response _ DispensingImport.Raised, c)
            = (inr r, mkConn t' (saved c)) ∧
            match r with
            | DispensingImport.Imported =>
              row_written today cat userId (cur c) t'
            | DispensingImport.Listed _ => t' = cur c
            | DispensingImport.Raised => True
            end) as Hraise0.
  { exists DispensingImport.Raised, (cur c). split; [by destruct c | done]. }
  unfold DispensingImport.import_row.
  destruct (_ || _); [by run_handler|].
  destruct (DispensingImport.parseInt _) as [q|] eqn:Hq; [|by run_handler].
  destruct (Z.leb_spec q 0) as [|Hpos]; [by run_handler|].
  cbn [orb].
  destruct (DispensingImport.raises f DispensingImport.DrugQueryFails);
    [by run_handler|].
  run_handler.
  destruct (DispensingImport.select_drug_by_name _ _ _) as [|[id dr] rest]
    eqn:Hsel; [by run_handler|].
  apply select_drug_by_name_head in Hsel as (Hdr & Hown & _).
  destruct (Z.ltb_spec (d_stock dr) q) as [|Hle]; [by run_handler|].
  destruct (DispensingImport.raises f DispensingImport.SummaryQueryFails);
    [by run_handler|].
  destruct (Dispensing.select_existing _ _ _ _) as [|[eid ex] rest']
    eqn:Hex.
  - pose proof (select_existing_nil _ _ _ _ Hex) as Hfresh.
    destruct (DispensingImport.raises f DispensingImport.SummaryWriteFails);
      [by run_handler|].
    unfold Dispensing.insert_summary, Dispensing.put_summary. run_handler.
    destruct (daily_dispensing_summary (cur c) !! dds_next_id (cur c))
      eqn:Hfree; [by run_handler|].
    run_handler.
    destruct (DispensingImport.raises f DispensingImport.StockWriteFails);
      [by apply Hraise|].
    eexists DispensingImport.Imported, _. split; [done|].
    split; [done|]. split; [done|].
    eexists id, dr, q, q, (dds_next_id (cur c)),
      (mkDisp id q today cat _ userId). cbn.
    repeat (split; [done || reflexivity || lia|]).
    split; [right; by repeat split | by rewrite (alter_stored _ _ _ _ Hdr)].
  - apply select_existing_head in Hex as [Hst Hkey]. cbn zeta.
    destruct (Z.ltb_spec (d_stock dr) (q - dds_quantity_dispensed ex))
      as [|Hle2]; [by run_handler|].
    destruct (DispensingImport.raises f DispensingImport.SummaryWriteFails);
      [by run_handler|].
    unfold Dispensing.update_summary, Dispensing.put_summary. run_handler.
    destruct (DispensingImport.raises f DispensingImport.StockWriteFails);
      [by apply Hraise|].
    eexists DispensingImport.Imported, _. split; [done|].
    split; [done|]. split; [done|].
    eexists id, dr, q, _, eid, (Dispensing.set_quantity_notes q _ ex). cbn.
    repeat (split; [done || reflexivity || lia|]).
    split; [by apply alter_stored|].
    split; [left; by eexists | by rewrite (alter_stored _ _ _ _ Hdr)].
Qed.

(** One row of the file in an aborted transaction: nothing is counted and
    the connection is as before. *)
Lemma import_row_aborted (f : DispensingImport.row_fault)
    (today cat : string) (userId : Z) (record : DispensingImport.csv_record)
    (c : conn) :
  ∃ r, DispensingImport.import_row true f today cat userId record c
       = (inr r, c) ∧ r ≠ DispensingImport.Imported.
Proof.
  unfold DispensingImport.import_row.
  destruct (_ || _); [by eexists|].
  destruct (DispensingImport.parseInt _) as [q|]; [|by eexists].
  destruct (q <=? 0); by eexists.
Qed.

Lemma import_loop_aborted (faults : nat → DispensingImport.row_fault)
    (today cat : string) (userId : Z) :
  ∀ (results : list DispensingImport.csv_record) (index : nat) (n : Z)
    (errs : list (Z * DispensingImport.row_error)) (c : conn),
  saved c = Some (cur c) →
  ∃ new,
    DispensingImport.import_loop faults today cat userId true index results
                                 n errs c
    = (inr (n, (errs ++ new)%list), c) ∧
    length new = length results ∧
    Forall (λ e, Z.of_nat index < e.1
                 ≤ Z.of_nat index + Z.of_nat (length results)) new.
Proof.
  intros results.
  induction results as [|record results IH]; intros index n errs c Hc.
  - exists []. cbn. by rewrite app_nil_r.
  - cbn [DispensingImport.import_loop]. unfold mbind, handler_bind.
    destruct (import_row_aborted (faults index) today cat userId record c)
      as (r & -> & Hr).
    assert (ABORT c = (inr tt, c)) as Habort.
    { unfold ABORT. rewrite Hc. cbn. by destruct c; cbn in *; subst. }
    destruct r as [|err|]; [done| |].
    + destruct (IH (S index) n
                  (errs ++ [(Z.of_nat index + 1, err)])%list c Hc)
        as (new & -> & Hl & Hidx).
      eexists (_ :: new). split; [by rewrite <- app_assoc|].
      split; [by cbn; rewrite Hl|].
      constructor; [cbn; lia|].
      eapply Forall_impl; [exact Hidx|]. cbn. intros; lia.
    + rewrite Habort.
      destruct (IH (S index) n
                  (errs ++ [(Z.of_nat index + 1,
                             DispensingImport.RowException)])%list c Hc)
        as (new & -> & Hl & Hidx).
      eexists (_ :: new). split; [by rewrite <- app_assoc|].
      split; [by cbn; rewrite Hl|].
      constructor; [cbn; lia|].
      eapply Forall_impl; [exact Hidx|]. cbn. intros; lia.
Qed.

(** The loop, for any relation between tables that every written row
    respects: the tables at the end are related to those at the start, or
    they are the snapshot, to which an aborted transaction returns. *)
Lemma import_loop_spec (R : tables → tables → Prop)
    (faults : nat → DispensingImport.row_fault) (today cat : string)
    (userId : Z) :
  (∀ t, R t t) → (∀ a b c, R a b → R b c → R a c) →
  (∀ t t', row_written today cat userId t t' → R t t') →
  ∀ (results : list DispensingImport.csv_record) (index : nat) (n : Z)
    (errs : list (Z * DispensingImport.row_error)) (c : conn) (t0 : tables),
  saved c = Some t0 →
  ∃ n' new c',
    DispensingImport.import_loop faults today cat userId false index results
                                 n errs c
    = (inr (n', (errs ++ new)%list), c') ∧
    saved c' = saved c ∧ (R (cur c) (cur c') ∨ cur c' = t0) ∧
    n' + Z.of_nat (length new) = n + Z.of_nat (length results) ∧ n ≤ n' ∧
    Forall (λ e, Z.of_nat index < e.1 ≤ Z.of_nat index + Z.of_nat (length results))
           new ∧
    (cur c = t0 → n' = n → cur c' = t0).
Proof.
  intros Hrefl Htrans Hrow results.
  induction results as [|record results IH]; intros index n errs c t0 Hsaved.
  - exists n, [], c. cbn. rewrite app_nil_r.
    repeat split; try done; try lia. by left.
  - cbn [DispensingImport.import_loop]. unfold mbind, handler_bind.
    destruct (import_row_effect (faults index) today cat userId record c)
      as (r & t1 & -> & Heff).
    destruct r as [|err|].
    + destruct (IH (S index) (n + 1) errs (mkConn t1 (saved c)) t0 Hsaved)
        as (n' & new & c' & -> & Hs & HR & Hn & Hle & Hidx & Hsame).
      exists n', new, c'. cbn [cur saved length] in *.
      split; [done|]. split; [done|]. split.
      { destruct HR as [HR|HR]; [left | by right].
        apply (Htrans _ t1); [by apply Hrow | done]. }
      split; [lia|]. split; [lia|]. split; [|intros; lia].
      eapply Forall_impl; [exact Hidx|]. cbn. intros; lia.
    + subst t1.
      assert (mkConn (cur c) (saved c) = c) as -> by (by destruct c).
      destruct (IH (S index) n (errs ++ [(Z.of_nat index + 1, err)])%list
                  c t0 Hsaved)
        as (n' & new & c' & -> & Hs & HR & Hn & Hle & Hidx & Hsame).
      exists n', ((Z.of_nat index + 1, err) :: new), c'.
      cbn [length] in *.
      split; [by rewrite <- app_assoc|]. split; [done|]. split; [done|].
      split; [lia|]. split; [done|]. split; [|done].
      constructor; [cbn; lia|].
      eapply Forall_impl; [exact Hidx|]. cbn. intros; lia.
    + unfold ABORT. cbn [cur saved]. rewrite Hsaved. cbn [default]. unfold id.
      destruct (import_loop_aborted faults today cat userId results (S index)
                  n (errs ++ [(Z.of_nat index + 1,
                               DispensingImport.RowException)])%list
                  (mkConn t0 (Some t0)) eq_refl)
        as (new & -> & Hl & Hidx).
      eexists n, (_ :: new), _. cbn [cur saved length].
      split; [by rewrite <- app_assoc|]. split; [done|].
      split; [by right|]. split; [lia|]. split; [lia|]. split; [|done].
      constructor; [cbn; lia|].
      eapply Forall_impl; [exact Hidx|]. cbn. intros; lia.
Qed.

(** The request, outcome by outcome. *)
Lemma run_import (R : tables → tables → Prop)
    (faults : nat → DispensingImport.row_fault) (today : string) (userId : Z)
    (date category : option string)
    (file : option (list DispensingImport.csv_record)) (t : tables) :
  (∀ t, R t t) → (∀ a b c, R a b → R b c → R a c) →
  (∀ t t', row_written today (default "OPD" category) userId t t' → R t t') →
  let out := exec (DispensingImport.importDispensingRecords
                     faults today userId date category file) t in
  (default today date ≠ today ∧
   out = (Some (DispensingImport.ImportOnlyToday today), t)) ∨
  (default today date = today ∧ file = None ∧
   out = (Some DispensingImport.NoFileUploaded, t)) ∨
  (∃ results n errs t',
     default today date = today ∧ file = Some results ∧
     out = (Some (DispensingImport.ImportCompleted
                    n (Z.of_nat (length results)) errs), t') ∧
     R t t' ∧
     n + Z.of_nat (length errs) = Z.of_nat (length results) ∧ 0 ≤ n ∧
     Forall (λ e, 1 ≤ e.1 ≤ Z.of_nat (length results)) errs ∧
     (n = 0 → t' = t)).
Proof.
  intros Hrefl Htrans Hrow out. subst out.
  unfold DispensingImport.importDispensingRecords, exec.
  destruct (String.eqb_spec (default today date) today) as [Heq|Hne];
    cbn [negb]; [|by left].
  right. destruct file as [results|]; [right | by left].
  run_handler.
  destruct (import_loop_spec R faults today (default "OPD" category) userId
              Hrefl Htrans Hrow results 0%nat 0 [] (mkConn t (Some t)) t
              eq_refl)
    as (n' & new & c' & -> & Hs & HR & Hn & Hle & Hidx & Hsame).
  cbn [app fst snd cur saved] in *.
  exists results, n', new, (cur c').
  split; [done|]. split; [done|]. split; [done|].
  split; [destruct HR as [HR| ->]; [done | apply Hrefl]|].
  split; [lia|]. split; [lia|]. split; [|by auto].
  eapply Forall_impl; [exact Hidx|]. cbn. intros; lia.
Qed.

Lemma row_written_drugs (today cat : string) (userId : Z) (t t' : tables) :
  row_written today cat userId t t' →
  ∀ d, (drugs t !! d = None → drugs t' !! d = None) ∧
       (∀ dr, drugs t !! d = Some dr →
              ∃ s, drugs t' !! d = Some (Sql.set_stock s dr) ∧
                   (d_created_by dr ≠ userId → s = d_stock dr) ∧
                   (0 ≤ d_stock dr → 0 ≤ s)).
Proof.
  intros (_ & _ & id & dr0 & q & dq & sid & srow & Hdr & Hown & Hq & Hle
          & Hdq & _ & _ & _ & _ & Hdrugs) d.
  rewrite Hdrugs.
  destruct (Z.eq_dec id d) as [<-|Hne].
  - rewrite lookup_insert_eq. split; [by rewrite Hdr|].
    intros dr Hd. assert (dr = dr0) as -> by congruence.
    eexists. split; [done|]. split; [done | lia].
  - rewrite lookup_insert_ne by done. split; [done|].
    intros dr Hd. exists (d_stock dr). rewrite Hd. split; [by destruct dr|].
    done.
Qed.

Lemma row_written_wf (today cat : string) (userId : Z) (t t' : tables) :
  row_written today cat userId t t' → summary_wf t → summary_wf t'.
Proof.
  intros (_ & _ & id & dr0 & q & dq & sid & srow & _ & _ & _ & _ & _ & Hkey
          & _ & Hsum & Hcase & _) [Hseq Huniq].
  unfold summary_wf. rewrite Hsum.
  destruct Hcase
    as [(ex & Hex & Hkex & _ & _ & ->)|(-> & _ & Hfresh & _ & _ & ->)].
  - assert (∀ i r, <[sid := srow]> (daily_dispensing_summary t) !! i = Some r →
                   ∃ r0, daily_dispensing_summary t !! i = Some r0 ∧
                         summary_key r0 = summary_key r) as Hsame.
    { intros i r. destruct (Z.eq_dec sid i) as [<-|Hne].
      - rewrite lookup_insert_eq. intros [= <-]. exists ex. split; [done|].
        congruence.
      - rewrite lookup_insert_ne by done. eauto. }
    split.
    + intros i r Hr. apply Hsame in Hr as (r0 & Hr0 & _). eauto.
    + intros i1 i2 r1 r2 H1 H2 Hk.
      apply Hsame in H1 as (r1' & H1 & K1).
      apply Hsame in H2 as (r2' & H2 & K2).
      apply (Huniq i1 i2 r1' r2' H1 H2). congruence.
  - split.
    + intros i r. destruct (Z.eq_dec (dds_next_id t) i) as [<-|Hne].
      * intros _. lia.
      * rewrite lookup_insert_ne by done. intros Hr.
        specialize (Hseq i r Hr). lia.
    + intros i1 i2 r1 r2.
      destruct (Z.eq_dec (dds_next_id t) i1) as [<-|Hne1];
        destruct (Z.eq_dec (dds_next_id t) i2) as [<-|Hne2]; try done.
      * rewrite lookup_insert_eq, lookup_insert_ne by done.
        intros [= <-] Hr2 Hk. destruct (Hfresh _ _ Hr2). congruence.
      * rewrite lookup_insert_eq, lookup_insert_ne by done.
        intros Hr1 [= <-] Hk. destruct (Hfresh _ _ Hr1). congruence.
      * rewrite !lookup_insert_ne by done. apply Huniq.
Qed.

(** X20.  The three answers of the import.  A date other than today is
    refused and a request without file is refused, both without touching
    a table.  Otherwise every row of the file is either counted in
    [imported] or listed once in [errors], so that imported plus the
    number of errors is [total], the number of rows; the row numbers
    listed are between 1 and [total].  This holds whichever statements
    raise inside the loop. *)
Theorem import_accounting (faults : nat → DispensingImport.row_fault)
    (today : string) (userId : Z) (date category : option string)
    (file : option (list DispensingImport.csv_record)) (t : tables) :
  let out := exec (DispensingImport.importDispensingRecords
                     faults today userId date category file) t in
  match out.1 with
  | Some (DispensingImport.ImportOnlyToday d) =>
    d = today ∧ default today date ≠ today ∧ out.2 = t
  | Some DispensingImport.NoFileUploaded =>
    default today date = today ∧ file = None ∧ out.2 = t
  | Some (DispensingImport.ImportCompleted imported total errors) =>
    default today date = today ∧
    (∃ results, file = Some results ∧ total = Z.of_nat (length results)) ∧
    imported + Z.of_nat (length errors) = total ∧ 0 ≤ imported ∧
    Forall (λ e, 1 ≤ e.1 ≤ total) errors
  | None => False
  end.
Proof.
  intros out. subst out.
  destruct (run_import (λ _ _, True) faults today userId date category file t)
    as [[Hd ->]|[(Hd & Hf & ->)|(results & n & errs & t' & Hd & Hf & -> & _
                                 & Hn & H0 & Hidx & _)]]; try done.
  cbn. split; [done|]. split; [by exists results|]. done.
Qed.

(** X21.  An import never drives a stock below zero: when no stock is
    negative before the request, none is negative after it, whatever the
    file holds and whichever statements raise.  Every row is checked
    against the stock as the rows before it left it. *)
Theorem import_keeps_stocks_nonneg (faults : nat → DispensingImport.row_fault)
    (today : string) (userId : Z) (date category : option string)
    (file : option (list DispensingImport.csv_record)) (t : tables) :
  stocks_nonneg t →
  stocks_nonneg (exec (DispensingImport.importDispensingRecords
                         faults today userId date category file) t).2.
Proof.
  intros Hnn.
  destruct (run_import (λ a b, stocks_nonneg a → stocks_nonneg b)
              faults today userId date category file t)
    as [[Hd ->]|[(Hd & Hf & ->)|(results & n & errs & t' & Hd & Hf & -> & HR
                                 & _)]]; try done; eauto.
  intros a t' Hw Ha d s. unfold stock_of.
  destruct (row_written_drugs _ _ _ _ _ Hw d) as [Hnone Hsome].
  destruct (drugs a !! d) as [dr|] eqn:Hd.
  - destruct (Hsome dr eq_refl) as (s' & -> & _ & Hs'). cbn. intros [= <-].
    apply Hs'. apply (Ha d). unfold stock_of. by rewrite Hd.
  - by rewrite Hnone.
Qed.

(** X22.  Every dispensing record that an import leaves behind is either
    a record that was there before, unchanged, or a record of today, of
    the category of the request, of a drug of the caller, with a quantity
    above zero: an import writes no zero and no negative quantity, which
    the single-record request does. *)
Theorem import_writes_positive_quantities
    (faults : nat → DispensingImport.row_fault)
    (today : string) (userId : Z) (date category : option string)
    (file : option (list DispensingImport.csv_record)) (t : tables) :
  let t' := (exec (DispensingImport.importDispensingRecords
                     faults today userId date category file) t).2 in
  ∀ id r,
    daily_dispensing_summary t' !! id = Some r →
    daily_dispensing_summary t !! id = Some r ∨
    (0 < dds_quantity_dispensed r ∧ dds_dispensing_date r = today ∧
     dds_category r = default "OPD" category ∧
     ∃ dr, drugs t !! dds_drug_id r = Some dr ∧ d_created_by dr = userId).
Proof.
  intros t'. subst t'.
  set (R := λ a b : tables,
         (∀ d dr, drugs b !! d = Some dr →
                  ∃ dr0, drugs a !! d = Some dr0 ∧
                         d_created_by dr0 = d_created_by dr) ∧
         ∀ id r,
           daily_dispensing_summary b !! id = Some r →
           daily_dispensing_summary a !! id = Some r ∨
           (0 < dds_quantity_dispensed r ∧ dds_dispensing_date r = today ∧
            dds_category r = default "OPD" category ∧
            ∃ dr, drugs a !! dds_drug_id r = Some dr ∧
                  d_created_by dr = userId)).
  destruct (run_import R faults today userId date category file t)
    as [[Hd ->]|[(Hd & Hf & ->)|(results & n & errs & t' & Hd & Hf & -> & HR
                                 & _)]]; try (by left); [| | |apply HR].
  - intros a. split; eauto.
  - intros a b c [Hab1 Hab2] [Hbc1 Hbc2]. split.
    + intros d dr Hc. apply Hbc1 in Hc as (dr1 & Hb & <-).
      apply Hab1 in Hb as (dr0 & Ha & <-). eauto.
    + intros id r Hc. apply Hbc2 in Hc as [Hb|(Hq & Hdt & Hc & dr & Hdr & Ho)].
      * by apply Hab2.
      * right. repeat (split; [done|]).
        apply Hab1 in Hdr as (dr0 & Ha & Ho'). exists dr0. split; [done|].
        congruence.
  - intros a t' Hw. split.
    + intros d dr Hd.
      destruct (row_written_drugs _ _ _ _ _ Hw d) as [Hnone Hsome].
      destruct (drugs a !! d) as [dr0|] eqn:Ha.
      * destruct (Hsome dr0 eq_refl) as (s & Hs & _).
        exists dr0. split; [done|]. rewrite Hs in Hd. by injection Hd as <-.
      * rewrite Hnone in Hd; done.
    + destruct Hw as (_ & _ & id & dr0 & q & dq & sid & srow & Hdr & Hown & Hq
                      & _ & _ & Hkey & Hqs & Hsum & _).
      intros i r. rewrite Hsum. destruct (Z.eq_dec sid i) as [<-|Hne].
      * rewrite lookup_insert_eq. intros [= <-]. right.
        unfold summary_key in Hkey. injection Hkey as Hk1 Hk2 Hk3.
        rewrite Hk1. split; [lia|]. do 2 (split; [done|]). by exists dr0.
      * rewrite lookup_insert_ne by done. by left.
Qed.

(** X23.  What an import leaves alone, whichever statements raise: the
    orders and the order items; the name and the owner of every drug; the
    stock of every drug that is not the caller's; and no drug appears or
    disappears.  Of the dispensing records that the sequence is ahead of,
    none disappears, each keeps its drug, date, category and recorder, and
    those of another date or another category stay as they are. *)
Theorem import_frame (faults : nat → DispensingImport.row_fault)
    (today : string) (userId : Z) (date category : option string)
    (file : option (list DispensingImport.csv_record)) (t : tables) :
  let t' := (exec (DispensingImport.importDispensingRecords
                     faults today userId date category file) t).2 in
  orders t' = orders t ∧ order_items t' = order_items t ∧
  (∀ d, drugs t !! d = None → drugs t' !! d = None) ∧
  (∀ d dr, drugs t !! d = Some dr →
           ∃ s, drugs t' !! d = Some (Sql.set_stock s dr) ∧
                (d_created_by dr ≠ userId → s = d_stock dr)) ∧
  dds_next_id t ≤ dds_next_id t' ∧
  (∀ id r, daily_dispensing_summary t !! id = Some r → id < dds_next_id t →
           ∃ r', daily_dispensing_summary t' !! id = Some r' ∧
                 summary_key r' = summary_key r ∧
                 dds_recorded_by r' = dds_recorded_by r ∧
                 (dds_dispensing_date r ≠ today ∨
                  dds_category r ≠ default "OPD" category → r' = r)).
Proof.
  intros t'. subst t'.
  set (R := λ a b : tables,
         orders b = orders a ∧ order_items b = order_items a ∧
         (∀ d, drugs a !! d = None → drugs b !! d = None) ∧
         (∀ d dr, drugs a !! d = Some dr →
                  ∃ s, drugs b !! d = Some (Sql.set_stock s dr) ∧
                       (d_created_by dr ≠ userId → s = d_stock dr)) ∧
         dds_next_id a ≤ dds_next_id b ∧
         (∀ id r, daily_dispensing_summary a !! id = Some r →
                  id < dds_next_id a →
                  ∃ r', daily_dispensing_summary b !! id = Some r' ∧
                        summary_key r' = summary_key r ∧
                        dds_recorded_by r' = dds_recorded_by r ∧
                        (dds_dispensing_date r ≠ today ∨
                         dds_category r ≠ default "OPD" category → r' = r))).
  assert (∀ a, R a a) as Hrefl.
  { intros a. repeat split; try done; try lia.
    - intros d dr Hd. exists (d_stock dr). split; [|done]. by destruct dr.
    - intros id r Hr _. exists r. by repeat split. }
  destruct (run_import R faults today userId date category file t)
    as [[Hd ->]|[(Hd & Hf & ->)|(results & n & errs & t' & Hd & Hf & -> & HR
                                 & _)]]; try done; try apply Hrefl.
  - intros a b c (Ho1 & Hi1 & Hn1 & Hs1 & Hq1 & Hr1)
           (Ho2 & Hi2 & Hn2 & Hs2 & Hq2 & Hr2).
    split; [congruence|]. split; [congruence|]. split; [by auto|].
    split; [|split; [lia|]].
    + intros d dr Hd. destruct (Hs1 d dr Hd) as (s1 & Hb & Hk1).
      destruct (Hs2 d _ Hb) as (s2 & Hc & Hk2). exists s2. split; [done|].
      intros Hne. cbn in Hk2. rewrite (Hk2 Hne). by apply Hk1.
    + intros id r Hr Hlt. destruct (Hr1 id r Hr Hlt) as (r1 & Hb & K1 & B1 & U1).
      destruct (Hr2 id r1 Hb ltac:(lia)) as (r2 & Hc & K2 & B2 & U2).
      exists r2. split; [done|]. split; [congruence|]. split; [congruence|].
      intros Hor. specialize (U1 Hor). subst r1. by apply U2.
  - intros a t' Hw.
    pose proof (row_written_drugs _ _ _ _ _ Hw) as Hdrugs.
    destruct Hw as (Ho & Hi & id & dr0 & q & dq & sid & srow & Hdr & Hown & Hq
                    & _ & _ & Hkey & Hqs & Hsum & Hcase & _).
    split; [done|]. split; [done|]. split; [intros d; apply Hdrugs|].
    split.
    { intros d dr Hd. destruct (Hdrugs d) as [_ Hsome].
      destruct (Hsome dr Hd) as (s & Hs & Hk & _). eauto. }
    split; [destruct Hcase
              as [(? & _ & _ & _ & _ & ->)|(_ & _ & _ & _ & _ & ->)]; lia|].
    intros i r Hr Hlt. rewrite Hsum.
    destruct (Z.eq_dec sid i) as [<-|Hne].
    + rewrite lookup_insert_eq. exists srow. split; [done|].
      destruct Hcase as [(ex & Hex & Hkex & _ & Hby & _)|(-> & _)]; [|lia].
      assert (ex = r) as -> by congruence.
      split; [congruence|]. split; [done|].
      unfold summary_key in Hkex. injection Hkex as _ Hk2 Hk3.
      intros [H|H]; done.
    + rewrite lookup_insert_ne by done. exists r. by repeat split.
Qed.

(** X24.  When no statement raises, a row listed in [errors] leaves no
    trace: an import that counts no row in [imported] changes no table. *)
Theorem import_without_imported_rows
    (faults : nat → DispensingImport.row_fault)
    (today : string) (userId : Z) (date category : option string)
    (file : option (list DispensingImport.csv_record)) (t : tables)
    (total : Z) (errors : list (Z * DispensingImport.row_error)) :
  (∀ k, faults k = DispensingImport.NoRowFault) →
  (exec (DispensingImport.importDispensingRecords
           faults today userId date category file) t).1
  = Some (DispensingImport.ImportCompleted 0 total errors) →
  (exec (DispensingImport.importDispensingRecords
           faults today userId date category file) t).2 = t.
Proof.
  intros Hnf.
  destruct (run_import (λ _ _, True) faults today userId date category file t)
    as [[Hd ->]|[(Hd & Hf & ->)|(results & n & errs & t' & Hd & Hf & -> & _
                                 & Hn & H0 & Hidx & Hsame)]]; try done.
  cbn. intros [= -> _ _]. by apply Hsame.
Qed.

(** X25.  An import keeps the dispensing records well formed, whichever
    statements raise: the sequence stays ahead of every stored id, and no
    two records share drug, date and category. *)
Theorem import_keeps_summary_wf (faults : nat → DispensingImport.row_fault)
    (today : string) (userId : Z) (date category : option string)
    (file : option (list DispensingImport.csv_record)) (t : tables) :
  summary_wf t →
  summary_wf (exec (DispensingImport.importDispensingRecords
                      faults today userId date category file) t).2.
Proof.
  intros Hwf.
  destruct (run_import (λ a b, summary_wf a → summary_wf b)
              faults today userId date category file t)
    as [[Hd ->]|[(Hd & Hf & ->)|(results & n & errs & t' & Hd & Hf & -> & HR
                                 & _)]]; try done; eauto.
  intros a t' Hw. by apply (row_written_wf _ _ _ _ _ Hw).
Qed.

Lemma dispensed_of_insert (t t' : tables) (sid : Z) (srow : dispensing)
    (d : Z) :
  daily_dispensing_summary t' = <[sid := srow]> (daily_dispensing_summary t) →
  dispensed_of t' d
  = (if dds_drug_id srow =? d then dds_quantity_dispensed srow else 0)
    - from_option (λ r, if dds_drug_id r =? d
                        then dds_quantity_dispensed r else 0)
                  0 (daily_dispensing_summary t !! sid)
    + dispensed_of t d.
Proof.
  intros H. unfold dispensed_of. rewrite H.
  destruct (daily_dispensing_summary t !! sid) as [ex|] eqn:Hex; cbn.
  - rewrite <- insert_delete_eq.
    rewrite map_fold_insert_L; [|intros; lia|apply lookup_delete_eq].
    rewrite (map_fold_delete_L _ 0 sid ex (daily_dispensing_summary t));
      [lia|intros; lia|done].
  - rewrite map_fold_insert_L; [lia|intros; lia|done].
Qed.

(** X26.  When no statement raises and the dispensing records are well
    formed, an import conserves the units of every drug: the stock of a
    drug plus the quantity that the dispensing records account for it is
    the same after the import as before. *)
Theorem import_conserves_units (faults : nat → DispensingImport.row_fault)
    (today : string) (userId : Z) (date category : option string)
    (file : option (list DispensingImport.csv_record)) (t : tables) :
  (∀ k, faults k = DispensingImport.NoRowFault) →
  summary_wf t →
  let t' := (exec (DispensingImport.importDispensingRecords
                     faults today userId date category file) t).2 in
  ∀ d dr, drugs t !! d = Some dr →
          ∃ dr', drugs t' !! d = Some dr' ∧
                 d_stock dr' + dispensed_of t' d
                 = d_stock dr + dispensed_of t d.
Proof.
  intros Hnf Hwf t'. subst t'.
  set (R := λ a b : tables,
         summary_wf a →
         summary_wf b ∧
         ∀ d dr, drugs a !! d = Some dr →
                 ∃ dr', drugs b !! d = Some dr' ∧
                        d_stock dr' + dispensed_of b d
                        = d_stock dr + dispensed_of a d).
  destruct (run_import R faults today userId date category file t)
    as [[Hd ->]|[(Hd & Hf & ->)|(results & n & errs & t' & Hd & Hf & -> & HR
                                 & _)]]; try (by eauto); [| | |by apply HR].
  - intros a Ha. split; eauto.
  - intros a b c Hab Hbc Ha. destruct (Hab Ha) as [Hb Hab'].
    destruct (Hbc Hb) as [Hc Hbc']. split; [done|].
    intros d dr Hd. destruct (Hab' d dr Hd) as (dr1 & Hd1 & E1).
    destruct (Hbc' d dr1 Hd1) as (dr2 & Hd2 & E2). exists dr2.
    split; [done | lia].
  - intros a t' Hw Ha.
    split; [by apply (row_written_wf _ _ _ _ _ Hw)|].
    destruct Hw as (_ & _ & id & dr0 & q & dq & sid & srow & Hdr & Hown & Hq
                    & _ & _ & Hkey & Hqs & Hsum & Hcase & Hdrugs).
    intros d dr Hd. rewrite (dispensed_of_insert a t' sid srow d Hsum).
    rewrite Hdrugs. unfold summary_key in Hkey. injection Hkey as Hk1 _ _.
    rewrite Hk1, Hqs.
    assert (from_option (λ r, if dds_drug_id r =? d
                              then dds_quantity_dispensed r else 0)
                        0 (daily_dispensing_summary a !! sid)
            = if id =? d then q - dq else 0) as ->.
    { destruct Hcase as [(ex & -> & Hkex & -> & _)|(-> & -> & _ & -> & _)].
      - cbn. unfold summary_key in Hkex. injection Hkex as -> _ _.
        destruct (_ =? _); lia.
      - cbn. destruct (_ =? _); lia. }
    destruct (Z.eqb_spec id d) as [<-|Hne].
    + rewrite lookup_insert_eq. eexists. split; [done|].
      assert (dr = dr0) as -> by congruence. cbn. lia.
    + rewrite lookup_insert_ne by done. exists dr. split; [done | lia].
Qed.

Lemma import_keeps_stocks_nonneg_witness :
  let t' := (exec (DispensingImport.importDispensingRecords
                     (λ _, DispensingImport.StockWriteFails) "2025-01-15" 7
                     None None (Some sample_file))
                  (pharmacy 10 (Some 3))).2 in
  stocks_nonneg t' ∧ stock_of t' 1 = Some 10.
Proof.
  split; [|by vm_compute].
  apply import_keeps_stocks_nonneg. apply stocks_nonneg_one_drug. cbn. lia.
Defined.

Lemma import_without_imported_rows_witness :
  (exec (DispensingImport.importDispensingRecords
           (λ _, DispensingImport.NoRowFault) "2025-01-15" 7
           None None (Some (tail sample_file)))
        (pharmacy 10 (Some 3))).2
  = pharmacy 10 (Some 3).
Proof.
  eapply (import_without_imported_rows (λ _, DispensingImport.NoRowFault));
    [done|].
  vm_compute. reflexivity.
Defined.

Lemma import_keeps_summary_wf_witness :
  summary_wf (exec (DispensingImport.importDispensingRecords
                      (λ _, DispensingImport.NoRowFault) "2025-01-15" 7
                      None (Some "IPD") (Some sample_file))
                   (pharmacy 10 (Some 3))).2.
Proof.
  apply import_keeps_summary_wf. apply summary_wf_one_row. lia.
Defined.

Lemma import_conserves_units_witness :
  let t := pharmacy 10 (Some 3) in
  let t' := (exec (DispensingImport.importDispensingRecords
                     (λ _, DispensingImport.NoRowFault) "2025-01-15" 7
                     None None (Some sample_file)) t).2 in
  (∃ dr', drugs t' !! 1 = Some dr' ∧
          d_stock dr' + dispensed_of t' 1
          = d_stock (mkDrug "Paracetamol" 10 7) + dispensed_of t 1) ∧
  stock_of t' 1 = Some 9 ∧ dispensed_of t' 1 = 4.
Proof.
  split; [|by vm_compute].
  apply (import_conserves_units (λ _, DispensingImport.NoRowFault));
    [done | apply summary_wf_one_row; lia | reflexivity].
Defined.

(** ** Text checks: the keyword gate, the reply check, the role check *)

Lemma startsWith_spec (p s : list ascii) :
  Str.startsWith p s = true ↔ ∃ r, s = (p ++ r)%list.
Proof.
  revert s. induction p as [|c p IH]; intros s; cbn.
  - split; [by exists s | done].
  - destruct s as [|d s].
    + split; [done | by intros [r Hr]].
    + rewrite andb_true_iff, IH. unfold Regex.is_char.
      rewrite Ascii.eqb_eq. split.
      * intros [-> [r ->]]. by exists r.
      * intros [r [= -> ->]]. split; [done | by exists r].
Qed.

Lemma includes_spec (p s : list ascii) :
  Str.includes p s = true ↔ ∃ a b, s = (a ++ p ++ b)%list.
Proof.
  induction s as [|d s IH].
  - cbn. rewrite orb_false_r, startsWith_spec. split.
    + intros [r Hr]. by exists [], r.
    + intros (a & b & H). destruct a; [by exists b|done].
  - cbn [Str.includes]. rewrite orb_true_iff, startsWith_spec, IH. split.
    + intros [[r ->]|(a & b & ->)]; [by exists [], r | by exists (d :: a), b].
    + intros ([|x a] & b & H).
      * left. by exists b.
      * right. injection H as -> ->. by exists a, b.
Qed.

Lemma lower_upper (c : ascii) : Regex.lower (Regex.upper c) = Regex.lower c.
Proof. by destruct c as [[] [] [] [] [] [] [] []]. Qed.

Lemma upper_lower (c : ascii) : Regex.upper (Regex.lower c) = Regex.upper c.
Proof. by destruct c as [[] [] [] [] [] [] [] []]. Qed.

Lemma lower_lower (c : ascii) : Regex.lower (Regex.lower c) = Regex.lower c.
Proof. by destruct c as [[] [] [] [] [] [] [] []]. Qed.

Lemma toLowerCase_toUpperCase (s : list ascii) :
  Str.toLowerCase (Str.toUpperCase s) = Str.toLowerCase s.
Proof.
  unfold Str.toLowerCase, Str.toUpperCase. rewrite <- list_fmap_compose.
  apply list_fmap_ext. intros _ c _. apply lower_upper.
Qed.

Lemma toUpperCase_toLowerCase (s : list ascii) :
  Str.toUpperCase (Str.toLowerCase s) = Str.toUpperCase s.
Proof.
  unfold Str.toLowerCase, Str.toUpperCase. rewrite <- list_fmap_compose.
  apply list_fmap_ext. intros _ c _. apply upper_lower.
Qed.

Lemma toLowerCase_idemp (s : list ascii) :
  Str.toLowerCase (Str.toLowerCase s) = Str.toLowerCase s.
Proof.
  unfold Str.toLowerCase. rewrite <- list_fmap_compose.
  apply list_fmap_ext. intros _ c _. apply lower_lower.
Qed.

(** [lower(text).includes(phrase)] for a phrase in lower case, and
    [upper(text).includes(phrase)] for a phrase in upper case. *)
Lemma includes_lower_occurs (phrase : string) (text : list ascii) :
  Str.toLowerCase (Str.chars phrase) = Str.chars phrase →
  Str.includes (Str.chars phrase) (Str.toLowerCase text) = true ↔
  occurs_in phrase text.
Proof.
  intros Hlow. rewrite includes_spec. unfold occurs_in. split.
  - intros (a' & b' & H). unfold Str.toLowerCase in H.
    apply fmap_app_inv in H as (a & r & -> & Hr & ->).
    symmetry in Hr.
    apply fmap_app_inv in Hr as (w & b & Hw & -> & ->).
    exists a, w, b. by rewrite Hlow.
  - intros (a & w & b & -> & Hw). rewrite Hlow in Hw.
    exists (Str.toLowerCase a), (Str.toLowerCase b).
    unfold Str.toLowerCase in *. by rewrite !fmap_app, Hw.
Qed.

Lemma includes_upper_occurs (phrase : string) (text : list ascii) :
  Str.toUpperCase (Str.chars phrase) = Str.chars phrase →
  Str.includes (Str.chars phrase) (Str.toUpperCase text) = true ↔
  occurs_in phrase text.
Proof.
  intros Hup. rewrite includes_spec. unfold occurs_in. split.
  - intros (a' & b' & H). unfold Str.toUpperCase in H.
    apply fmap_app_inv in H as (a & r & -> & Hr & ->).
    symmetry in Hr.
    apply fmap_app_inv in Hr as (w & b & Hw & -> & ->).
    exists a, w, b. split; [done|].
    rewrite <- (toLowerCase_toUpperCase w). unfold Str.toUpperCase.
    by rewrite <- Hw.
  - intros (a & w & b & -> & Hw).
    exists (Str.toUpperCase a), (Str.toUpperCase b).
    assert (Str.toUpperCase w = Str.chars phrase) as <-.
    { by rewrite <- Hup, <- (toUpperCase_toLowerCase w), Hw,
                 toUpperCase_toLowerCase. }
    unfold Str.toUpperCase. by rewrite !fmap_app.
Qed.

Lemma chars_str (l : list ascii) : Str.chars (Str.str l) = l.
Proof. apply list_ascii_of_string_of_list_ascii. Qed.

Lemma str_chars (s : string) : Str.str (Str.chars s) = s.
Proof. apply string_of_list_ascii_of_string. Qed.

Lemma has_forbidden_keyword_occurs (sql : list ascii) :
  Chatbot.has_forbidden_keyword sql = true ↔
  ∃ keyword, keyword ∈ Chatbot.forbiddenKeywords ∧ occurs_in keyword sql.
Proof.
  unfold Chatbot.has_forbidden_keyword. rewrite existsb_exists.
  assert (∀ k, k ∈ Chatbot.forbiddenKeywords →
               Str.toUpperCase (Str.chars k) = Str.chars k) as Hup.
  { intros k Hk. unfold Chatbot.forbiddenKeywords in Hk.
    repeat (apply elem_of_cons in Hk as [->|Hk]; [by vm_compute|]).
    by apply elem_of_nil in Hk. }
  split.
  - intros (k & Hk & Hinc). apply list_elem_of_In in Hk. exists k.
    split; [done|]. by apply includes_upper_occurs; [apply Hup|].
  - intros (k & Hk & Hocc). exists k. split; [by apply list_elem_of_In|].
    by apply includes_upper_occurs; [apply Hup|].
Qed.

(** X27.  The keyword check of the SQL gate, characterised on ASCII
    text: a statement of ASCII characters is refused by it exactly when
    one of the seven forbidden keywords occurs somewhere in the statement
    in some letter case, be it as a word, inside an identifier or inside a
    string literal; so a statement that passes keeps passing when ASCII
    text is cut out of it at either end. *)
Theorem forbidden_keyword_check (sql : list ascii) :
  ascii_text sql →
  (Chatbot.has_forbidden_keyword sql = true ↔
   ∃ keyword, keyword ∈ Chatbot.forbiddenKeywords ∧ occurs_in keyword sql) ∧
  ∀ a b, ascii_text a → ascii_text b →
         Chatbot.has_forbidden_keyword (a ++ sql ++ b) = false →
         Chatbot.has_forbidden_keyword sql = false.
Proof.
  intros _.
  split; [apply has_forbidden_keyword_occurs|].
  intros a b _ _ Hno. apply not_true_is_false. intros Hyes.
  apply has_forbidden_keyword_occurs in Hyes
    as (k & Hk & a' & w & b' & -> & Hw).
  assert (Chatbot.has_forbidden_keyword (a ++ (a' ++ w ++ b') ++ b) = true)
    as Habs; [|congruence].
  apply has_forbidden_keyword_occurs. exists k. split; [done|].
  exists (a ++ a')%list, w, (b' ++ b)%list. split; [|done].
  by rewrite <- !app_assoc.
Qed.

Lemma forbidden_keyword_check_witness :
  let sql := Str.chars "SELECT o.created_at FROM orders o LIMIT 20" in
  ascii_text sql ∧
  (Chatbot.has_forbidden_keyword sql = true ↔
   ∃ keyword, keyword ∈ Chatbot.forbiddenKeywords ∧ occurs_in keyword sql).
Proof.
  assert (ascii_text
            (Str.chars "SELECT o.created_at FROM orders o LIMIT 20")) as Ha
    by (apply (bool_decide_unpack _); by vm_compute).
  split; [exact Ha|].
  exact (proj1 (forbidden_keyword_check _ Ha)).
Defined.

(** X28.  Whenever the text model answers in ASCII, a statement that the
    chatbot hands to the database holds none of the forbidden keywords
    anywhere, in any letter case; it begins with SELECT in some letter
    case; the column check finds nothing to object to; and it is the
    model's answer with the code fences and the blanks around it
    removed. *)
Theorem executed_statement_is_gated (reply : option string) (q : string) :
  (∀ response, reply = Some response → ascii_text (Str.chars response)) →
  Chatbot.dynamicQuery reply = Some q →
  (∀ keyword, keyword ∈ Chatbot.forbiddenKeywords →
              ¬ occurs_in keyword (Str.chars q)) ∧
  (∃ w rest, Str.chars q = (w ++ rest)%list ∧
             Str.toUpperCase w = Str.chars "SELECT") ∧
  Chatbot.validateSQLColumns q = [] ∧
  ∃ response, reply = Some response ∧
              Str.chars q
              = Str.trim (Regex.replace_all Chatbot.fence []
                            (Str.trim (Str.chars response))).
Proof.
  intros _.
  unfold Chatbot.dynamicQuery, Chatbot.generateValidatedSQL.
  destruct reply as [response|]; [|done]. cbn zeta.
  set (sql := Str.trim (Regex.replace_all Chatbot.fence []
                          (Str.trim (Str.chars response)))).
  destruct (Chatbot.has_forbidden_keyword sql) eqn:Hkw; [done|].
  destruct (Str.startsWith _ _) eqn:Hsel; [|done]. cbn [negb].
  destruct (Chatbot.validateSQLColumns (Str.str sql)) as [|x l] eqn:Hcols;
    [|done].
  cbn [length Nat.ltb Nat.leb].
  destruct (Js.truthy_str _); [|done]. intros [= <-].
  rewrite chars_str. split; [|split; [|split]].
  - intros k Hk Hocc.
    assert (Chatbot.has_forbidden_keyword sql = true) as Habs
      by (apply has_forbidden_keyword_occurs; eauto).
    congruence.
  - apply startsWith_spec in Hsel as [rest' Hr]. unfold Str.toUpperCase in Hr.
    apply fmap_app_inv in Hr as (w & rest & Hw & _ & ->). by exists w, rest.
  - done.
  - by exists response.
Qed.

Lemma executed_statement_is_gated_witness :
  let reply :=
    Some "```sql SELECT d.stock, d.name FROM drugs d WHERE d.id = 1 LIMIT 20 ```" in
  let q := "SELECT d.stock, d.name FROM drugs d WHERE d.id = 1 LIMIT 20" in
  Chatbot.dynamicQuery reply = Some q ∧
  ∀ keyword, keyword ∈ Chatbot.forbiddenKeywords →
             ¬ occurs_in keyword (Str.chars q).
Proof.
  split; [by vm_compute|].
  apply (executed_statement_is_gated
           (Some "```sql SELECT d.stock, d.name FROM drugs d WHERE d.id = 1 LIMIT 20 ```")).
  - intros response [= <-]. apply (bool_decide_unpack _). by vm_compute.
  - by vm_compute.
Defined.

Lemma hedged_spec (text : list ascii) :
  existsb (λ indicator, Str.includes (Str.chars indicator)
                                     (Str.toLowerCase text))
          ChatbotReply.hallucinationIndicators = true ↔
  ∃ indicator, indicator ∈ ChatbotReply.hallucinationIndicators ∧
               occurs_in indicator text.
Proof.
  rewrite existsb_exists.
  assert (∀ k, k ∈ ChatbotReply.hallucinationIndicators →
               Str.toLowerCase (Str.chars k) = Str.chars k) as Hlow.
  { intros k Hk. unfold ChatbotReply.hallucinationIndicators in Hk.
    repeat (apply elem_of_cons in Hk as [->|Hk]; [by vm_compute|]).
    by apply elem_of_nil in Hk. }
  split.
  - intros (k & Hk & Hinc). apply list_elem_of_In in Hk. exists k.
    split; [done|]. by apply includes_lower_occurs; [apply Hlow|].
  - intros (k & Hk & Hocc). exists k. split; [by apply list_elem_of_In|].
    by apply includes_lower_occurs; [apply Hlow|].
Qed.

(** X29.  The reply check of the chatbot returns the reply as it is or
    one of its two fixed messages.  A reply in which one of the nine
    hedging phrases occurs, in any letter case, is never passed on.  When
    the data is empty, a reply that is passed on says so: one of the
    phrases for absent data occurs in it, unless it is the fixed message
    for absent data itself. *)
Theorem reply_check (response : string) (data : ChatbotReply.js_data) :
  let out := ChatbotReply.validateResponseAgainstData response data in
  (out = response ∨ out = ChatbotReply.no_data_message ∨
   out = ChatbotReply.data_only_message) ∧
  ((∃ indicator, indicator ∈ ChatbotReply.hallucinationIndicators ∧
                 occurs_in indicator (Str.chars response)) →
   out ≠ response) ∧
  (ChatbotReply.is_empty data = true → out = response →
   response = ChatbotReply.no_data_message ∨
   ∃ phrase, phrase ∈ ChatbotReply.absencePhrases ∧
             occurs_in phrase (Str.chars response)).
Proof.
  intros out. subst out. unfold ChatbotReply.validateResponseAgainstData.
  destruct (ChatbotReply.is_empty data) eqn:He.
  - destruct (Str.includes (Str.chars "no data") _) eqn:H1;
      [|destruct (Str.includes (Str.chars "not found") _) eqn:H2;
        [|destruct (Str.includes (Str.chars "unavailable") _) eqn:H3]];
      cbn [andb negb].
    4: { split; [by auto|]. split.
         - intros Hh%hedged_spec Heq. rewrite <- Heq in Hh. by vm_compute in Hh.
         - intros _ Heq. by left. }
    all: destruct (existsb _ _) eqn:Hh.
    all: split; [by auto|]; split;
      [ intros Hh'%hedged_spec; try congruence;
        intros Heq; rewrite <- Heq in Hh'; by vm_compute in Hh'
      | intros _ _; right ].
    all: first
      [ exists "no data"; split; [set_solver|];
        by apply includes_lower_occurs
      | exists "not found"; split; [set_solver|];
        by apply includes_lower_occurs
      | exists "unavailable"; split; [set_solver|];
        by apply includes_lower_occurs ].
  - cbn [andb]. destruct (existsb _ _) eqn:Hh.
    + split; [by auto|]. split; [|done].
      intros Hh'%hedged_spec Heq. rewrite <- Heq in Hh'. by vm_compute in Hh'.
    + split; [by auto|]. split; [|done].
      intros Hh'%hedged_spec. congruence.
Qed.

Lemma truthy_same_lower (role role' : string) :
  Str.toLowerCase (Str.chars role') = Str.toLowerCase (Str.chars role) →
  Js.truthy_str (Some role') = Js.truthy_str (Some role).
Proof. by destruct role, role'. Qed.

(** X30.  The role check ignores letter case, of the role of the user and
    of the roles a route allows: two users whose roles differ in letter
    case only get the same answer from the middleware, and so do two
    routes whose lists of roles differ in letter case only. *)
Theorem authorize_role_ignores_case (allowed allowed' : list string)
    (role role' : string) :
  Str.toLowerCase (Str.chars role') = Str.toLowerCase (Str.chars role) →
  (λ r, Str.toLowerCase (Str.chars r)) <$> allowed'
  = (λ r, Str.toLowerCase (Str.chars r)) <$> allowed →
  authorizeRole allowed' (Some (Some role'))
  = authorizeRole allowed (Some (Some role)).
Proof.
  intros Hr Ha. unfold authorizeRole.
  rewrite (truthy_same_lower role role' Hr). cbn [default]. unfold id.
  by rewrite Hr, Ha.
Qed.

Lemma authorize_role_ignores_case_witness :
  authorizeRole ["Pharmacy"] (Some (Some "PHARMACY"))
  = authorizeRole dispensing_roles (Some (Some "pharmacy")) ∧
  authorizeRole dispensing_roles (Some (Some "pharmacy")) = Next ∧
  authorizeRole seller_roles (Some (Some "pharmacy")) = AccessDenied ∧
  authorizeRole seller_roles (Some None) = Unauthenticated.
Proof.
  split; [|by vm_compute].
  apply authorize_role_ignores_case; by vm_compute.
Defined.

Lemma import_writes_positive_quantities_witness :
  let t := pharmacy 10 (Some 3) in
  let r := mkDisp 1 4 "2025-01-15" "OPD" (Some EmptyString) 7 in
  daily_dispensing_summary t !! 1 = Some r ∨
  (0 < dds_quantity_dispensed r ∧ dds_dispensing_date r = "2025-01-15" ∧
   dds_category r = default "OPD" None ∧
   ∃ dr, drugs t !! dds_drug_id r = Some dr ∧ d_created_by dr = 7).
Proof.
  apply (import_writes_positive_quantities
           (λ _, DispensingImport.NoRowFault) "2025-01-15" 7 None None
           (Some sample_file) (pharmacy 10 (Some 3)) 1).
  by vm_compute.
Defined.
